(** * The tablet connection conformance suite (go/vt/tabletserver/tabletconntest)

    A shallow embedding of [tabletconntest.go]: the fake query service, its
    panic handler, the fixtures and the conformance tests, together with the
    properties of the query service protocol that they decide. *)

From Stdlib Require Import ZArith.
From stdpp Require Import gmap strings list.

Local Open Scope Z_scope.
Local Open Scope string_scope.

(** ** Go values used by the package *)

Module Go.

(** [strings.HasPrefix]. *)
Fixpoint HasPrefix (s p : string) : bool :=
  match p with
  | EmptyString => true
  | String c p' =>
      match s with
      | EmptyString => false
      | String d s' => if Ascii.eqb c d then HasPrefix s' p' else false
      end
  end.

(** [strings.Contains]. *)
Fixpoint Contains (s substr : string) : bool :=
  HasPrefix s substr ||
  match s with
  | EmptyString => false
  | String _ s' => Contains s' substr
  end.

(** A slice is [nil] or a (possibly empty) sequence; [reflect.DeepEqual]
    tells the two apart, [len] does not. *)
Definition slice (A : Type) : Type := option (list A).

Definition len {A} (s : slice A) : nat :=
  match s with
  | None => 0%nat
  | Some l => length l
  end.

(** A channel of [struct{}] that is only ever closed ([make], [close] and
    a receive that blocks until the close). *)
Inductive chan := Open | Closed.

End Go.

(** ** Errors *)

(** Modelled from the spec: [tabletserver.TabletError] and
    [tabletserver.NewTabletError] are not part of the sources at hand.  The
    spec gives a call error a kind and a message and renders it as
    [error: <message>]; the fixture [expectedErrMatch] records that rendering
    for [testTabletError]. *)
Inductive ErrorKind :=
  | InvalidSession | NotInTransaction | SessionMismatch | InvalidArgument
  | ExecutionFailed | Cancelled | Internal.

Record TabletError := NewTabletError { ErrorType : ErrorKind; Message : string }.

(** Modelled from the spec: the constant [tabletserver.ErrFail], declared
    outside the sources at hand; the failure the engine reports when it
    executes a statement. *)
Definition ErrFail : ErrorKind := ExecutionFailed.

(** A non-nil Go [error]: a tablet error or the result of [fmt.Errorf]. *)
Inductive GoError :=
  | TabletErr (e : TabletError)
  | Errorf (msg : string).

(** The [Error()] method.  Modelled from the spec for a tablet error (its
    method is outside the sources at hand): [error: <message>]. *)
Definition Error (e : GoError) : string :=
  match e with
  | TabletErr te => "error: " ++ Message te
  | Errorf msg => msg
  end.

(** The interface value [error]; [None] is [nil]. *)
Abbreviation error := (option GoError).

(** ** The data carried by the calls (package [proto], [mproto], [sqltypes]) *)

(** The values bound to the parameters of a query ([interface{}] in the
    source, which binds [int64] values only). *)
Inductive BindVal :=
  | BInt64 (z : Z)
  | BBytes (b : string)
  | BNull.

(** [sqltypes.Value], built in the source with [sqltypes.MakeString]. *)
Inductive Value := MakeString (b : string).

(** [mproto.Field], with its fields [Name] and [Type]. *)
Record Field := { Name : string; Type_ : Z }.

(** [mproto.QueryResult]; the integers are compared, never computed with,
    so they are kept as integers without a width. *)
Record QueryResult := {
  Fields : Go.slice Field;
  RowsAffected : Z;
  InsertId : Z;
  Rows : Go.slice (list Value)
}.

(** [proto.BoundQuery], with its fields [Sql] and [BindVariables]. *)
Record BoundQuery := { bqSql : string; bqBindVariables : gmap string BindVal }.

(** [proto.Session], with its fields [SessionId] and [TransactionId]. *)
Record Session := { sSessionId : Z; sTransactionId : Z }.

(** [proto.TransactionInfo], with its field [TransactionId]. *)
Record TransactionInfo := { tiTransactionId : Z }.

(** [proto.SessionParams]. *)
Record SessionParams := { Keyspace : string; Shard : string }.

(** [proto.SessionInfo], with its field [SessionId]. *)
Record SessionInfo := { siSessionId : Z }.

(** [proto.Query]. *)
Record Query := {
  Sql : string;
  BindVariables : gmap string BindVal;
  SessionId : Z;
  TransactionId : Z
}.

(** [proto.QueryList], with its fields [Queries], [SessionId] and
    [TransactionId]. *)
Record QueryList := {
  Queries : list BoundQuery;
  qlSessionId : Z;
  qlTransactionId : Z
}.

(** [proto.QueryResultList]. *)
Record QueryResultList := { List : list QueryResult }.

(** [proto.SplitQueryRequest], with its fields [Query] and [SplitCount]. *)
Record SplitQueryRequest := { sqQuery : BoundQuery; SplitCount : Z }.

(** [proto.QuerySplit], with its fields [Query] and [RowCount]. *)
Record QuerySplit := { qsQuery : BoundQuery; RowCount : Z }.

(** [proto.SplitQueryResult], with its field [Queries]. *)
Record SplitQueryResult := { sqrQueries : list QuerySplit }.

Global Instance BindVal_eq_dec : EqDecision BindVal.
Proof. solve_decision. Defined.
Global Instance Value_eq_dec : EqDecision Value.
Proof. solve_decision. Defined.
Global Instance Field_eq_dec : EqDecision Field.
Proof. solve_decision. Defined.
Global Instance QueryResult_eq_dec : EqDecision QueryResult.
Proof. solve_decision. Defined.
Global Instance BoundQuery_eq_dec : EqDecision BoundQuery.
Proof. solve_decision. Defined.
Global Instance QueryResultList_eq_dec : EqDecision QueryResultList.
Proof. solve_decision. Defined.
Global Instance QuerySplit_eq_dec : EqDecision QuerySplit.
Proof. solve_decision. Defined.

(** [reflect.DeepEqual] on the value types above is structural equality. *)
Definition DeepEqual {A} `{EqDecision A} (x y : A) : bool := bool_decide (x = y).

(** ** [testing.T] *)

(** The operands of a format string, kept unformatted. *)
Inductive fmtarg :=
  | VInt (z : Z)
  | VStr (s : string)
  | VErr (e : error)
  | VBind (m : gmap string BindVal)
  | VBound (q : BoundQuery)
  | VQueries (l : list BoundQuery)
  | VResult (r : QueryResult)
  | VResultList (l : QueryResultList)
  | VSplits (l : list QuerySplit).

Inductive Level := LLog | LError | LFatal.

Record LogEntry := { level : Level; format : string; args : list fmtarg }.

(** The state of a [*testing.T]: what was logged, in order. *)
Definition T := list LogEntry.

Definition isFailure (e : LogEntry) : bool :=
  match level e with
  | LLog => false
  | _ => true
  end.

(** [t.Failed()]. *)
Definition Failed (t : T) : bool := existsb isFailure t.

Definition Errorf_ (t : T) (fmt : string) (a : list fmtarg) : T :=
  (t ++ [{| level := LError; format := fmt; args := a |}])%list.

Definition Log_ (t : T) (msg : string) : T :=
  (t ++ [{| level := LLog; format := msg; args := [] |}])%list.

Definition Fatalf_ (t : T) (fmt : string) (a : list fmtarg) : T :=
  (t ++ [{| level := LFatal; format := fmt; args := a |}])%list.

(** [if cond { t.Errorf(fmt, a...) }]. *)
Definition ErrorfIf (cond : bool) (t : T) (fmt : string) (a : list fmtarg) : T :=
  if cond then Errorf_ t fmt a else t.

(** ** The fake query service *)

(** How a Go function body ends: it returns its [error], or it panics. *)
Inductive Outcome :=
  | Returned (err : error)
  | Panicked (x : GoError).

(** [FakeQueryService]; its field [t] is the [*testing.T] shared with the
    tests, which the methods below receive and hand back. *)
Record FakeQueryService := {
  hasError : bool;
  panics : bool;
  streamExecutePanicsEarly : bool
}.

(** [HandlePanic]: [recovered] is the value of [recover()] ([None] when the
    function is not panicking), [err] the current content of [*err]; the
    result is the content of [*err] afterwards. *)
Definition HandlePanic (recovered : option GoError) (err : error) : error :=
  match recovered with
  | Some x => Some (Errorf ("caught test panic: " ++ Error x))
  | None => err
  end.

Definition TestKeyspace : string := "test_keyspace".
Definition TestShard : string := "test_shard".
Definition testSessionID : Z := 5678.

Definition testTabletError : GoError :=
  TabletErr (NewTabletError ErrFail "generic error").

Definition expectedErrMatch : string := "error: generic error".

Definition GetSessionId (f : FakeQueryService) (sessionParams : SessionParams)
    (sessionInfo : SessionInfo) (t : T) : T * SessionInfo * error :=
  let t := ErrorfIf (negb (String.eqb (Keyspace sessionParams) TestKeyspace)) t
             "invalid keyspace: got %v expected %v"
             [VStr (Keyspace sessionParams); VStr TestKeyspace] in
  let t := ErrorfIf (negb (String.eqb (Shard sessionParams) TestShard)) t
             "invalid shard: got %v expected %v"
             [VStr (Shard sessionParams); VStr TestShard] in
  (t, {| siSessionId := testSessionID |}, None).

Definition beginTransactionID : Z := 9990.

Definition Begin (f : FakeQueryService) (session : Session)
    (txInfo : TransactionInfo) (t : T) : T * TransactionInfo * Outcome :=
  if hasError f then (t, txInfo, Returned (Some testTabletError))
  else if panics f then (t, txInfo, Panicked (Errorf "test-triggered panic"))
  else
    let t := ErrorfIf (negb (sSessionId session =? testSessionID)%Z) t
               "Begin: invalid SessionId: got %v expected %v"
               [VInt (sSessionId session); VInt testSessionID] in
    let t := ErrorfIf (negb (sTransactionId session =? 0)%Z) t
               "Begin: invalid TransactionId: got %v expected 0"
               [VInt (sTransactionId session)] in
    (t, {| tiTransactionId := beginTransactionID |}, Returned None).

Definition commitTransactionID : Z := 999044.

Definition Commit (f : FakeQueryService) (session : Session) (t : T)
    : T * Outcome :=
  if hasError f then (t, Returned (Some testTabletError))
  else if panics f then (t, Panicked (Errorf "test-triggered panic"))
  else
    let t := ErrorfIf (negb (sSessionId session =? testSessionID)%Z) t
               "Commit: invalid SessionId: got %v expected %v"
               [VInt (sSessionId session); VInt testSessionID] in
    let t := ErrorfIf (negb (sTransactionId session =? commitTransactionID)%Z) t
               "Commit: invalid TransactionId: got %v expected %v"
               [VInt (sTransactionId session); VInt commitTransactionID] in
    (t, Returned None).

Definition rollbackTransactionID : Z := 999044.

Definition Rollback (f : FakeQueryService) (session : Session) (t : T)
    : T * Outcome :=
  if hasError f then (t, Returned (Some testTabletError))
  else if panics f then (t, Panicked (Errorf "test-triggered panic"))
  else
    let t := ErrorfIf (negb (sSessionId session =? testSessionID)%Z) t
               "Rollback: invalid SessionId: got %v expected %v"
               [VInt (sSessionId session); VInt testSessionID] in
    let t := ErrorfIf (negb (sTransactionId session =? rollbackTransactionID)%Z) t
               "Rollback: invalid TransactionId: got %v expected %v"
               [VInt (sTransactionId session); VInt rollbackTransactionID] in
    (t, Returned None).

Definition executeQuery : string := "executeQuery".

Definition executeBindVars : gmap string BindVal :=
  {[ "bind1" := BInt64 1114444 ]}.

Definition executeTransactionID : Z := 678.

Definition executeQueryResult : QueryResult := {|
  Fields := Some [ {| Name := "field1"; Type_ := 42 |};
                   {| Name := "field2"; Type_ := 73 |} ];
  RowsAffected := 123;
  InsertId := 72;
  Rows := Some [ [MakeString "row1 value1"; MakeString "row1 value2"];
                 [MakeString "row2 value1"; MakeString "row2 value2"] ]
|}.

Definition Execute (f : FakeQueryService) (query : Query) (reply : QueryResult)
    (t : T) : T * QueryResult * Outcome :=
  if hasError f then (t, reply, Returned (Some testTabletError))
  else if panics f then (t, reply, Panicked (Errorf "test-triggered panic"))
  else
    let t := ErrorfIf (negb (String.eqb (Sql query) executeQuery)) t
               "invalid Execute.Query.Sql: got %v expected %v"
               [VStr (Sql query); VStr executeQuery] in
    let t := ErrorfIf (negb (DeepEqual (BindVariables query) executeBindVars)) t
               "invalid Execute.Query.BindVariables: got %v expected %v"
               [VBind (BindVariables query); VBind executeBindVars] in
    let t := ErrorfIf (negb (SessionId query =? testSessionID)%Z) t
               "invalid Execute.Query.SessionId: got %v expected %v"
               [VInt (SessionId query); VInt testSessionID] in
    let t := ErrorfIf (negb (TransactionId query =? executeTransactionID)%Z) t
               "invalid Execute.Query.TransactionId: got %v expected %v"
               [VInt (TransactionId query); VInt executeTransactionID] in
    (t, executeQueryResult, Returned None).

(** The package-level channels [panicWait] and [errorWait] that sequence the
    fake against the streaming tests. *)
Inductive WaitChan := panicWait | errorWait.

(** A streaming method body: it reports to [f.t], calls [sendReply], blocks
    on one of the channels, and ends by returning or panicking. *)
Inductive Proc :=
  | PErrorf (fmt : string) (a : list fmtarg) (k : Proc)
  | PSend (qr : QueryResult) (k : error -> Proc)
  | PRecv (c : WaitChan) (k : Proc)
  | PDone (o : Outcome).

Definition PErrorfIf (cond : bool) (fmt : string) (a : list fmtarg) (k : Proc)
    : Proc :=
  if cond then PErrorf fmt a k else k.

Definition isNotNil (e : error) : bool :=
  match e with
  | Some _ => true
  | None => false
  end.

Definition streamExecuteQuery : string := "streamExecuteQuery".

Definition streamExecuteBindVars : gmap string BindVal :=
  {[ "bind1" := BInt64 93848000 ]}.

Definition streamExecuteTransactionID : Z := 6789992.

Definition streamExecuteQueryResult1 : QueryResult := {|
  Fields := Some [ {| Name := "field1"; Type_ := 42 |};
                   {| Name := "field2"; Type_ := 73 |} ];
  RowsAffected := 0;
  InsertId := 0;
  Rows := None
|}.

Definition streamExecuteQueryResult2 : QueryResult := {|
  Fields := None;
  RowsAffected := 0;
  InsertId := 0;
  Rows := Some [ [MakeString "row1 value1"; MakeString "row1 value2"];
                 [MakeString "row2 value1"; MakeString "row2 value2"] ]
|}.

Definition StreamExecute (f : FakeQueryService) (query : Query) : Proc :=
  if panics f && streamExecutePanicsEarly f
  then PDone (Panicked (Errorf "test-triggered panic early"))
  else
    PErrorfIf (negb (String.eqb (Sql query) streamExecuteQuery))
      "invalid StreamExecute.Query.Sql: got %v expected %v"
      [VStr (Sql query); VStr streamExecuteQuery]
    (PErrorfIf (negb (DeepEqual (BindVariables query) streamExecuteBindVars))
      "invalid StreamExecute.Query.BindVariables: got %v expected %v"
      [VBind (BindVariables query); VBind streamExecuteBindVars]
    (PErrorfIf (negb (SessionId query =? testSessionID)%Z)
      "invalid StreamExecute.Query.SessionId: got %v expected %v"
      [VInt (SessionId query); VInt testSessionID]
    (PSend streamExecuteQueryResult1 (fun err =>
     PErrorfIf (isNotNil err) "sendReply1 failed: %v" [VErr err]
    (if panics f && negb (streamExecutePanicsEarly f)
     then PRecv panicWait (PDone (Panicked (Errorf "test-triggered panic late")))
     else if hasError f
     then PRecv errorWait (PDone (Returned (Some testTabletError)))
     else PSend streamExecuteQueryResult2 (fun err =>
          PErrorfIf (isNotNil err) "sendReply2 failed: %v" [VErr err]
          (PDone (Returned None)))))))).

Definition executeBatchQueries : list BoundQuery := [
  {| bqSql := "executeBatchQueries1";
     bqBindVariables := {[ "bind1" := BInt64 43 ]} |};
  {| bqSql := "executeBatchQueries2";
     bqBindVariables := {[ "bind2" := BInt64 72 ]} |}
].

Definition executeBatchTransactionID : Z := 678.

Definition executeBatchQueryResultList : QueryResultList := {|
  List := [
    {| Fields := Some [ {| Name := "field1"; Type_ := 46 |} ];
       RowsAffected := 1232;
       InsertId := 712;
       Rows := Some [ [MakeString "row1 value1"]; [MakeString "row2 value1"] ] |};
    {| Fields := Some [ {| Name := "field1"; Type_ := 42 |} ];
       RowsAffected := 12333;
       InsertId := 74442;
       Rows := Some [ [MakeString "row1 value1"; MakeString "row1 value2"] ] |}
  ]
|}.

Definition ExecuteBatch (f : FakeQueryService) (queryList : QueryList)
    (reply : QueryResultList) (t : T) : T * QueryResultList * Outcome :=
  if hasError f then (t, reply, Returned (Some testTabletError))
  else if panics f then (t, reply, Panicked (Errorf "test-triggered panic"))
  else
    let t := ErrorfIf (negb (DeepEqual (Queries queryList) executeBatchQueries)) t
               "invalid ExecuteBatch.QueryList.Queries: got %v expected %v"
               [VQueries (Queries queryList); VQueries executeBatchQueries] in
    let t := ErrorfIf (negb (qlSessionId queryList =? testSessionID)%Z) t
               "invalid ExecuteBatch.QueryList.SessionId: got %v expected %v"
               [VInt (qlSessionId queryList); VInt testSessionID] in
    let t := ErrorfIf (negb (qlTransactionId queryList =? executeBatchTransactionID)%Z) t
               "invalid ExecuteBatch.QueryList.TransactionId: got %v expected %v"
               [VInt (qlTransactionId queryList); VInt executeBatchTransactionID] in
    (t, executeBatchQueryResultList, Returned None).

Definition splitQueryBoundQuery : BoundQuery := {|
  bqSql := "splitQuery";
  bqBindVariables := {[ "bind1" := BInt64 43 ]}
|}.

Definition splitQuerySplitCount : Z := 372.

Definition splitQueryQuerySplitList : list QuerySplit := [
  {| qsQuery := {| bqSql := "splitQuery";
                   bqBindVariables :=
                     <[ "bind1" := BInt64 43 ]>
                       {[ "keyspace_id" := BInt64 3333 ]} |};
     RowCount := 4456 |}
].

Definition SplitQuery (f : FakeQueryService) (req : SplitQueryRequest)
    (reply : SplitQueryResult) (t : T) : T * SplitQueryResult * Outcome :=
  if hasError f then (t, reply, Returned (Some testTabletError))
  else if panics f then (t, reply, Panicked (Errorf "test-triggered panic"))
  else
    let t := ErrorfIf (negb (DeepEqual (sqQuery req) splitQueryBoundQuery)) t
               "invalid SplitQuery.SplitQueryRequest.Query: got %v expected %v"
               [VBound (sqQuery req); VBound splitQueryBoundQuery] in
    let t := ErrorfIf (negb (SplitCount req =? splitQuerySplitCount)%Z) t
               "invalid SplitQuery.SplitQueryRequest.SplitCount: got %v expected %v"
               [VInt (SplitCount req); VInt splitQuerySplitCount] in
    (t, {| sqrQueries := splitQueryQuerySplitList |}, Returned None).

(** ** The state shared by the fake, the tests and a connection *)

(** The fake behind the pointer [fake], the [*testing.T] that the fake and
    the tests both write to, the two package-level channels, and the
    server-wide flag [*tabletserver.RPCErrorOnlyInReply]. *)
Record World := {
  fake : FakeQueryService;
  tlog : T;
  chPanicWait : Go.chan;
  chErrorWait : Go.chan;
  RPCErrorOnlyInReply : bool
}.

Definition setFake (f : FakeQueryService) (w : World) : World :=
  {| fake := f; tlog := tlog w; chPanicWait := chPanicWait w;
     chErrorWait := chErrorWait w; RPCErrorOnlyInReply := RPCErrorOnlyInReply w |}.

Definition setLog (t : T) (w : World) : World :=
  {| fake := fake w; tlog := t; chPanicWait := chPanicWait w;
     chErrorWait := chErrorWait w; RPCErrorOnlyInReply := RPCErrorOnlyInReply w |}.

Definition getChan (c : WaitChan) (w : World) : Go.chan :=
  match c with
  | panicWait => chPanicWait w
  | errorWait => chErrorWait w
  end.

Definition setChan (c : WaitChan) (v : Go.chan) (w : World) : World :=
  match c with
  | panicWait =>
      {| fake := fake w; tlog := tlog w; chPanicWait := v;
         chErrorWait := chErrorWait w; RPCErrorOnlyInReply := RPCErrorOnlyInReply w |}
  | errorWait =>
      {| fake := fake w; tlog := tlog w; chPanicWait := chPanicWait w;
         chErrorWait := v; RPCErrorOnlyInReply := RPCErrorOnlyInReply w |}
  end.

Definition setHasError (b : bool) (f : FakeQueryService) : FakeQueryService :=
  {| hasError := b; panics := panics f;
     streamExecutePanicsEarly := streamExecutePanicsEarly f |}.

Definition setPanics (b : bool) (f : FakeQueryService) : FakeQueryService :=
  {| hasError := hasError f; panics := b;
     streamExecutePanicsEarly := streamExecutePanicsEarly f |}.

Definition setStreamExecutePanicsEarly (b : bool) (f : FakeQueryService)
    : FakeQueryService :=
  {| hasError := hasError f; panics := panics f; streamExecutePanicsEarly := b |}.

(** [CreateFakeServer]: fresh channels and a fake with every switch off;
    [flag] is the value the server-wide flag has in this run. *)
Definition CreateFakeServer (t : T) (flag : bool) : World :=
  {| fake := {| hasError := false; panics := false;
                streamExecutePanicsEarly := false |};
     tlog := t;
     chPanicWait := Go.Open;
     chErrorWait := Go.Open;
     RPCErrorOnlyInReply := flag |}.

(** ** The connection under test *)

(** What a receive from the result channel observes; [WouldBlock] stands for
    a channel that is neither closed nor about to deliver. *)
Inductive RecvResult :=
  | Got (qr : QueryResult)
  | ChanClosed
  | WouldBlock.

Module tabletconn.

(** Modelled from the spec: the interface [tabletconn.TabletConn] is declared
    outside the sources at hand; its methods are those the tests call, with
    the arguments and results they are called with.  A streaming call hands
    back a stream, from which [Recv] is [<-stream] and [ErrFunc] the terminal
    error accessor. *)
Record TabletConn := {
  Stream : Type;
  Begin : World -> World * (Z * error);
  Begin2 : World -> World * (Z * error);
  Commit : Z -> World -> World * error;
  Commit2 : Z -> World -> World * error;
  Rollback : Z -> World -> World * error;
  Rollback2 : Z -> World -> World * error;
  Execute : string -> gmap string BindVal -> Z ->
            World -> World * (QueryResult * error);
  ExecuteBatch : list BoundQuery -> Z ->
                 World -> World * (QueryResultList * error);
  StreamExecute : string -> gmap string BindVal -> Z ->
                  World -> World * (Stream * error);
  StreamExecute2 : string -> gmap string BindVal -> Z ->
                   World -> World * (Stream * error);
  SplitQuery : BoundQuery -> Z -> World -> World * (list QuerySplit * error);
  Recv : Stream -> World -> World * (Stream * RecvResult);
  ErrFunc : Stream -> World -> error
}.

End tabletconn.

Abbreviation TabletConn := tabletconn.TabletConn.

(** ** Test functions *)

(** Why a test function stops before its end: [t.Fatalf], a receive that can
    never complete, closing a closed channel, or a consumer that stopped
    reading. *)
Inductive Stop := FailNow | Deadlock | CloseOfClosed | Abandoned.

Inductive Res (A : Type) :=
  | Ok (a : A)
  | Stopped (s : Stop).
Arguments Ok {A} a.
Arguments Stopped {A} s.

Definition TestM (A : Type) : Type := World -> World * Res A.

Definition ret {A} (a : A) : TestM A := fun w => (w, Ok a).

Definition bind {A B} (m : TestM A) (k : A -> TestM B) : TestM B :=
  fun w =>
    match m w with
    | (w', Ok a) => k a w'
    | (w', Stopped s) => (w', Stopped s)
    end.

Notation "'let*' x ':=' m 'in' k" := (bind m (fun x => k))
  (at level 10, x pattern, m at level 100, k at level 200).
Notation "m ';;' k" := (bind m (fun _ => k))
  (at level 100, k at level 200, right associativity).

Definition tLog (msg : string) : TestM unit :=
  fun w => (setLog (Log_ (tlog w) msg) w, Ok tt).

Definition tErrorf (fmt : string) (a : list fmtarg) : TestM unit :=
  fun w => (setLog (Errorf_ (tlog w) fmt a) w, Ok tt).

Definition tFatalf {A} (fmt : string) (a : list fmtarg) : TestM A :=
  fun w => (setLog (Fatalf_ (tlog w) fmt a) w, Stopped FailNow).

Definition when (cond : bool) (m : TestM unit) : TestM unit :=
  if cond then m else ret tt.

(** A call on the connection. *)
Definition call {A} (m : World -> World * A) : TestM A :=
  fun w => let (w', a) := m w in (w', Ok a).

(** [qr, ok := <-stream]. *)
Definition recv (conn : TabletConn) (stream : tabletconn.Stream conn)
    : TestM (tabletconn.Stream conn * option QueryResult) :=
  fun w =>
    match tabletconn.Recv conn stream w with
    | (w', (s', Got qr)) => (w', Ok (s', Some qr))
    | (w', (s', ChanClosed)) => (w', Ok (s', None))
    | (w', (s', WouldBlock)) => (w', Stopped Deadlock)
    end.

(** [close(c)]. *)
Definition close (c : WaitChan) : TestM unit :=
  fun w =>
    match getChan c w with
    | Go.Open => (setChan c Go.Closed w, Ok tt)
    | Go.Closed => (w, Stopped CloseOfClosed)
    end.

(** [c = make(chan struct{})]. *)
Definition make (c : WaitChan) : TestM unit :=
  fun w => (setChan c Go.Open w, Ok tt).

Definition updFake (g : FakeQueryService -> FakeQueryService) : TestM unit :=
  fun w => (setFake (g (fake w)) w, Ok tt).

Definition getFlag : TestM bool :=
  fun w => (w, Ok (RPCErrorOnlyInReply w)).

Definition is_Some_b {A} (o : option A) : bool :=
  match o with
  | Some _ => true
  | None => false
  end.

(** [err == nil || !strings.Contains(err.Error(), s)]. *)
Definition nilOrLacks (err : error) (s : string) : bool :=
  match err with
  | None => true
  | Some e => negb (Go.Contains (Error e) s)
  end.

(** [errFunc()]. *)
Definition errFunc (conn : TabletConn) (stream : tabletconn.Stream conn)
    : TestM error :=
  fun w => (w, Ok (tabletconn.ErrFunc conn stream w)).

(** [if len(qr.Rows) == 0 { qr.Rows = nil }]. *)
Definition nilRowsIfEmpty (qr : QueryResult) : QueryResult :=
  if (Go.len (Rows qr) =? 0)%nat
  then {| Fields := Fields qr; RowsAffected := RowsAffected qr;
          InsertId := InsertId qr; Rows := None |}
  else qr.

(** [if len(qr.Fields) == 0 { qr.Fields = nil }]. *)
Definition nilFieldsIfEmpty (qr : QueryResult) : QueryResult :=
  if (Go.len (Fields qr) =? 0)%nat
  then {| Fields := None; RowsAffected := RowsAffected qr;
          InsertId := InsertId qr; Rows := Rows qr |}
  else qr.

Section Tests.

Variable conn : TabletConn.

Definition testBegin : TestM unit :=
  tLog "testBegin" ;;
  let* (transactionID, err) := call (tabletconn.Begin conn) in
  when (isNotNil err) (tFatalf "Begin failed: %v" [VErr err]) ;;
  when (negb (transactionID =? beginTransactionID)%Z)
    (tErrorf "Unexpected result from Begin: got %v wanted %v"
       [VInt transactionID; VInt beginTransactionID]).

Definition testBeginError : TestM unit :=
  tLog "testBeginError" ;;
  let* (_, err) := call (tabletconn.Begin conn) in
  when (negb (isNotNil err))
    (tFatalf "Begin was expecting an error, didn't get one" []) ;;
  when (nilOrLacks err expectedErrMatch)
    (tErrorf "Unexpected error from Begin: got %v, wanted err containing %v"
       [VErr err; VStr expectedErrMatch]).

Definition testBeginPanics : TestM unit :=
  tLog "testBeginPanics" ;;
  let* (_, err) := call (tabletconn.Begin conn) in
  when (nilOrLacks err "caught test panic")
    (tFatalf "unexpected panic error: %v" [VErr err]).

Definition testBegin2 : TestM unit :=
  tLog "testBegin2" ;;
  let* (transactionId, err) := call (tabletconn.Begin2 conn) in
  when (isNotNil err) (tFatalf "Begin2 failed: %v" [VErr err]) ;;
  when (negb (transactionId =? beginTransactionID)%Z)
    (tErrorf "Unexpected result from Begin2: got %v wanted %v"
       [VInt transactionId; VInt beginTransactionID]).

Definition testBegin2Error : TestM unit :=
  tLog "testBegin2Error" ;;
  let* (_, err) := call (tabletconn.Begin2 conn) in
  when (negb (isNotNil err))
    (tFatalf "Begin2 was expecting an error, didn't get one" []) ;;
  when (nilOrLacks err expectedErrMatch)
    (tErrorf "Unexpected error from Begin2: got %v, wanted err containing %v"
       [VErr err; VStr expectedErrMatch]).

Definition testBegin2Panics : TestM unit :=
  tLog "testBegin2Panics" ;;
  let* (_, err) := call (tabletconn.Begin2 conn) in
  when (nilOrLacks err "caught test panic")
    (tFatalf "unexpected panic error: %v" [VErr err]).

Definition testCommit : TestM unit :=
  tLog "testCommit" ;;
  let* err := call (tabletconn.Commit conn commitTransactionID) in
  when (isNotNil err) (tFatalf "Commit failed: %v" [VErr err]).

Definition testCommitError : TestM unit :=
  tLog "testCommitError" ;;
  let* flag := getFlag in
  let* err := (if flag : bool
               then call (tabletconn.Commit2 conn commitTransactionID)
               else call (tabletconn.Commit conn commitTransactionID)) in
  when (negb (isNotNil err))
    (tFatalf "Commit was expecting an error, didn't get one" []) ;;
  when (nilOrLacks err expectedErrMatch)
    (tErrorf "Unexpected error from Commit: got %v, wanted err containing %v"
       [VErr err; VStr expectedErrMatch]).

Definition testCommitPanics : TestM unit :=
  tLog "testCommitPanics" ;;
  let* err := call (tabletconn.Commit conn commitTransactionID) in
  when (nilOrLacks err "caught test panic")
    (tFatalf "unexpected panic error: %v" [VErr err]).

Definition testRollback : TestM unit :=
  tLog "testRollback" ;;
  let* err := call (tabletconn.Rollback conn rollbackTransactionID) in
  when (isNotNil err) (tFatalf "Rollback failed: %v" [VErr err]).

Definition testRollbackError : TestM unit :=
  tLog "testCommitError" ;;
  let* flag := getFlag in
  let* err := (if flag : bool
               then call (tabletconn.Rollback2 conn commitTransactionID)
               else call (tabletconn.Rollback conn commitTransactionID)) in
  when (negb (isNotNil err))
    (tFatalf "Rollback was expecting an error, didn't get one" []) ;;
  when (nilOrLacks err expectedErrMatch)
    (tErrorf "Unexpected error from Rollback: got %v, wanted err containing %v"
       [VErr err; VStr expectedErrMatch]).

Definition testRollbackPanics : TestM unit :=
  tLog "testRollbackPanics" ;;
  let* err := call (tabletconn.Rollback conn rollbackTransactionID) in
  when (nilOrLacks err "caught test panic")
    (tFatalf "unexpected panic error: %v" [VErr err]).

Definition testExecute : TestM unit :=
  tLog "testExecute" ;;
  let* (qr, err) := call (tabletconn.Execute conn executeQuery executeBindVars
                             executeTransactionID) in
  when (isNotNil err) (tFatalf "Execute failed: %v" [VErr err]) ;;
  when (negb (DeepEqual qr executeQueryResult))
    (tErrorf "Unexpected result from Execute: got %v wanted %v"
       [VResult qr; VResult executeQueryResult]).

Definition testExecuteError : TestM unit :=
  tLog "testExecuteError" ;;
  let* (_, err) := call (tabletconn.Execute conn executeQuery executeBindVars
                            executeTransactionID) in
  when (negb (isNotNil err))
    (tFatalf "Execute was expecting an error, didn't get one" []) ;;
  when (nilOrLacks err expectedErrMatch)
    (tErrorf "Unexpected error from Execute: got %v, wanted err containing %v"
       [VErr err; VStr expectedErrMatch]).

Definition testExecutePanics : TestM unit :=
  tLog "testExecutePanics" ;;
  let* (_, err) := call (tabletconn.Execute conn executeQuery executeBindVars
                            executeTransactionID) in
  when (nilOrLacks err "caught test panic")
    (tFatalf "unexpected panic error: %v" [VErr err]).

Definition testStreamExecute : TestM unit :=
  tLog "testStreamExecute" ;;
  let* (stream, err) := call (tabletconn.StreamExecute conn streamExecuteQuery
                                streamExecuteBindVars streamExecuteTransactionID) in
  when (isNotNil err) (tFatalf "StreamExecute failed: %v" [VErr err]) ;;
  let* (stream, r) := recv conn stream in
  match r with
  | None => tFatalf "StreamExecute failed: cannot read result1" []
  | Some qr =>
      let qr := nilRowsIfEmpty qr in
      when (negb (DeepEqual qr streamExecuteQueryResult1))
        (tErrorf "Unexpected result1 from StreamExecute: got %v wanted %v"
           [VResult qr; VResult streamExecuteQueryResult1]) ;;
      let* (stream, r) := recv conn stream in
      match r with
      | None => tFatalf "StreamExecute failed: cannot read result2" []
      | Some qr =>
          let qr := nilFieldsIfEmpty qr in
          when (negb (DeepEqual qr streamExecuteQueryResult2))
            (tErrorf "Unexpected result2 from StreamExecute: got %v wanted %v"
               [VResult qr; VResult streamExecuteQueryResult2]) ;;
          let* (stream, r) := recv conn stream in
          when (is_Some_b r) (tFatalf "StreamExecute channel wasn't closed" []) ;;
          let* err := errFunc conn stream in
          when (isNotNil err) (tFatalf "StreamExecute errFunc failed: %v" [VErr err])
      end
  end.

Definition testStreamExecuteError : TestM unit :=
  tLog "testStreamExecuteError" ;;
  let* (stream, err) := call (tabletconn.StreamExecute conn streamExecuteQuery
                                streamExecuteBindVars streamExecuteTransactionID) in
  when (isNotNil err) (tFatalf "StreamExecute failed: %v" [VErr err]) ;;
  let* (stream, r) := recv conn stream in
  match r with
  | None => tFatalf "StreamExecute failed: cannot read result1" []
  | Some qr =>
      let qr := nilRowsIfEmpty qr in
      when (negb (DeepEqual qr streamExecuteQueryResult1))
        (tErrorf "Unexpected result1 from StreamExecute: got %v wanted %v"
           [VResult qr; VResult streamExecuteQueryResult1]) ;;
      close errorWait ;;
      let* (stream, r) := recv conn stream in
      when (is_Some_b r) (tFatalf "StreamExecute channel wasn't closed" []) ;;
      let* err := errFunc conn stream in
      when (negb (isNotNil err))
        (tFatalf "StreamExecute was expecting an error, didn't get one" []) ;;
      when (nilOrLacks err expectedErrMatch)
        (tErrorf "Unexpected error from StreamExecute: got %v, wanted err containing %v"
           [VErr err; VStr expectedErrMatch]) ;;
      make errorWait
  end.

Definition testStreamExecutePanics : TestM unit :=
  tLog "testStreamExecutePanics" ;;
  updFake (setStreamExecutePanicsEarly true) ;;
  let* (stream, err) := call (tabletconn.StreamExecute conn streamExecuteQuery
                                streamExecuteBindVars streamExecuteTransactionID) in
  (if isNotNil err
   then when (nilOrLacks err "caught test panic")
          (tFatalf "unexpected panic error: %v" [VErr err])
   else
     let* (stream, r) := recv conn stream in
     when (is_Some_b r)
       (tFatalf "StreamExecute early panic should not return anything" []) ;;
     let* err := errFunc conn stream in
     when (nilOrLacks err "caught test panic")
       (tFatalf "unexpected panic error: %v" [VErr err])) ;;
  updFake (setStreamExecutePanicsEarly false) ;;
  let* (stream, err) := call (tabletconn.StreamExecute conn streamExecuteQuery
                                streamExecuteBindVars streamExecuteTransactionID) in
  when (isNotNil err) (tFatalf "StreamExecute failed: %v" [VErr err]) ;;
  let* (stream, r) := recv conn stream in
  match r with
  | None => tFatalf "StreamExecute failed: cannot read result1" []
  | Some qr =>
      let qr := nilRowsIfEmpty qr in
      when (negb (DeepEqual qr streamExecuteQueryResult1))
        (tErrorf "Unexpected result1 from StreamExecute: got %v wanted %v"
           [VResult qr; VResult streamExecuteQueryResult1]) ;;
      close panicWait ;;
      let* (stream, r) := recv conn stream in
      when (is_Some_b r) (tFatalf "StreamExecute returned more results" []) ;;
      let* err := errFunc conn stream in
      when (nilOrLacks err "caught test panic")
        (tFatalf "unexpected panic error: %v" [VErr err]) ;;
      make panicWait
  end.

Definition testStreamExecute2 : TestM unit :=
  tLog "testStreamExecute2" ;;
  let* (stream, err) := call (tabletconn.StreamExecute2 conn streamExecuteQuery
                                streamExecuteBindVars streamExecuteTransactionID) in
  when (isNotNil err) (tFatalf "StreamExecute2 failed: %v" [VErr err]) ;;
  let* (stream, r) := recv conn stream in
  match r with
  | None => tFatalf "StreamExecute2 failed: cannot read result1" []
  | Some qr =>
      let qr := nilRowsIfEmpty qr in
      when (negb (DeepEqual qr streamExecuteQueryResult1))
        (tErrorf "Unexpected result1 from StreamExecute2: got %v wanted %v"
           [VResult qr; VResult streamExecuteQueryResult1]) ;;
      let* (stream, r) := recv conn stream in
      match r with
      | None => tFatalf "StreamExecute2 failed: cannot read result2" []
      | Some qr =>
          let qr := nilFieldsIfEmpty qr in
          when (negb (DeepEqual qr streamExecuteQueryResult2))
            (tErrorf "Unexpected result2 from StreamExecute2: got %v wanted %v"
               [VResult qr; VResult streamExecuteQueryResult2]) ;;
          let* (stream, r) := recv conn stream in
          when (is_Some_b r) (tFatalf "StreamExecute2 channel wasn't closed" []) ;;
          let* err := errFunc conn stream in
          when (isNotNil err) (tFatalf "StreamExecute2 errFunc failed: %v" [VErr err])
      end
  end.

Definition testStreamExecute2Error : TestM unit :=
  tLog "testStreamExecute2Error" ;;
  let* (stream, err) := call (tabletconn.StreamExecute2 conn streamExecuteQuery
                                streamExecuteBindVars streamExecuteTransactionID) in
  when (isNotNil err) (tFatalf "StreamExecute2 failed: %v" [VErr err]) ;;
  let* (stream, r) := recv conn stream in
  match r with
  | None => tFatalf "StreamExecute2 failed: cannot read result1" []
  | Some qr =>
      let qr := nilRowsIfEmpty qr in
      when (negb (DeepEqual qr streamExecuteQueryResult1))
        (tErrorf "Unexpected result1 from StreamExecute2: got %v wanted %v"
           [VResult qr; VResult streamExecuteQueryResult1]) ;;
      close errorWait ;;
      let* (stream, r) := recv conn stream in
      when (is_Some_b r) (tFatalf "StreamExecute2 channel wasn't closed" []) ;;
      let* err := errFunc conn stream in
      when (negb (isNotNil err))
        (tFatalf "StreamExecute2 was expecting an error, didn't get one" []) ;;
      when (nilOrLacks err expectedErrMatch)
        (tErrorf "Unexpected error from StreamExecute2: got %v, wanted err containing %v"
           [VErr err; VStr expectedErrMatch]) ;;
      make errorWait
  end.

Definition testStreamExecute2Panics : TestM unit :=
  tLog "testStreamExecute2Panics" ;;
  updFake (setStreamExecutePanicsEarly true) ;;
  let* (stream, err) := call (tabletconn.StreamExecute2 conn streamExecuteQuery
                                streamExecuteBindVars streamExecuteTransactionID) in
  (if isNotNil err
   then when (nilOrLacks err "caught test panic")
          (tFatalf "unexpected panic error: %v" [VErr err])
   else
     let* (stream, r) := recv conn stream in
     when (is_Some_b r)
       (tFatalf "StreamExecute early panic should not return anything" []) ;;
     let* err := errFunc conn stream in
     when (nilOrLacks err "caught test panic")
       (tFatalf "unexpected panic error: %v" [VErr err])) ;;
  updFake (setStreamExecutePanicsEarly false) ;;
  let* (stream, err) := call (tabletconn.StreamExecute2 conn streamExecuteQuery
                                streamExecuteBindVars streamExecuteTransactionID) in
  when (isNotNil err) (tFatalf "StreamExecute2 failed: %v" [VErr err]) ;;
  let* (stream, r) := recv conn stream in
  match r with
  | None => tFatalf "StreamExecute2 failed: cannot read result1" []
  | Some qr =>
      let qr := nilRowsIfEmpty qr in
      when (negb (DeepEqual qr streamExecuteQueryResult1))
        (tErrorf "Unexpected result1 from StreamExecute2: got %v wanted %v"
           [VResult qr; VResult streamExecuteQueryResult1]) ;;
      close panicWait ;;
      let* (stream, r) := recv conn stream in
      when (is_Some_b r) (tFatalf "StreamExecute2 returned more results" []) ;;
      let* err := errFunc conn stream in
      when (nilOrLacks err "caught test panic")
        (tFatalf "unexpected panic error: %v" [VErr err]) ;;
      make panicWait
  end.

Definition testExecuteBatch : TestM unit :=
  tLog "testExecuteBatch" ;;
  let* (qrl, err) := call (tabletconn.ExecuteBatch conn executeBatchQueries
                             executeBatchTransactionID) in
  when (isNotNil err) (tFatalf "ExecuteBatch failed: %v" [VErr err]) ;;
  when (negb (DeepEqual qrl executeBatchQueryResultList))
    (tErrorf "Unexpected result from Execute: got %v wanted %v"
       [VResultList qrl; VResultList executeBatchQueryResultList]).

Definition testExecuteBatchError : TestM unit :=
  tLog "testBatchExecuteError" ;;
  let* (_, err) := call (tabletconn.ExecuteBatch conn executeBatchQueries
                           executeBatchTransactionID) in
  when (negb (isNotNil err))
    (tFatalf "ExecuteBatch was expecting an error, didn't get one" []) ;;
  when (nilOrLacks err expectedErrMatch)
    (tErrorf "Unexpected error from ExecuteBatch: got %v, wanted err containing %v"
       [VErr err; VStr expectedErrMatch]).

Definition testExecuteBatchPanics : TestM unit :=
  tLog "testExecuteBatchPanics" ;;
  let* (_, err) := call (tabletconn.ExecuteBatch conn executeBatchQueries
                           executeBatchTransactionID) in
  when (nilOrLacks err "caught test panic")
    (tFatalf "unexpected panic error: %v" [VErr err]).

Definition testSplitQuery : TestM unit :=
  tLog "testSplitQuery" ;;
  let* (qsl, err) := call (tabletconn.SplitQuery conn splitQueryBoundQuery
                             splitQuerySplitCount) in
  when (isNotNil err) (tFatalf "SplitQuery failed: %v" [VErr err]) ;;
  when (negb (DeepEqual qsl splitQueryQuerySplitList))
    (tErrorf "Unexpected result from SplitQuery: got %v wanted %v"
       [VSplits qsl; VSplits splitQueryQuerySplitList]).

Definition testSplitQueryError : TestM unit :=
  tLog "testSplitQueryError" ;;
  let* (_, err) := call (tabletconn.SplitQuery conn splitQueryBoundQuery
                           splitQuerySplitCount) in
  when (negb (isNotNil err))
    (tFatalf "SplitQuery was expecting an error, didn't get one" []) ;;
  when (nilOrLacks err expectedErrMatch)
    (tErrorf "Unexpected error from SplitQuery: got %v, wanted err containing %v"
       [VErr err; VStr expectedErrMatch]).

Definition testSplitQueryPanics : TestM unit :=
  tLog "testSplitQueryPanics" ;;
  let* (_, err) := call (tabletconn.SplitQuery conn splitQueryBoundQuery
                           splitQuerySplitCount) in
  when (nilOrLacks err "caught test panic")
    (tFatalf "unexpected panic error: %v" [VErr err]).

(** [TestSuite] runs all the tests. *)
Definition TestSuite : TestM unit :=
  testBegin ;;
  testBegin2 ;;
  testCommit ;;
  testRollback ;;
  testExecute ;;
  testStreamExecute ;;
  testStreamExecute2 ;;
  testExecuteBatch ;;
  testSplitQuery ;;
  updFake (setHasError true) ;;
  testBeginError ;;
  testBegin2Error ;;
  testCommitError ;;
  testRollbackError ;;
  testExecuteError ;;
  testStreamExecuteError ;;
  testStreamExecute2Error ;;
  testExecuteBatchError ;;
  testSplitQueryError ;;
  updFake (setHasError false) ;;
  updFake (setPanics true) ;;
  testBeginPanics ;;
  testBegin2Panics ;;
  testCommitPanics ;;
  testRollbackPanics ;;
  testExecutePanics ;;
  testStreamExecutePanics ;;
  testStreamExecute2Panics ;;
  testExecuteBatchPanics ;;
  testSplitQueryPanics ;;
  updFake (setPanics false).

End Tests.

(** ** The server side of a call and a reference connection *)

Module rpc.

(** Modelled from the spec: the RPC server placed in front of the query
    service is not part of the sources at hand.  Per the spec it guards
    every entry point with the service's [HandlePanic], and it has two
    conventions to hand an error to the caller: folded into the reply, or as
    a failure of the call.  The second generation of a method always uses
    the call failure, the first follows the server-wide flag. *)
Inductive Convention := InReply | CallFailure.

Record Response (A : Type) := {
  reply : A;
  replyErr : error;
  callErr : error
}.
Arguments reply {A} _.
Arguments replyErr {A} _.
Arguments callErr {A} _.

(** Modelled from the spec: the convention of a first-generation method. *)
Definition v1 (w : World) : Convention :=
  if RPCErrorOnlyInReply w then InReply else CallFailure.

(** Modelled from the spec: the convention of a second-generation method. *)
Definition v2 (w : World) : Convention := CallFailure.

(** Modelled from the spec: the guarded end of an entry point.  The
    deferred [HandlePanic(&err)] runs with the recovered value when the body
    panicked, and with none otherwise. *)
Definition guarded (o : Outcome) : error :=
  match o with
  | Returned err => HandlePanic None err
  | Panicked x => HandlePanic (Some x) None
  end.

(** Modelled from the spec: what the server side hands back for a body that
    ended with [o] and left [a] in the reply. *)
Definition respond {A} (c : Convention) (a : A) (o : Outcome) : Response A :=
  match o with
  | Panicked _ => {| reply := a; replyErr := None; callErr := guarded o |}
  | Returned _ =>
      match c with
      | InReply => {| reply := a; replyErr := guarded o; callErr := None |}
      | CallFailure => {| reply := a; replyErr := None; callErr := guarded o |}
      end
  end.

(** Modelled from the spec: the client end.  The error of the call is taken
    from whichever place carries it; the result is the zero value when there
    is one. *)
Definition collect {A} (zero : A) (r : Response A) : A * error :=
  match callErr r with
  | Some e => (zero, Some e)
  | None =>
      match replyErr r with
      | Some e => (zero, Some e)
      | None => (reply r, None)
      end
  end.

End rpc.

(** What running a streaming body up to its next visible step gives: a
    chunk handed to [sendReply] and the rest of the body, a body blocked on a
    channel, or the end. *)
Inductive Step :=
  | Yield (qr : QueryResult) (k : Proc)
  | Blocked (p : Proc)
  | Finished (o : Outcome).

(** Modelled from the spec: the server side of a streaming call runs the
    body on demand.  Reports go to the shared [testing.T], a receive from a
    closed channel falls through and one from an open channel blocks;
    [sendReply] hands the chunk over and returns [nil]. *)
Fixpoint advance (p : Proc) (w : World) : World * Step :=
  match p with
  | PErrorf fmt a k => advance k (setLog (Errorf_ (tlog w) fmt a) w)
  | PSend qr k => (w, Yield qr (k None))
  | PRecv c k =>
      match getChan c w with
      | Go.Closed => advance k w
      | Go.Open => (w, Blocked p)
      end
  | PDone o => (w, Finished o)
  end.

(** Modelled from the spec: the client end of a streaming call.  It holds
    the body still to run ([None] once the channel is closed), the chunks
    produced and not yet received, and the cell read by the terminal error
    accessor. *)
Record RefStream := {
  producer : option Proc;
  pending : list QueryResult;
  cell : error;
  convention : rpc.Convention
}.

(** Modelled from the spec: the stream once its body has ended with [o];
    the cell is set then, and only then. *)
Definition closedWith (c : rpc.Convention) (o : Outcome) : RefStream :=
  {| producer := None; pending := [];
     cell := snd (rpc.collect tt (rpc.respond c tt o)); convention := c |}.

(** Modelled from the spec: a receive from the stream takes a pending
    chunk, or runs the body up to its next chunk or to its end. *)
Definition refRecv (s : RefStream) (w : World) : World * (RefStream * RecvResult) :=
  match pending s with
  | qr :: rest =>
      (w, ({| producer := producer s; pending := rest; cell := cell s;
              convention := convention s |}, Got qr))
  | [] =>
      match producer s with
      | None => (w, (s, ChanClosed))
      | Some p =>
          match advance p w with
          | (w', Yield qr k) =>
              (w', ({| producer := Some k; pending := []; cell := cell s;
                       convention := convention s |}, Got qr))
          | (w', Blocked p') =>
              (w', ({| producer := Some p'; pending := []; cell := cell s;
                       convention := convention s |}, WouldBlock))
          | (w', Finished o) => (w', (closedWith (convention s) o, ChanClosed))
          end
      end
  end.

Section Reference.

(** Whether a streaming call runs the body up to its first chunk before it
    returns (so that a failure before any chunk fails the call), or returns
    at once and leaves every failure to the terminal error accessor. *)
Variable eager : bool.

(** The session id the connection obtained when it was dialled. *)
Variable sessionId : Z.

(** Modelled from the spec: [Begin] of either generation.  The request
    carries the session id and no transaction. *)
Definition refBegin (conv : World -> rpc.Convention) (w : World)
    : World * (Z * error) :=
  let '(t, txInfo, o) :=
    Begin (fake w) {| sSessionId := sessionId; sTransactionId := 0 |}
      {| tiTransactionId := 0 |} (tlog w) in
  (setLog t w, rpc.collect 0 (rpc.respond (conv w) (tiTransactionId txInfo) o)).

(** Modelled from the spec: [Commit] of either generation. *)
Definition refCommit (conv : World -> rpc.Convention) (transactionID : Z)
    (w : World) : World * error :=
  let '(t, o) :=
    Commit (fake w) {| sSessionId := sessionId; sTransactionId := transactionID |}
      (tlog w) in
  (setLog t w, snd (rpc.collect tt (rpc.respond (conv w) tt o))).

(** Modelled from the spec: [Rollback] of either generation. *)
Definition refRollback (conv : World -> rpc.Convention) (transactionID : Z)
    (w : World) : World * error :=
  let '(t, o) :=
    Rollback (fake w) {| sSessionId := sessionId; sTransactionId := transactionID |}
      (tlog w) in
  (setLog t w, snd (rpc.collect tt (rpc.respond (conv w) tt o))).

(** The zero value of [mproto.QueryResult]. *)
Definition emptyResult : QueryResult :=
  {| Fields := None; RowsAffected := 0; InsertId := 0; Rows := None |}.

(** Modelled from the spec: [Execute]. *)
Definition refExecute (query : string) (bindVars : gmap string BindVal)
    (transactionID : Z) (w : World) : World * (QueryResult * error) :=
  let '(t, qr, o) :=
    Execute (fake w)
      {| Sql := query; BindVariables := bindVars; SessionId := sessionId;
         TransactionId := transactionID |} emptyResult (tlog w) in
  (setLog t w, rpc.collect emptyResult (rpc.respond (rpc.v1 w) qr o)).

(** Modelled from the spec: [ExecuteBatch]; one session id and one
    transaction id go with the whole list. *)
Definition refExecuteBatch (queries : list BoundQuery) (transactionID : Z)
    (w : World) : World * (QueryResultList * error) :=
  let '(t, qrl, o) :=
    ExecuteBatch (fake w)
      {| Queries := queries; qlSessionId := sessionId;
         qlTransactionId := transactionID |} {| List := [] |} (tlog w) in
  (setLog t w, rpc.collect {| List := [] |} (rpc.respond (rpc.v1 w) qrl o)).

(** Modelled from the spec: [SplitQuery]. *)
Definition refSplitQuery (query : BoundQuery) (splitCount : Z) (w : World)
    : World * (list QuerySplit * error) :=
  let '(t, r, o) :=
    SplitQuery (fake w) {| sqQuery := query; SplitCount := splitCount |}
      {| sqrQueries := [] |} (tlog w) in
  (setLog t w, rpc.collect [] (rpc.respond (rpc.v1 w) (sqrQueries r) o)).

(** Modelled from the spec: [StreamExecute] of either generation. *)
Definition refStreamExecute (conv : World -> rpc.Convention) (query : string)
    (bindVars : gmap string BindVal) (transactionID : Z) (w : World)
    : World * (RefStream * error) :=
  let p := StreamExecute (fake w)
             {| Sql := query; BindVariables := bindVars; SessionId := sessionId;
                TransactionId := transactionID |} in
  let c := conv w in
  if eager then
    match advance p w with
    | (w', Yield qr k) =>
        (w', ({| producer := Some k; pending := [qr]; cell := None;
                 convention := c |}, None))
    | (w', Blocked p') =>
        (w', ({| producer := Some p'; pending := []; cell := None;
                 convention := c |}, None))
    | (w', Finished o) => (w', (closedWith c o, cell (closedWith c o)))
    end
  else
    (w, ({| producer := Some p; pending := []; cell := None; convention := c |},
         None)).

(** Modelled from the spec: a connection that reaches the service in
    [World] through the guarded server side above.  The sources at hand hold
    no implementation of [tabletconn.TabletConn]; this one delivers results
    and errors unchanged, streams as a lazy sequence of chunks and sets the
    terminal error once, when the body ends. *)
Definition refConn : TabletConn := {|
  tabletconn.Stream := RefStream;
  tabletconn.Begin := refBegin rpc.v1;
  tabletconn.Begin2 := refBegin rpc.v2;
  tabletconn.Commit := refCommit rpc.v1;
  tabletconn.Commit2 := refCommit rpc.v2;
  tabletconn.Rollback := refRollback rpc.v1;
  tabletconn.Rollback2 := refRollback rpc.v2;
  tabletconn.Execute := refExecute;
  tabletconn.ExecuteBatch := refExecuteBatch;
  tabletconn.StreamExecute := refStreamExecute rpc.v1;
  tabletconn.StreamExecute2 := refStreamExecute rpc.v2;
  tabletconn.SplitQuery := refSplitQuery;
  tabletconn.Recv := refRecv;
  tabletconn.ErrFunc := fun s _ => cell s
|}.

End Reference.

(** Modelled from the spec: dialling fetches the session id from the
    service, then builds the connection. *)
Definition DialTablet (eager : bool) (w : World) : World * TabletConn :=
  let '(t, info, _) :=
    GetSessionId (fake w) {| Keyspace := TestKeyspace; Shard := TestShard |}
      {| siSessionId := 0 |} (tlog w) in
  (setLog t w, refConn eager (siSessionId info)).

(** The whole suite against a freshly created fake. *)
Definition runSuite (eager flag : bool) : World * Res unit :=
  let '(w, conn) := DialTablet eager (CreateFakeServer [] flag) in
  TestSuite conn w.


(** ** What the fake sends on a stream *)

(** The chunks a streaming body passes to [sendReply], in order, whatever
    [sendReply] answers ([answer]) and once every wait has been released. *)
Fixpoint sent (answer : QueryResult -> error) (p : Proc) : list QueryResult :=
  match p with
  | PErrorf _ _ k => sent answer k
  | PSend qr k => qr :: sent answer (k (answer qr))
  | PRecv _ k => sent answer k
  | PDone _ => []
  end.

(** How the body ends, under the same conditions. *)
Fixpoint ending (answer : QueryResult -> error) (p : Proc) : Outcome :=
  match p with
  | PErrorf _ _ k => ending answer k
  | PSend qr k => ending answer (k (answer qr))
  | PRecv _ k => ending answer k
  | PDone o => o
  end.

(** A chunk with fields and no rows. *)
Definition fieldsOnly (qr : QueryResult) : bool :=
  (0 <? Go.len (Fields qr))%nat && (Go.len (Rows qr) =? 0)%nat.

(** A chunk with rows and no fields. *)
Definition rowsOnly (qr : QueryResult) : bool :=
  (Go.len (Fields qr) =? 0)%nat && (0 <? Go.len (Rows qr))%nat.

(** The shape of a fragmented result: nothing, or a fields-only chunk
    followed by rows-only chunks. *)
Definition fragmented (chunks : list QueryResult) : bool :=
  match chunks with
  | [] => true
  | first :: rest => fieldsOnly first && forallb rowsOnly rest
  end.

(** ** A consumer of a streaming call *)

(** Close the channel unless it is closed already. *)
Definition release (c : WaitChan) : TestM unit :=
  fun w => (setChan c Go.Closed w, Ok tt).

(** Read the stream to its end the way the tests do: after a chunk has been
    received the fake is told so, then the next one is awaited.  [n] bounds
    the number of receives. *)
Fixpoint drain (n : nat) (conn : TabletConn) (stream : tabletconn.Stream conn)
    (got : list QueryResult)
    : TestM (tabletconn.Stream conn * list QueryResult) :=
  match n with
  | O => fun w => (w, Stopped Abandoned)
  | S n' =>
      let* (stream, r) := recv conn stream in
      match r with
      | None => ret (stream, got)
      | Some qr =>
          release panicWait ;;
          release errorWait ;;
          drain n' conn stream (got ++ [qr])%list
      end
  end.

Definition streamCall (conn : TabletConn) (second : bool)
    : string -> gmap string BindVal -> Z ->
      World -> World * (tabletconn.Stream conn * error) :=
  if second then tabletconn.StreamExecute2 conn else tabletconn.StreamExecute conn.

(** One streaming call, observed to its end: the error of the call itself,
    the stream once drained, the chunks received, and what the terminal
    error accessor then reports. *)
Definition observe (n : nat) (conn : TabletConn) (second : bool)
    (query : string) (bindVars : gmap string BindVal) (transactionID : Z)
    : TestM (error * tabletconn.Stream conn * list QueryResult * error) :=
  let* (stream, err) := call (streamCall conn second query bindVars transactionID) in
  let* (stream, chunks) := drain n conn stream [] in
  let* errF := errFunc conn stream in
  ret (err, stream, chunks, errF).

(** The calls a client can make. *)
Inductive Call :=
  | CBegin
  | CBegin2
  | CCommit (transactionID : Z)
  | CRollback (transactionID : Z)
  | CExecute (query : string) (bindVars : gmap string BindVal) (transactionID : Z)
  | CExecuteBatch (queries : list BoundQuery) (transactionID : Z)
  | CStreamExecute (query : string) (bindVars : gmap string BindVal)
      (transactionID : Z)
  | CStreamExecute2 (query : string) (bindVars : gmap string BindVal)
      (transactionID : Z)
  | CSplitQuery (query : BoundQuery) (splitCount : Z).

(** The error a caller ends up with: that of the call, and for a streaming
    call that went through, that of the terminal error accessor once the
    stream is drained. *)
Definition callerSees (n : nat) (conn : TabletConn) (c : Call) : TestM error :=
  match c with
  | CBegin => let* (_, err) := call (tabletconn.Begin conn) in ret err
  | CBegin2 => let* (_, err) := call (tabletconn.Begin2 conn) in ret err
  | CCommit id => call (tabletconn.Commit conn id)
  | CRollback id => call (tabletconn.Rollback conn id)
  | CExecute q bv id =>
      let* (_, err) := call (tabletconn.Execute conn q bv id) in ret err
  | CExecuteBatch qs id =>
      let* (_, err) := call (tabletconn.ExecuteBatch conn qs id) in ret err
  | CStreamExecute q bv id =>
      let* (err, _, _, errF) := observe n conn false q bv id in
      ret (if isNotNil err then err else errF)
  | CStreamExecute2 q bv id =>
      let* (err, _, _, errF) := observe n conn true q bv id in
      ret (if isNotNil err then err else errF)
  | CSplitQuery q k =>
      let* (_, err) := call (tabletconn.SplitQuery conn q k) in ret err
  end.

(** A connection whose streaming calls hand out the given chunks, in order,
    then close, with [errF] as terminal error; every other call succeeds
    with a zero result. *)
Definition replayConn (chunks : list QueryResult) (errF : error) : TabletConn := {|
  tabletconn.Stream := list QueryResult;
  tabletconn.Begin := fun w => (w, (0, None));
  tabletconn.Begin2 := fun w => (w, (0, None));
  tabletconn.Commit := fun _ w => (w, None);
  tabletconn.Commit2 := fun _ w => (w, None);
  tabletconn.Rollback := fun _ w => (w, None);
  tabletconn.Rollback2 := fun _ w => (w, None);
  tabletconn.Execute := fun _ _ _ w => (w, (emptyResult, None));
  tabletconn.ExecuteBatch := fun _ _ w => (w, ({| List := [] |}, None));
  tabletconn.StreamExecute := fun _ _ _ w => (w, (chunks, None));
  tabletconn.StreamExecute2 := fun _ _ _ w => (w, (chunks, None));
  tabletconn.SplitQuery := fun _ _ w => (w, ([], None));
  tabletconn.Recv := fun s w =>
    match s with
    | [] => (w, ([], ChanClosed))
    | qr :: rest => (w, (rest, Got qr))
    end;
  tabletconn.ErrFunc := fun _ _ => errF
|}.

(** Zero-length sequences of a chunk turned into absent ones. *)
Definition normalize (qr : QueryResult) : QueryResult :=
  nilFieldsIfEmpty (nilRowsIfEmpty qr).

(** The outcome of a test function: whether the test is marked failed, and
    whether it ran to its end. *)
Definition verdict {A} (r : World * Res A) : bool * Res A :=
  (Failed (tlog (fst r)), snd r).

(** [w'] is [w] up to what was written to the [testing.T]. *)
Definition logOnly (w w' : World) : Prop :=
  fake w' = fake w /\ chPanicWait w' = chPanicWait w
  /\ chErrorWait w' = chErrorWait w
  /\ RPCErrorOnlyInReply w' = RPCErrorOnlyInReply w.

(** Both wait channels have been closed. *)
Definition released (w : World) : Prop :=
  chPanicWait w = Go.Closed /\ chErrorWait w = Go.Closed.

(** [w'] is [w] up to the log and the state of the wait channels. *)
Definition sameServer (w w' : World) : Prop :=
  fake w' = fake w /\ RPCErrorOnlyInReply w' = RPCErrorOnlyInReply w.

(** [sendReply] as the reference connection provides it. *)
Definition delivered (qr : QueryResult) : error := None.

(** A request as the service receives it. *)
Inductive Request :=
  | RBegin (session : Session)
  | RCommit (session : Session)
  | RRollback (session : Session)
  | RExecute (query : Query)
  | RStreamExecute (query : Query)
  | RExecuteBatch (queryList : QueryList)
  | RSplitQuery (req : SplitQueryRequest).

(** How the fake's method for a request ends (a streaming body with every
    chunk taken and every wait released). *)
Definition serve (f : FakeQueryService) (r : Request) (t : T) : Outcome :=
  match r with
  | RBegin session => snd (Begin f session {| tiTransactionId := 0 |} t)
  | RCommit session => snd (Commit f session t)
  | RRollback session => snd (Rollback f session t)
  | RExecute query => snd (Execute f query emptyResult t)
  | RStreamExecute query => ending delivered (StreamExecute f query)
  | RExecuteBatch queryList => snd (ExecuteBatch f queryList {| List := [] |} t)
  | RSplitQuery req => snd (SplitQuery f req {| sqrQueries := [] |} t)
  end.

(** The fake with every switch off. *)
Definition plainFake : FakeQueryService :=
  {| hasError := false; panics := false; streamExecutePanicsEarly := false |}.

(** [err] is an error whose message contains [s]. *)
Definition errorWith (s : string) (err : error) : Prop :=
  exists e, err = Some e /\ Go.Contains (Error e) s = true.

(** The request a call of the reference connection puts to the service. *)
Definition requestOf (sessionId : Z) (c : Call) : Request :=
  match c with
  | CBegin | CBegin2 =>
      RBegin {| sSessionId := sessionId; sTransactionId := 0 |}
  | CCommit id => RCommit {| sSessionId := sessionId; sTransactionId := id |}
  | CRollback id => RRollback {| sSessionId := sessionId; sTransactionId := id |}
  | CExecute q bv id =>
      RExecute {| Sql := q; BindVariables := bv; SessionId := sessionId;
                  TransactionId := id |}
  | CExecuteBatch qs id =>
      RExecuteBatch {| Queries := qs; qlSessionId := sessionId;
                       qlTransactionId := id |}
  | CStreamExecute q bv id | CStreamExecute2 q bv id =>
      RStreamExecute {| Sql := q; BindVariables := bv; SessionId := sessionId;
                        TransactionId := id |}
  | CSplitQuery q k => RSplitQuery {| sqQuery := q; SplitCount := k |}
  end.

(** A world whose fake panics. *)
Definition panicking (w : World) : World := setFake (setPanics true (fake w)) w.

(** The same world once the fake has been told not to panic any more. *)
Definition calmed (w : World) : World := setFake (setPanics false (fake w)) w.

(** A connection that answers every call of a transaction method, of either
    generation, with the same transaction id and error. *)
Definition answerConn (id : Z) (err : error) : TabletConn := {|
  tabletconn.Stream := list QueryResult;
  tabletconn.Begin := fun w => (w, (id, err));
  tabletconn.Begin2 := fun w => (w, (id, err));
  tabletconn.Commit := fun _ w => (w, err);
  tabletconn.Commit2 := fun _ w => (w, err);
  tabletconn.Rollback := fun _ w => (w, err);
  tabletconn.Rollback2 := fun _ w => (w, err);
  tabletconn.Execute := fun _ _ _ w => (w, (emptyResult, None));
  tabletconn.ExecuteBatch := fun _ _ w => (w, ({| List := [] |}, None));
  tabletconn.StreamExecute := fun _ _ _ w => (w, ([], None));
  tabletconn.StreamExecute2 := fun _ _ _ w => (w, ([], None));
  tabletconn.SplitQuery := fun _ _ w => (w, ([], None));
  tabletconn.Recv := fun s w => (w, ([], ChanClosed));
  tabletconn.ErrFunc := fun _ _ => None
|}.

Definition setFlag (b : bool) (w : World) : World :=
  {| fake := fake w; tlog := tlog w; chPanicWait := chPanicWait w;
     chErrorWait := chErrorWait w; RPCErrorOnlyInReply := b |}.

(** What a streaming body reports to [f.t], in order, under the answers
    [answer] of [sendReply] and once every wait has been released. *)
Fixpoint reports (answer : QueryResult -> error) (p : Proc) : T :=
  match p with
  | PErrorf fmt a k =>
      {| level := LError; format := fmt; args := a |} :: reports answer k
  | PSend qr k => reports answer (k (answer qr))
  | PRecv _ k => reports answer k
  | PDone _ => []
  end.

(** The query [q] under another transaction id. *)
Definition withTransactionId (id : Z) (q : Query) : Query :=
  {| Sql := Sql q; BindVariables := BindVariables q; SessionId := SessionId q;
     TransactionId := id |}.

(** [m] never clears a failure recorded in the test. *)
Definition keeps {B} (m : World -> World * B) : Prop :=
  forall w, Failed (tlog w) = true -> Failed (tlog (fst (m w))) = true.

(** A connection none of whose methods clears a failure recorded in the
    test it shares with the fake. *)
Record keepsFailures (conn : TabletConn) : Prop := {
  kBegin : keeps (tabletconn.Begin conn);
  kBegin2 : keeps (tabletconn.Begin2 conn);
  kCommit : forall id, keeps (tabletconn.Commit conn id);
  kCommit2 : forall id, keeps (tabletconn.Commit2 conn id);
  kRollback : forall id, keeps (tabletconn.Rollback conn id);
  kRollback2 : forall id, keeps (tabletconn.Rollback2 conn id);
  kExecute : forall q bv id, keeps (tabletconn.Execute conn q bv id);
  kExecuteBatch : forall qs id, keeps (tabletconn.ExecuteBatch conn qs id);
  kStreamExecute : forall q bv id, keeps (tabletconn.StreamExecute conn q bv id);
  kStreamExecute2 : forall q bv id, keeps (tabletconn.StreamExecute2 conn q bv id);
  kSplitQuery : forall q k, keeps (tabletconn.SplitQuery conn q k);
  kRecv : forall s, keeps (tabletconn.Recv conn s)
}.

(** The world [w] with the entries [t0] recorded before everything else. *)
Definition prep (t0 : T) (w : World) : World := setLog (t0 ++ tlog w)%list w.

(** [m] does not read what the test has recorded: run after earlier
    entries, it does what it does without them and leaves them in place. *)
Definition framed {B} (m : World -> World * B) : Prop :=
  forall t0 w, m (prep t0 w) = (prep t0 (fst (m w)), snd (m w)).

(** A connection none of whose methods reads what the test has recorded. *)
Record framedConn (conn : TabletConn) : Prop := {
  fBegin : framed (tabletconn.Begin conn);
  fBegin2 : framed (tabletconn.Begin2 conn);
  fCommit : forall id, framed (tabletconn.Commit conn id);
  fCommit2 : forall id, framed (tabletconn.Commit2 conn id);
  fRollback : forall id, framed (tabletconn.Rollback conn id);
  fRollback2 : forall id, framed (tabletconn.Rollback2 conn id);
  fExecute : forall q bv id, framed (tabletconn.Execute conn q bv id);
  fExecuteBatch : forall qs id, framed (tabletconn.ExecuteBatch conn qs id);
  fStreamExecute : forall q bv id, framed (tabletconn.StreamExecute conn q bv id);
  fStreamExecute2 : forall q bv id,
    framed (tabletconn.StreamExecute2 conn q bv id);
  fSplitQuery : forall q k, framed (tabletconn.SplitQuery conn q k);
  fRecv : forall s, framed (tabletconn.Recv conn s);
  fErrFunc : forall s t0 w,
    tabletconn.ErrFunc conn s (prep t0 w) = tabletconn.ErrFunc conn s w
}.

(** ** The suite on the reference connection *)

(** X1: the whole suite, run through the reference connection dialled on
    a freshly created fake, runs to its end and records no failure, in either
    start mode of the streaming calls and under either value of the
    server-wide flag; it leaves the fake with every switch off, both wait
    channels open and the flag untouched, as [CreateFakeServer] made them. *)
Theorem runSuite_passes (eager flag : bool) :
  exists t1,
    runSuite eager flag = (CreateFakeServer t1 flag, Ok tt)
    /\ Failed t1 = false
    /\ verdict (runSuite eager flag) = (false, Ok tt).
Proof.
  destruct eager, flag; eexists;
    (split; [vm_compute; reflexivity|split; vm_compute; reflexivity]).
Qed.

(** ** Zero-length and absent sequences in a chunk *)

Lemma Failed_app (t u : T) : Failed (t ++ u)%list = Failed t || Failed u.
Proof. unfold Failed. apply existsb_app. Qed.

Lemma DeepEqual_true {A} `{EqDecision A} (x y : A) : DeepEqual x y = true <-> x = y.
Proof. unfold DeepEqual. apply bool_decide_eq_true. Qed.



Lemma first_chunk_check_normalize (qr : QueryResult) :
  DeepEqual (nilRowsIfEmpty (normalize qr)) streamExecuteQueryResult1
  = DeepEqual (nilRowsIfEmpty qr) streamExecuteQueryResult1.
Proof.
  destruct qr as [[[|f fs]|] ra ii [[|r rs]|]];
    unfold normalize, nilRowsIfEmpty, nilFieldsIfEmpty; simpl; try reflexivity;
    unfold DeepEqual, streamExecuteQueryResult1;
    rewrite !bool_decide_eq_false_2; try reflexivity; intros E; inversion E.
Qed.

Lemma second_chunk_check_normalize (qr : QueryResult) :
  DeepEqual (nilFieldsIfEmpty (normalize qr)) streamExecuteQueryResult2
  = DeepEqual (nilFieldsIfEmpty qr) streamExecuteQueryResult2.
Proof.
  destruct qr as [[[|f fs]|] ra ii [[|r rs]|]];
    unfold normalize, nilRowsIfEmpty, nilFieldsIfEmpty; simpl; try reflexivity;
    unfold DeepEqual, streamExecuteQueryResult2;
    rewrite !bool_decide_eq_false_2; try reflexivity; intros E; inversion E.
Qed.

Ltac run_test :=
  unfold verdict, bind, ret, when, call, recv, errFunc, tLog, tErrorf, tFatalf,
    close, make; simpl.

Ltac failed_log :=
  unfold Errorf_, Log_, Fatalf_; rewrite ?Failed_app; simpl;
  rewrite ?orb_true_r, ?orb_false_r; try reflexivity.

(** C10: the streaming tests turn a zero-length rows (fields) sequence of a
    received chunk into an absent one before they compare it, so a connection
    that delivers zero-length sequences where others deliver absent ones gets
    the same verdict from them; a fields-only chunk with empty rows followed
    by a rows-only chunk with empty fields passes. *)
Theorem absent_and_empty_sequences_equivalent
    (chunks : list QueryResult) (errF : error) (w : World) (flag : bool) :
  verdict (testStreamExecute (replayConn (map normalize chunks) errF) w)
    = verdict (testStreamExecute (replayConn chunks errF) w)
  /\ verdict (testStreamExecuteError (replayConn (map normalize chunks) errF) w)
     = verdict (testStreamExecuteError (replayConn chunks errF) w)
  /\ verdict (testStreamExecute
       (replayConn
          [ {| Fields := Fields streamExecuteQueryResult1; RowsAffected := 0;
               InsertId := 0; Rows := Some [] |};
            {| Fields := Some []; RowsAffected := 0; InsertId := 0;
               Rows := Rows streamExecuteQueryResult2 |} ] None)
       (CreateFakeServer [] flag)) = (false, Ok tt).
Proof.
  split; [|split].
  - destruct chunks as [|c1 [|c2 [|c3 rest]]]; try reflexivity;
      unfold testStreamExecute; run_test;
      rewrite first_chunk_check_normalize;
      destruct (DeepEqual (nilRowsIfEmpty c1) streamExecuteQueryResult1);
      simpl; try (failed_log; fail);
      rewrite second_chunk_check_normalize;
      destruct (DeepEqual (nilFieldsIfEmpty c2) streamExecuteQueryResult2);
      simpl; try (failed_log; fail);
      destruct errF; simpl; failed_log.
  - destruct chunks as [|c1 [|c2 rest]]; try reflexivity;
      unfold testStreamExecuteError; run_test;
      rewrite first_chunk_check_normalize;
      destruct (DeepEqual (nilRowsIfEmpty c1) streamExecuteQueryResult1);
      simpl; destruct (chErrorWait w); simpl; try (failed_log; fail);
      destruct errF as [e|]; simpl; try (failed_log; fail);
      destruct (Go.Contains (Error e) expectedErrMatch); simpl; failed_log.
  - destruct flag; vm_compute; reflexivity.
Qed.

(** ** Streams of the reference connection *)

Lemma logOnly_refl w : logOnly w w.
Proof. by repeat split. Qed.

Lemma logOnly_trans w1 w2 w3 : logOnly w1 w2 -> logOnly w2 w3 -> logOnly w1 w3.
Proof. unfold logOnly. intros (?&?&?&?) (?&?&?&?). repeat split; congruence. Qed.

Lemma logOnly_setLog t w : logOnly w (setLog t w).
Proof. by repeat split. Qed.


Lemma logOnly_sameServer w w' : logOnly w w' -> sameServer w w'.
Proof. unfold logOnly, sameServer. tauto. Qed.

Lemma sameServer_trans w1 w2 w3 :
  sameServer w1 w2 -> sameServer w2 w3 -> sameServer w1 w3.
Proof. unfold sameServer. intros [? ?] [? ?]. split; congruence. Qed.


Lemma advance_PErrorfIf cond fmt a k w :
  exists w0, logOnly w w0 /\ advance (PErrorfIf cond fmt a k) w = advance k w0.
Proof.
  destruct cond; simpl.
  - eexists. split; [apply logOnly_setLog|reflexivity].
  - exists w. split; [apply logOnly_refl|reflexivity].
Qed.

Lemma sent_PErrorfIf answer cond fmt a k :
  sent answer (PErrorfIf cond fmt a k) = sent answer k.
Proof. by destruct cond. Qed.

Lemma ending_PErrorfIf answer cond fmt a k :
  ending answer (PErrorfIf cond fmt a k) = ending answer k.
Proof. by destruct cond. Qed.

Lemma release_both w :
  released (setChan errorWait Go.Closed (setChan panicWait Go.Closed w))
  /\ sameServer w (setChan errorWait Go.Closed (setChan panicWait Go.Closed w)).
Proof. by repeat split. Qed.

Lemma release_both_released w :
  released w ->
  logOnly w (setChan errorWait Go.Closed (setChan panicWait Go.Closed w)).
Proof. intros [H1 H2]. repeat split; simpl; congruence. Qed.

Lemma drain_step (n : nat) (conn : TabletConn) (s : tabletconn.Stream conn)
    (got : list QueryResult) (w : World) :
  drain (S n) conn s got w =
  match tabletconn.Recv conn s w with
  | (w', (s', Got qr)) =>
      drain n conn s' (got ++ [qr])%list
        (setChan errorWait Go.Closed (setChan panicWait Go.Closed w'))
  | (w', (s', ChanClosed)) => (w', Ok (s', got))
  | (w', (s', WouldBlock)) => (w', Stopped Deadlock)
  end.
Proof.
  simpl. unfold bind, recv.
  destruct (tabletconn.Recv conn s w) as [w' [s' [qr| |]]]; reflexivity.
Qed.

Lemma drain_released (eager : bool) (sid : Z) (p : Proc) :
  forall (n : nat) (got : list QueryResult) (w : World) (cl : error)
         (c : rpc.Convention),
    released w ->
    (length (sent delivered p) < n)%nat ->
    exists w',
      drain n (refConn eager sid)
        {| producer := Some p; pending := []; cell := cl; convention := c |}
        got w
      = (w', Ok (closedWith c (ending delivered p),
                 (got ++ sent delivered p)%list))
      /\ logOnly w w'.
Proof.
  induction p as [fmt a k IH|qr k IH|ch k IH|o]; intros n got w cl c Hrel Hn.
  - destruct n as [|n]; [simpl in Hn; lia|].
    destruct (IH (S n) got (setLog (Errorf_ (tlog w) fmt a) w) cl c)
      as (w' & Hd & Hl); [exact Hrel|exact Hn|].
    exists w'. split; [|eapply logOnly_trans; [apply logOnly_setLog|exact Hl]].
    rewrite drain_step in Hd |- *. exact Hd.
  - destruct n as [|n]; [simpl in Hn; lia|].
    simpl in Hn.
    destruct (IH (delivered qr) n (got ++ [qr])%list
                (setChan errorWait Go.Closed (setChan panicWait Go.Closed w)) cl c)
      as (w' & Hd & Hl).
    + apply release_both.
    + unfold delivered in *. lia.
    + exists w'. split.
      * rewrite drain_step.
        cbn [tabletconn.Recv refConn refRecv pending producer advance cell convention].
        etransitivity; [exact Hd|].
        simpl. unfold delivered. by rewrite <- app_assoc.
      * eapply logOnly_trans; [apply release_both_released; exact Hrel|exact Hl].
  - destruct n as [|n]; [simpl in Hn; lia|].
    destruct (IH (S n) got w cl c) as (w' & Hd & Hl); [exact Hrel|exact Hn|].
    exists w'. split; [|exact Hl].
    rewrite drain_step in Hd |- *.
    cbn [tabletconn.Recv refConn refRecv pending producer advance cell convention]
      in Hd |- *.
    destruct Hrel as [Hp He].
    replace (getChan ch w) with Go.Closed by (destruct ch; simpl; congruence).
    exact Hd.
  - destruct n as [|n]; [simpl in Hn; lia|].
    exists w. split; [|apply logOnly_refl].
    rewrite drain_step. simpl. by rewrite app_nil_r.
Qed.

Lemma collect_respond {A} (c : rpc.Convention) (zero a : A) (o : Outcome) :
  rpc.collect zero (rpc.respond c a o) =
  match rpc.guarded o with
  | Some e => (zero, Some e)
  | None => (a, None)
  end.
Proof. destruct o as [[e|]|x], c; reflexivity. Qed.

Lemma cell_closedWith (c : rpc.Convention) (o : Outcome) :
  cell (closedWith c o) = rpc.guarded o.
Proof.
  unfold closedWith. simpl. rewrite collect_respond.
  by destruct (rpc.guarded o).
Qed.

(** The chunks the fake sends, by the switches it was given. *)
Lemma sent_StreamExecute (answer : QueryResult -> error)
    (f : FakeQueryService) (query : Query) :
  sent answer (StreamExecute f query) =
  if panics f && streamExecutePanicsEarly f then []
  else if panics f || hasError f then [streamExecuteQueryResult1]
  else [streamExecuteQueryResult1; streamExecuteQueryResult2].
Proof.
  destruct f as [[] [] []]; unfold StreamExecute; simpl;
    rewrite ?sent_PErrorfIf; simpl; rewrite ?sent_PErrorfIf; simpl;
    rewrite ?sent_PErrorfIf; reflexivity.
Qed.

(** How the fake's streaming body ends, by the switches it was given. *)
Lemma ending_StreamExecute (answer : QueryResult -> error)
    (f : FakeQueryService) (query : Query) :
  ending answer (StreamExecute f query) =
  if panics f
  then Panicked (Errorf (if streamExecutePanicsEarly f
                         then "test-triggered panic early"
                         else "test-triggered panic late"))
  else if hasError f then Returned (Some testTabletError)
  else Returned None.
Proof.
  destruct f as [[] [] []]; unfold StreamExecute; simpl;
    rewrite ?ending_PErrorfIf; simpl; rewrite ?ending_PErrorfIf; simpl;
    rewrite ?ending_PErrorfIf; reflexivity.
Qed.

Lemma advance_StreamExecute (f : FakeQueryService) (query : Query) (w : World) :
  panics f && streamExecutePanicsEarly f = false ->
  exists w0 k,
    logOnly w w0
    /\ advance (StreamExecute f query) w = (w0, Yield streamExecuteQueryResult1 k)
    /\ sent delivered (StreamExecute f query)
       = streamExecuteQueryResult1 :: sent delivered k
    /\ ending delivered (StreamExecute f query) = ending delivered k.
Proof.
  intros He. unfold StreamExecute. rewrite He.
  destruct (advance_PErrorfIf
    (negb (String.eqb (Sql query) streamExecuteQuery))
    "invalid StreamExecute.Query.Sql: got %v expected %v"
    [VStr (Sql query); VStr streamExecuteQuery]
    (PErrorfIf (negb (DeepEqual (BindVariables query) streamExecuteBindVars))
      "invalid StreamExecute.Query.BindVariables: got %v expected %v"
      [VBind (BindVariables query); VBind streamExecuteBindVars]
    (PErrorfIf (negb (SessionId query =? testSessionID)%Z)
      "invalid StreamExecute.Query.SessionId: got %v expected %v"
      [VInt (SessionId query); VInt testSessionID]
    (PSend streamExecuteQueryResult1 (fun err =>
     PErrorfIf (isNotNil err) "sendReply1 failed: %v" [VErr err]
    (if panics f && negb (streamExecutePanicsEarly f)
     then PRecv panicWait (PDone (Panicked (Errorf "test-triggered panic late")))
     else if hasError f
     then PRecv errorWait (PDone (Returned (Some testTabletError)))
     else PSend streamExecuteQueryResult2 (fun err =>
          PErrorfIf (isNotNil err) "sendReply2 failed: %v" [VErr err]
          (PDone (Returned None)))))))) w) as (w1 & L1 & E1).
  rewrite E1. clear E1.
  match goal with |- context [advance (PErrorfIf ?c ?fmt ?a ?k) w1] =>
    destruct (advance_PErrorfIf c fmt a k w1) as (w2 & L2 & E2) end.
  rewrite E2. clear E2.
  match goal with |- context [advance (PErrorfIf ?c ?fmt ?a ?k) w2] =>
    destruct (advance_PErrorfIf c fmt a k w2) as (w3 & L3 & E3) end.
  rewrite E3. clear E3.
  eexists w3, _. split; [|split; [reflexivity|split]].
  - eauto using logOnly_trans.
  - rewrite !sent_PErrorfIf. reflexivity.
  - rewrite !ending_PErrorfIf. reflexivity.
Qed.

Lemma sameServer_refl w : sameServer w w.
Proof. by split. Qed.

(** A streaming call on the reference connection, drained: the chunks
    received are those the fake sent, and the terminal error is the guarded
    end of the fake's body. *)
Lemma observe_refConn (eager : bool) (sid : Z) (second : bool) (q : string)
    (bv : gmap string BindVal) (id : Z) (w : World) (m : nat) :
  let p := StreamExecute (fake w)
             {| Sql := q; BindVariables := bv; SessionId := sid;
                TransactionId := id |} in
  exists w' c,
    observe (3 + m) (refConn eager sid) second q bv id w
    = (w', Ok (match sent delivered p with
               | [] => if eager then rpc.guarded (ending delivered p) else None
               | _ => None
               end,
               closedWith c (ending delivered p),
               sent delivered p,
               rpc.guarded (ending delivered p)))
    /\ sameServer w w'.
Proof.
  intros p.
  set (c := if second then rpc.v2 w else rpc.v1 w).
  assert (Hcall : streamCall (refConn eager sid) second q bv id w
                  = refStreamExecute eager sid (fun _ => c) q bv id w).
  { unfold streamCall, c. destruct second; reflexivity. }
  unfold observe, bind, call. rewrite Hcall. clear Hcall.
  unfold refStreamExecute. fold p.
  destruct (panics (fake w) && streamExecutePanicsEarly (fake w)) eqn:He.
  - assert (Hp : p = PDone (Panicked (Errorf "test-triggered panic early"))).
    { unfold p, StreamExecute. by rewrite He. }
    rewrite Hp. exists w, c. split; [|apply sameServer_refl].
    destruct eager; simpl; rewrite ?cell_closedWith; reflexivity.
  - destruct (advance_StreamExecute (fake w)
                {| Sql := q; BindVariables := bv; SessionId := sid;
                   TransactionId := id |} w He) as (w0 & k & L0 & Ea & Es & Ee).
    fold p in Ea, Es, Ee.
    assert (Hlen : (length (sent delivered k) < 2 + m)%nat).
    { assert (length (sent delivered p) <= 2)%nat.
      { unfold p. rewrite sent_StreamExecute, He.
        destruct (panics (fake w) || hasError (fake w)); simpl; lia. }
      rewrite Es in H. simpl in H. lia. }
    destruct (drain_released eager sid k (2 + m) [streamExecuteQueryResult1]
                (setChan errorWait Go.Closed (setChan panicWait Go.Closed w0))
                None c (proj1 (release_both w0)) Hlen) as (w' & Hd & Hl).
    exists w', c. rewrite Es, Ee. simpl app in Hd. split.
    + destruct eager.
      * rewrite Ea. change (3 + m)%nat with (S (2 + m)). rewrite drain_step.
        cbn [tabletconn.Recv refConn refRecv pending producer cell convention].
        simpl app. rewrite Hd. unfold errFunc, ret.
        cbn [tabletconn.ErrFunc refConn]. rewrite cell_closedWith. reflexivity.
      * change (3 + m)%nat with (S (2 + m)). rewrite drain_step.
        cbn [tabletconn.Recv refConn refRecv pending producer cell convention].
        rewrite Ea. simpl app. rewrite Hd. unfold errFunc, ret.
        cbn [tabletconn.ErrFunc refConn]. rewrite cell_closedWith. reflexivity.
    + eapply sameServer_trans; [apply logOnly_sameServer; exact L0|].
      eapply sameServer_trans; [apply (release_both w0)|].
      apply logOnly_sameServer; exact Hl.
Qed.

(** ** C2: the shape of a streamed result *)

Lemma first_chunk_accepted (qr : QueryResult) :
  DeepEqual (nilRowsIfEmpty qr) streamExecuteQueryResult1 = true ->
  fieldsOnly qr = true.
Proof.
  intros E. apply (proj1 (DeepEqual_true _ _)) in E.
  destruct qr as [fs ra ii [[|r rs]|]]; unfold nilRowsIfEmpty in E; simpl in E;
    inversion E; subst; reflexivity.
Qed.

Lemma second_chunk_accepted (qr : QueryResult) :
  DeepEqual (nilFieldsIfEmpty qr) streamExecuteQueryResult2 = true ->
  rowsOnly qr = true.
Proof.
  intros E. apply (proj1 (DeepEqual_true _ _)) in E.
  destruct qr as [[[|f fs]|] ra ii rs]; unfold nilFieldsIfEmpty in E; simpl in E;
    inversion E; subst; reflexivity.
Qed.

Lemma Failed_Errorf (t : T) fmt a : Failed (Errorf_ t fmt a) = true.
Proof. unfold Errorf_. rewrite Failed_app. simpl. apply orb_true_r. Qed.

Lemma Failed_Fatalf (t : T) fmt a : Failed (Fatalf_ t fmt a) = true.
Proof. unfold Fatalf_. rewrite Failed_app. simpl. apply orb_true_r. Qed.

Lemma Failed_Log (t : T) msg : Failed (Log_ t msg) = Failed t.
Proof. unfold Log_. rewrite Failed_app. simpl. apply orb_false_r. Qed.

Lemma testStreamExecute_accepts_fragmented chunks errF w :
  verdict (testStreamExecute (replayConn chunks errF) w) = (false, Ok tt) ->
  fragmented chunks = true.
Proof.
  destruct chunks as [|c1 [|c2 [|c3 rest]]]; unfold testStreamExecute; run_test;
    try discriminate;
    destruct (DeepEqual (nilRowsIfEmpty c1) streamExecuteQueryResult1) eqn:E1;
    simpl; try discriminate;
    destruct (DeepEqual (nilFieldsIfEmpty c2) streamExecuteQueryResult2) eqn:E2;
    simpl; try discriminate; destruct errF; simpl; try discriminate;
    rewrite ?Failed_Errorf; try discriminate.
  intros _. rewrite (first_chunk_accepted _ E1), (second_chunk_accepted _ E2).
  reflexivity.
Qed.

Lemma testStreamExecute2_accepts_fragmented chunks errF w :
  verdict (testStreamExecute2 (replayConn chunks errF) w) = (false, Ok tt) ->
  fragmented chunks = true.
Proof.
  destruct chunks as [|c1 [|c2 [|c3 rest]]]; unfold testStreamExecute2; run_test;
    try discriminate;
    destruct (DeepEqual (nilRowsIfEmpty c1) streamExecuteQueryResult1) eqn:E1;
    simpl; try discriminate;
    destruct (DeepEqual (nilFieldsIfEmpty c2) streamExecuteQueryResult2) eqn:E2;
    simpl; try discriminate; destruct errF; simpl; try discriminate;
    rewrite ?Failed_Errorf; try discriminate.
  intros _. rewrite (first_chunk_accepted _ E1), (second_chunk_accepted _ E2).
  reflexivity.
Qed.

(** C2: whatever its switches, the query and the answers of [sendReply], the
    fake sends a fields-only chunk first and rows-only chunks after it; and
    the tests of [StreamExecute] and [StreamExecute2] pass only on a stream of
    that shape. *)
Theorem stream_is_fragmented
    (f : FakeQueryService) (query : Query) (answer : QueryResult -> error)
    (chunks : list QueryResult) (errF : error) (w : World) :
  fragmented (sent answer (StreamExecute f query)) = true
  /\ (verdict (testStreamExecute (replayConn chunks errF) w) = (false, Ok tt) ->
      fragmented chunks = true)
  /\ (verdict (testStreamExecute2 (replayConn chunks errF) w) = (false, Ok tt) ->
      fragmented chunks = true).
Proof.
  split; [|split].
  - rewrite sent_StreamExecute.
    destruct (panics f && streamExecutePanicsEarly f), (panics f || hasError f);
      reflexivity.
  - apply testStreamExecute_accepts_fragmented.
  - apply testStreamExecute2_accepts_fragmented.
Qed.

Lemma stream_is_fragmented_witness :
  fragmented [streamExecuteQueryResult1; streamExecuteQueryResult2] = true
  /\ fragmented (sent delivered
        (StreamExecute (fake (CreateFakeServer [] false))
           {| Sql := streamExecuteQuery; BindVariables := streamExecuteBindVars;
              SessionId := testSessionID;
              TransactionId := streamExecuteTransactionID |})) = true.
Proof.
  pose proof (stream_is_fragmented (fake (CreateFakeServer [] false))
    {| Sql := streamExecuteQuery; BindVariables := streamExecuteBindVars;
       SessionId := testSessionID; TransactionId := streamExecuteTransactionID |}
    delivered [streamExecuteQueryResult1; streamExecuteQueryResult2] None
    (CreateFakeServer [] false)) as [Hs [H1 _]].
  split; [apply H1; vm_compute; reflexivity|exact Hs].
Defined.

(** ** C7: the batch call *)

Lemma ErrorfIf_length cond (t : T) fmt a :
  length (ErrorfIf cond t fmt a) = (length t + (if cond then 1 else 0))%nat.
Proof.
  destruct cond; simpl; [|lia].
  unfold Errorf_. rewrite length_app. reflexivity.
Qed.


Lemma negb_Zeqb_false (a b : Z) : negb (a =? b)%Z = false <-> a = b.
Proof. rewrite negb_false_iff. apply Z.eqb_eq. Qed.

Lemma negb_DeepEqual_false {A} `{EqDecision A} (x y : A) :
  negb (DeepEqual x y) = false <-> x = y.
Proof. rewrite negb_false_iff. apply DeepEqual_true. Qed.

(** C7, as the code has it: a batch of one query is answered with the two
    fixed results and no error. *)
Lemma ExecuteBatch_not_one_to_one :
  ExecuteBatch plainFake
    {| Queries := [ {| bqSql := "executeBatchQueries1";
                       bqBindVariables := {[ "bind1" := BInt64 43 ]} |} ];
       qlSessionId := testSessionID;
       qlTransactionId := executeBatchTransactionID |}
    {| List := [] |} []
  = ([ {| level := LError;
          format := "invalid ExecuteBatch.QueryList.Queries: got %v expected %v";
          args := [ VQueries [ {| bqSql := "executeBatchQueries1";
                                  bqBindVariables := {[ "bind1" := BInt64 43 ]} |} ];
                    VQueries executeBatchQueries ] |} ],
      executeBatchQueryResultList, Returned None)
  /\ length (List executeBatchQueryResultList) = 2%nat.
Proof. split; vm_compute; reflexivity. Qed.

(** C7, amended: with its switches off the fake answers every batch with no
    error and the fixed result list; it records no complaint exactly when the
    batch is the expected one, queries in order, under the expected session
    and transaction, and then the list has one result per query. *)
Theorem ExecuteBatch_fixed_results
    (f : FakeQueryService) (queryList : QueryList) (reply : QueryResultList)
    (t : T) :
  hasError f = false -> panics f = false ->
  snd (ExecuteBatch f queryList reply t) = Returned None
  /\ snd (fst (ExecuteBatch f queryList reply t)) = executeBatchQueryResultList
  /\ (fst (fst (ExecuteBatch f queryList reply t)) = t <->
      Queries queryList = executeBatchQueries
      /\ qlSessionId queryList = testSessionID
      /\ qlTransactionId queryList = executeBatchTransactionID)
  /\ (Queries queryList = executeBatchQueries ->
      length (List (snd (fst (ExecuteBatch f queryList reply t))))
      = length (Queries queryList)).
Proof.
  intros Hh Hp. unfold ExecuteBatch. rewrite Hh, Hp. simpl.
  split; [reflexivity|]. split; [reflexivity|]. split.
  - split.
    + intros E. apply (f_equal (@length LogEntry)) in E.
      rewrite !ErrorfIf_length in E.
      destruct (negb (DeepEqual (Queries queryList) executeBatchQueries)) eqn:E1;
        [lia|].
      destruct (negb (qlSessionId queryList =? testSessionID)%Z) eqn:E2; [lia|].
      destruct (negb (qlTransactionId queryList =? executeBatchTransactionID)%Z)
        eqn:E3; [lia|].
      apply (proj1 (negb_DeepEqual_false _ _)) in E1.
      apply (proj1 (negb_Zeqb_false _ _)) in E2.
      apply (proj1 (negb_Zeqb_false _ _)) in E3. auto.
    + intros (E1 & E2 & E3).
      apply (proj2 (negb_DeepEqual_false _ _)) in E1.
      apply (proj2 (negb_Zeqb_false _ _)) in E2.
      apply (proj2 (negb_Zeqb_false _ _)) in E3.
      rewrite E1, E2, E3. reflexivity.
  - intros ->. reflexivity.
Qed.

Lemma ExecuteBatch_fixed_results_witness :
  snd (ExecuteBatch plainFake
         {| Queries := executeBatchQueries; qlSessionId := testSessionID;
            qlTransactionId := executeBatchTransactionID |}
         {| List := [] |} []) = Returned None
  /\ length (List executeBatchQueryResultList) = length executeBatchQueries.
Proof.
  destruct (ExecuteBatch_fixed_results plainFake
    {| Queries := executeBatchQueries; qlSessionId := testSessionID;
       qlTransactionId := executeBatchTransactionID |} {| List := [] |} []
    eq_refl eq_refl) as (H1 & H2 & _ & H4).
  split; [exact H1|]. rewrite <- H2. apply H4. reflexivity.
Defined.

(** ** C8: Begin and the transaction id *)

(** The reference connection, dialled for the test session, issues [Begin]
    and [Begin2] requests that the fake accepts without a complaint. *)
Lemma refConn_Begin_accepted (eager : bool) (w : World) :
  hasError (fake w) = false -> panics (fake w) = false ->
  tabletconn.Begin (refConn eager testSessionID) w
  = (w, (beginTransactionID, None))
  /\ tabletconn.Begin2 (refConn eager testSessionID) w
     = (w, (beginTransactionID, None)).
Proof.
  intros Hh Hp. simpl. unfold refBegin, Begin. rewrite Hh, Hp. simpl.
  destruct w; simpl. destruct (rpc.v1 _); split; reflexivity.
Qed.

(** C8, as the code has it: a [Begin] on a session that carries the
    transaction id [Begin] itself hands out, so inside the transaction it
    opened, is not refused.  The fake reports the id to its [testing.T] and
    goes on: it hands out the transaction id once more and returns [nil]. *)
Lemma nested_Begin_returns_nil :
  Begin plainFake
    {| sSessionId := testSessionID; sTransactionId := beginTransactionID |}
    {| tiTransactionId := 0 |} []
  = ([ {| level := LError;
          format := "Begin: invalid TransactionId: got %v expected 0";
          args := [VInt beginTransactionID] |} ],
     {| tiTransactionId := beginTransactionID |},
     Returned None)
  /\ HandlePanic None None = None.
Proof. split; reflexivity. Qed.

Lemma In_ErrorfIf (e : LogEntry) cond (t : T) fmt a :
  In e (ErrorfIf cond t fmt a) <->
  In e t \/ (cond = true /\ e = {| level := LError; format := fmt; args := a |}).
Proof.
  destruct cond; simpl.
  - unfold Errorf_. rewrite in_app_iff. simpl. intuition congruence.
  - intuition congruence.
Qed.

(** C8, amended: every [Begin] and [Begin2] request the reference
    connection issues carries its session id and transaction id 0: what the
    call leaves in the [testing.T] of the fake is what the fake's [Begin]
    writes for that session, and never a complaint about the transaction id.
    The fake, with its switches off, complains about the transaction id of a
    [Begin] exactly when it is not 0, and takes the request without any
    complaint exactly when it carries the test session id and transaction
    id 0; but it refuses no request: whatever the ids, it hands out the fixed
    transaction id and returns no error. *)
Theorem Begin_nesting_reported_not_refused
    (eager : bool) (sid : Z) (w : World)
    (f : FakeQueryService) (session : Session) (txInfo : TransactionInfo)
    (t : T) (a : list fmtarg) :
  (tlog (fst (tabletconn.Begin (refConn eager sid) w))
     = fst (fst (Begin (fake w) {| sSessionId := sid; sTransactionId := 0 |}
                   {| tiTransactionId := 0 |} (tlog w)))
   /\ tlog (fst (tabletconn.Begin2 (refConn eager sid) w))
      = fst (fst (Begin (fake w) {| sSessionId := sid; sTransactionId := 0 |}
                    {| tiTransactionId := 0 |} (tlog w)))
   /\ (In {| level := LError;
             format := "Begin: invalid TransactionId: got %v expected 0";
             args := a |}
          (tlog (fst (tabletconn.Begin (refConn eager sid) w)))
       \/ In {| level := LError;
                format := "Begin: invalid TransactionId: got %v expected 0";
                args := a |}
             (tlog (fst (tabletconn.Begin2 (refConn eager sid) w))) ->
       In {| level := LError;
             format := "Begin: invalid TransactionId: got %v expected 0";
             args := a |} (tlog w)))
  /\ (hasError f = false -> panics f = false ->
      snd (Begin f session txInfo t) = Returned None
      /\ snd (fst (Begin f session txInfo t))
         = {| tiTransactionId := beginTransactionID |}
      /\ (In {| level := LError;
                format := "Begin: invalid TransactionId: got %v expected 0";
                args := a |}
             (fst (fst (Begin f session txInfo t))) <->
          In {| level := LError;
                format := "Begin: invalid TransactionId: got %v expected 0";
                args := a |} t
          \/ (sTransactionId session <> 0
              /\ a = [VInt (sTransactionId session)]))
      /\ (sTransactionId session <> 0 ->
          Failed (fst (fst (Begin f session txInfo t))) = true)
      /\ (fst (fst (Begin f session txInfo t)) = t <->
          sSessionId session = testSessionID /\ sTransactionId session = 0)).
Proof.
  split.
  - assert (HB : forall conv,
        tlog (fst (refBegin sid conv w))
        = fst (fst (Begin (fake w) {| sSessionId := sid; sTransactionId := 0 |}
                      {| tiTransactionId := 0 |} (tlog w)))).
    { intros conv. unfold refBegin.
      by destruct (Begin _ _ _ _) as [[t' tx] o]. }
    cbn [tabletconn.Begin tabletconn.Begin2 refConn].
    split; [apply HB|]. split; [apply HB|].
    rewrite !HB. unfold Begin.
    destruct (hasError (fake w)); [tauto|].
    destruct (panics (fake w)); [tauto|].
    cbn [fst sSessionId sTransactionId]. intros [H|H];
      apply In_ErrorfIf in H as [H|[H _]]; try discriminate H;
      apply In_ErrorfIf in H as [H|[_ H]]; try exact H; discriminate H.
  - intros Hh Hp. unfold Begin. rewrite Hh, Hp. cbn [fst snd].
    split; [reflexivity|]. split; [reflexivity|]. split; [|split].
    + rewrite In_ErrorfIf. split.
      * intros [H|[Hc He]].
        -- apply In_ErrorfIf in H as [H|[_ H]]; [by left|discriminate H].
        -- right. split; [|congruence].
           apply negb_true_iff in Hc. by apply Z.eqb_neq in Hc.
      * intros [H|[Hc He]].
        -- left. apply In_ErrorfIf. by left.
        -- right. split; [|by rewrite He].
           apply negb_true_iff. by apply Z.eqb_neq.
    + intros Hne. apply Z.eqb_neq in Hne. rewrite Hne. simpl.
      apply Failed_Errorf.
    + split.
      * intros E. apply (f_equal (@length LogEntry)) in E.
        rewrite !ErrorfIf_length in E.
        destruct (negb (sSessionId session =? testSessionID)%Z) eqn:E1; [lia|].
        destruct (negb (sTransactionId session =? 0)%Z) eqn:E2; [lia|].
        apply (proj1 (negb_Zeqb_false _ _)) in E1.
        apply (proj1 (negb_Zeqb_false _ _)) in E2. auto.
      * intros (E1 & E2).
        apply (proj2 (negb_Zeqb_false _ _)) in E1.
        apply (proj2 (negb_Zeqb_false _ _)) in E2.
        rewrite E1, E2. reflexivity.
Qed.

Lemma Begin_nesting_reported_not_refused_witness :
  snd (Begin plainFake
         {| sSessionId := testSessionID; sTransactionId := beginTransactionID |}
         {| tiTransactionId := 0 |} []) = Returned None
  /\ Failed (fst (fst (Begin plainFake
                         {| sSessionId := testSessionID;
                            sTransactionId := beginTransactionID |}
                         {| tiTransactionId := 0 |} []))) = true
  /\ tlog (fst (tabletconn.Begin (refConn true testSessionID)
                  (CreateFakeServer [] false))) = [].
Proof.
  pose proof (Begin_nesting_reported_not_refused true testSessionID
                (CreateFakeServer [] false) plainFake
                {| sSessionId := testSessionID;
                   sTransactionId := beginTransactionID |}
                {| tiTransactionId := 0 |} [] []) as [[H1 _] H2].
  destruct (H2 eq_refl eq_refl) as (Hr & _ & _ & HF & _).
  split; [exact Hr|]. split; [apply HF; discriminate|].
  rewrite H1. reflexivity.
Defined.

(** ** C9: the split count *)

(** C9, as the code has it: a split count of 0, and one of -1, is answered
    with no error and the fixed list of splits. *)
Lemma SplitQuery_nonpositive_count_succeeds :
  SplitQuery plainFake {| sqQuery := splitQueryBoundQuery; SplitCount := 0 |}
    {| sqrQueries := [] |} []
  = ([ {| level := LError;
          format := "invalid SplitQuery.SplitQueryRequest.SplitCount: got %v expected %v";
          args := [VInt 0; VInt splitQuerySplitCount] |} ],
      {| sqrQueries := splitQueryQuerySplitList |}, Returned None)
  /\ snd (SplitQuery plainFake
            {| sqQuery := splitQueryBoundQuery; SplitCount := -1 |}
            {| sqrQueries := [] |} []) = Returned None.
Proof. split; vm_compute; reflexivity. Qed.

(** C9, amended: with its switches off the fake answers every split count,
    positive or not, with no error and the fixed list of splits; it records
    a complaint about the split count whenever the count is not the expected
    372, so for every count of 0 or less, and records nothing exactly when
    query and count are the expected ones. *)
Theorem SplitQuery_any_count
    (f : FakeQueryService) (req : SplitQueryRequest) (reply : SplitQueryResult)
    (t : T) :
  hasError f = false -> panics f = false ->
  snd (SplitQuery f req reply t) = Returned None
  /\ snd (fst (SplitQuery f req reply t)) = {| sqrQueries := splitQueryQuerySplitList |}
  /\ (SplitCount req <> splitQuerySplitCount ->
      In {| level := LError;
            format := "invalid SplitQuery.SplitQueryRequest.SplitCount: got %v expected %v";
            args := [VInt (SplitCount req); VInt splitQuerySplitCount] |}
         (fst (fst (SplitQuery f req reply t))))
  /\ (SplitCount req <= 0 -> Failed (fst (fst (SplitQuery f req reply t))) = true)
  /\ (fst (fst (SplitQuery f req reply t)) = t <->
      sqQuery req = splitQueryBoundQuery /\ SplitCount req = splitQuerySplitCount).
Proof.
  intros Hh Hp. unfold SplitQuery. rewrite Hh, Hp. simpl.
  split; [reflexivity|]. split; [reflexivity|].
  assert (Hin : SplitCount req <> splitQuerySplitCount ->
    In {| level := LError;
          format := "invalid SplitQuery.SplitQueryRequest.SplitCount: got %v expected %v";
          args := [VInt (SplitCount req); VInt splitQuerySplitCount] |}
       (ErrorfIf (negb (SplitCount req =? splitQuerySplitCount)%Z)
          (ErrorfIf (negb (DeepEqual (sqQuery req) splitQueryBoundQuery)) t
             "invalid SplitQuery.SplitQueryRequest.Query: got %v expected %v"
             [VBound (sqQuery req); VBound splitQueryBoundQuery])
          "invalid SplitQuery.SplitQueryRequest.SplitCount: got %v expected %v"
          [VInt (SplitCount req); VInt splitQuerySplitCount])).
  { intros Hne. apply Z.eqb_neq in Hne. rewrite Hne. simpl.
    unfold Errorf_. apply in_or_app. right. left. reflexivity. }
  split; [exact Hin|]. split.
  - intros Hle.
    assert (Hne : SplitCount req <> splitQuerySplitCount)
      by (unfold splitQuerySplitCount; lia).
    apply Z.eqb_neq in Hne. rewrite Hne. simpl. apply Failed_Errorf.
  - split.
    + intros E. apply (f_equal (@length LogEntry)) in E.
      rewrite !ErrorfIf_length in E.
      destruct (negb (DeepEqual (sqQuery req) splitQueryBoundQuery)) eqn:E1; [lia|].
      destruct (negb (SplitCount req =? splitQuerySplitCount)%Z) eqn:E2; [lia|].
      apply (proj1 (negb_DeepEqual_false _ _)) in E1.
      apply (proj1 (negb_Zeqb_false _ _)) in E2. auto.
    + intros (E1 & E2).
      apply (proj2 (negb_DeepEqual_false _ _)) in E1.
      apply (proj2 (negb_Zeqb_false _ _)) in E2.
      rewrite E1, E2. reflexivity.
Qed.

Lemma SplitQuery_any_count_witness :
  snd (SplitQuery plainFake
         {| sqQuery := splitQueryBoundQuery; SplitCount := -5 |}
         {| sqrQueries := [] |} []) = Returned None
  /\ Failed (fst (fst (SplitQuery plainFake
         {| sqQuery := splitQueryBoundQuery; SplitCount := -5 |}
         {| sqrQueries := [] |} []))) = true.
Proof.
  destruct (SplitQuery_any_count plainFake
    {| sqQuery := splitQueryBoundQuery; SplitCount := -5 |}
    {| sqrQueries := [] |} [] eq_refl eq_refl) as (H1 & _ & _ & H4 & _).
  split; [exact H1|]. apply H4. simpl. lia.
Defined.

(** ** C6: the message of an error *)

Lemma serve_cases (f : FakeQueryService) (r : Request) (t : T) :
  serve f r t = Returned None
  \/ serve f r t = Returned (Some testTabletError)
  \/ serve f r t = Panicked (Errorf "test-triggered panic")
  \/ serve f r t = Panicked (Errorf "test-triggered panic early")
  \/ serve f r t = Panicked (Errorf "test-triggered panic late").
Proof.
  destruct r; unfold serve;
    try (unfold Begin, Commit, Rollback, Execute, ExecuteBatch, SplitQuery;
         destruct (hasError f), (panics f); simpl; tauto).
  rewrite ending_StreamExecute.
  destruct (panics f), (streamExecutePanicsEarly f), (hasError f); tauto.
Qed.

(** C6, as the code has it: the error made of a fault caught in [Begin]
    reads "caught test panic: test-triggered panic"; it neither starts with
    nor contains "error: ". *)
Lemma caught_fault_lacks_error_prefix :
  serve (setPanics true plainFake)
    (RBegin {| sSessionId := testSessionID; sTransactionId := 0 |}) []
  = Panicked (Errorf "test-triggered panic")
  /\ HandlePanic (Some (Errorf "test-triggered panic")) None
     = Some (Errorf "caught test panic: test-triggered panic")
  /\ Go.HasPrefix "caught test panic: test-triggered panic" "error: " = false
  /\ Go.Contains "caught test panic: test-triggered panic" "error: " = false.
Proof. repeat split; vm_compute; reflexivity. Qed.

(** C6, amended: an error returned by a method of the fake is the generic
    tablet error, whose message is "error: " followed by the failure
    description and is what the tests look for; the error [HandlePanic]
    makes of a fault reads "caught test panic: " followed by the fault, and
    does not start with "error: ". *)
Theorem error_messages (f : FakeQueryService) (r : Request) (t : T) :
  match serve f r t with
  | Returned None => True
  | Returned (Some e) =>
      Error e = "error: " ++ "generic error"
      /\ Go.Contains (Error e) expectedErrMatch = true
  | Panicked x =>
      exists e, HandlePanic (Some x) None = Some e
                /\ Error e = "caught test panic: " ++ Error x
                /\ Go.HasPrefix (Error e) "error: " = false
  end.
Proof.
  destruct (serve_cases f r t) as [H|[H|[H|[H|H]]]]; rewrite H;
    try exact I; try (split; reflexivity);
    eexists; (split; [reflexivity|split; reflexivity]).
Qed.


(** ** C4: where a streaming fault is reported *)

Lemma nilOrLacks_false (err : error) (s : string) :
  nilOrLacks err s = false -> errorWith s err.
Proof.
  destruct err as [e|]; simpl; [|discriminate].
  intros H. exists e. split; [reflexivity|]. by apply negb_false_iff.
Qed.

Lemma bind_Ok {A B} (m : TestM A) (k : A -> TestM B) (w : World) (b : B) :
  snd (bind m k w) = Ok b ->
  exists w' a, m w = (w', Ok a) /\ snd (k a w') = Ok b.
Proof.
  unfold bind. destruct (m w) as [w' [a|s]]; simpl; [|discriminate].
  intros H. by exists w', a.
Qed.

Lemma when_Fatalf_Ok (cond : bool) fmt a (w w' : World) :
  when cond (tFatalf fmt a) w = (w', Ok tt) -> cond = false /\ w' = w.
Proof.
  destruct cond; simpl; unfold tFatalf, ret; intros H; inversion H; auto.
Qed.

Lemma call_Ok {A} (m : World -> World * A) (w w' : World) (a : A) :
  call m w = (w', Ok a) -> m w = (w', a).
Proof. unfold call. destruct (m w). intros H. by inversion H. Qed.

Lemma recv_Ok (conn : TabletConn) (s s' : tabletconn.Stream conn)
    (w w' : World) (r : option QueryResult) :
  recv conn s w = (w', Ok (s', r)) ->
  match r with
  | Some qr => tabletconn.Recv conn s w = (w', (s', Got qr))
  | None => tabletconn.Recv conn s w = (w', (s', ChanClosed))
  end.
Proof.
  unfold recv. destruct (tabletconn.Recv conn s w) as [w0 [s0 [qr| |]]];
    intros H; inversion H; subst; reflexivity.
Qed.

Lemma close_Ok (c : WaitChan) (w w' : World) :
  close c w = (w', Ok tt) -> getChan c w' = Go.Closed.
Proof.
  unfold close. destruct (getChan c w) eqn:E; intros H; inversion H; subst.
  by destruct c.
Qed.

Lemma bind_eq_Ok {A B} (m : TestM A) (k : A -> TestM B) (w w2 : World) (b : B) :
  bind m k w = (w2, Ok b) ->
  exists w' a, m w = (w', Ok a) /\ k a w' = (w2, Ok b).
Proof.
  unfold bind. destruct (m w) as [w' [a|s]]; [|discriminate].
  intros H. by exists w', a.
Qed.

Lemma isNotNil_false (err : error) : isNotNil err = false -> err = None.
Proof. by destruct err. Qed.

Lemma is_Some_b_false {A} (o : option A) : is_Some_b o = false -> o = None.
Proof. by destruct o. Qed.

Lemma refStreamExecute_accessor (eager : bool) (sid : Z)
    (conv : World -> rpc.Convention) (q : string) (bv : gmap string BindVal)
    (id : Z) (w : World) :
  cell (fst (snd (refStreamExecute eager sid conv q bv id w)))
  = snd (snd (refStreamExecute eager sid conv q bv id w)).
Proof.
  unfold refStreamExecute. destruct eager; [|reflexivity].
  by destruct (advance _ w) as [w' [qr k|p'|o]].
Qed.

(** C4, amended: a streaming call on the reference connection, of either
    generation and for any query, observed to the end of its stream.  The
    chunks received are those the fake sent, in order, and the stream then
    stays closed.  The terminal error accessor, read after the close, is
    silent exactly when the body of the fake ended without a fault.  The call
    itself fails only when the fault came before any chunk, and then with
    the error the accessor reports; right after the call the accessor says
    what the call said, so a fault behind a chunk shows only once the stream
    has closed.  By the switches of the fake: a panic before the first chunk
    is reported by the call or, the stream closing without a chunk, by the
    accessor; a panic or the generic error after the first chunk closes the
    stream behind that chunk and is reported by the accessor alone. *)
Theorem stream_fault_reporting
    (eager : bool) (sid : Z) (second : bool) (q : string)
    (bv : gmap string BindVal) (id : Z) (w : World) (m : nat) :
  exists wa s0 w' err s chunks errF,
    streamCall (refConn eager sid) second q bv id w = (wa, (s0, err))
    /\ tabletconn.ErrFunc (refConn eager sid) s0 wa = err
    /\ observe (3 + m) (refConn eager sid) second q bv id w
       = (w', Ok (err, s, chunks, errF))
    /\ (forall w2,
          tabletconn.Recv (refConn eager sid) s w2 = (w2, (s, ChanClosed))
          /\ tabletconn.ErrFunc (refConn eager sid) s w2 = errF)
    /\ chunks
       = sent delivered
           (StreamExecute (fake w)
              {| Sql := q; BindVariables := bv; SessionId := sid;
                 TransactionId := id |})
    /\ (errF = None <->
        ending delivered
          (StreamExecute (fake w)
             {| Sql := q; BindVariables := bv; SessionId := sid;
                TransactionId := id |}) = Returned None)
    /\ (err <> None -> eager = true /\ chunks = [] /\ errF = err)
    /\ (panics (fake w) = true -> streamExecutePanicsEarly (fake w) = true ->
        chunks = []
        /\ err = (if eager then errF else None)
        /\ errF = Some (Errorf "caught test panic: test-triggered panic early"))
    /\ (panics (fake w) = true -> streamExecutePanicsEarly (fake w) = false ->
        chunks = [streamExecuteQueryResult1]
        /\ err = None
        /\ errF = Some (Errorf "caught test panic: test-triggered panic late"))
    /\ (panics (fake w) = false -> hasError (fake w) = true ->
        chunks = [streamExecuteQueryResult1]
        /\ err = None
        /\ errF = Some testTabletError)
    /\ (panics (fake w) = false -> hasError (fake w) = false ->
        chunks = [streamExecuteQueryResult1; streamExecuteQueryResult2]
        /\ err = None
        /\ errF = None).
Proof.
  destruct (observe_refConn eager sid second q bv id w m) as (w' & c & Ho & _).
  pose proof Ho as Hc. unfold observe in Hc.
  apply bind_eq_Ok in Hc as (wa & [s0 err0] & Hcall & Hc).
  apply call_Ok in Hcall.
  apply bind_eq_Ok in Hc as (wb & [s1 ch] & _ & Hc).
  apply bind_eq_Ok in Hc as (wc & eF & _ & Hc).
  unfold ret in Hc. inversion Hc; subst; clear Hc.
  pose proof (refStreamExecute_accessor eager sid
                (if second then rpc.v2 else rpc.v1) q bv id w) as Ha.
  replace (refStreamExecute eager sid (if second then rpc.v2 else rpc.v1)
             q bv id w)
    with (streamCall (refConn eager sid) second q bv id w) in Ha
    by (by destruct second).
  rewrite Hcall in Ha. cbn [fst snd] in Ha.
  eexists wa, s0, _, _, _, _, _.
  split; [exact Hcall|]. split; [exact Ha|]. split; [exact Ho|].
  split; [intros w2; split; [reflexivity|simpl; apply cell_closedWith]|].
  split; [reflexivity|].
  rewrite sent_StreamExecute, ending_StreamExecute.
  destruct (fake w) as [[] [] []], eager; simpl; repeat split;
    try discriminate; try reflexivity; try congruence;
    intros; try discriminate; try congruence.
Qed.

Lemma stream_fault_reporting_witness :
  exists wa s0 w' s,
    streamCall (refConn true testSessionID) false streamExecuteQuery
      streamExecuteBindVars streamExecuteTransactionID
      (panicking (CreateFakeServer [] false)) = (wa, (s0, None))
    /\ tabletconn.ErrFunc (refConn true testSessionID) s0 wa = None
    /\ observe 3 (refConn true testSessionID) false streamExecuteQuery
         streamExecuteBindVars streamExecuteTransactionID
         (panicking (CreateFakeServer [] false))
       = (w', Ok (None, s, [streamExecuteQueryResult1],
                  Some (Errorf "caught test panic: test-triggered panic late"))).
Proof.
  destruct (stream_fault_reporting true testSessionID false streamExecuteQuery
              streamExecuteBindVars streamExecuteTransactionID
              (panicking (CreateFakeServer [] false)) 0)
    as (wa & s0 & w' & err & s & chunks & errF
        & H1 & H2 & H3 & _ & _ & _ & _ & _ & H9 & _).
  destruct (H9 eq_refl eq_refl) as (Hc & He & HF).
  rewrite Hc, He, HF in H3. rewrite He in H1, H2.
  exists wa, s0, w', s. split; [exact H1|]. split; [exact H2|exact H3].
Defined.

(** C4, as the code has it: the reference connection that leaves every
    failure to the terminal error accessor passes [testStreamExecutePanics],
    and the whole suite, although its call returns no error when the fake
    panics before its first chunk. *)
Lemma early_fault_reported_by_accessor :
  verdict (testStreamExecutePanics (refConn false testSessionID)
             (panicking (CreateFakeServer [] false))) = (false, Ok tt)
  /\ verdict (runSuite false false) = (false, Ok tt)
  /\ sent delivered
       (StreamExecute
          (setStreamExecutePanicsEarly true (setPanics true plainFake))
          {| Sql := streamExecuteQuery; BindVariables := streamExecuteBindVars;
             SessionId := testSessionID;
             TransactionId := streamExecuteTransactionID |}) = []
  /\ snd (snd (tabletconn.StreamExecute (refConn false testSessionID)
                 streamExecuteQuery streamExecuteBindVars
                 streamExecuteTransactionID
                 (setFake
                    (setStreamExecutePanicsEarly true (setPanics true plainFake))
                    (CreateFakeServer [] false)))) = None.
Proof. repeat split; vm_compute; reflexivity. Qed.

(** ** What the caller of the reference connection sees *)

Lemma sameServer_setLog t w : sameServer w (setLog t w).
Proof. by split. Qed.

Lemma snd_collect_respond {A} (c : rpc.Convention) (zero a : A) (o : Outcome) :
  snd (rpc.collect zero (rpc.respond c a o)) = rpc.guarded o.
Proof. rewrite collect_respond. by destruct (rpc.guarded o). Qed.

(** The error a caller of the reference connection ends up with is the
    guarded end of the method the call reaches, and the call leaves the
    service as it found it. *)
Lemma callerSees_refConn (eager : bool) (sid : Z) (c : Call) (w : World) (m : nat) :
  exists w',
    callerSees (3 + m) (refConn eager sid) c w
    = (w', Ok (rpc.guarded (serve (fake w) (requestOf sid c) (tlog w))))
    /\ sameServer w w'.
Proof.
  destruct c as [| |id|id|q bv id|qs id|q bv id|q bv id|q k];
    unfold callerSees, requestOf, serve.
  - unfold bind, call, ret. cbn [tabletconn.Begin refConn]. unfold refBegin.
    destruct (Begin _ _ _ _) as [[t tx] o]. eexists. split;
      [|apply sameServer_setLog]. cbn [snd].
    rewrite <- (snd_collect_respond (rpc.v1 w) 0 (tiTransactionId tx) o).
    destruct (rpc.collect _ _); reflexivity.
  - unfold bind, call, ret. cbn [tabletconn.Begin2 refConn]. unfold refBegin.
    destruct (Begin _ _ _ _) as [[t tx] o]. eexists. split;
      [|apply sameServer_setLog]. cbn [snd].
    rewrite <- (snd_collect_respond (rpc.v2 w) 0 (tiTransactionId tx) o).
    destruct (rpc.collect _ _); reflexivity.
  - unfold call. cbn [tabletconn.Commit refConn]. unfold refCommit.
    destruct (Commit _ _ _) as [t o]. eexists. split;
      [|apply sameServer_setLog]. cbn [snd].
    rewrite snd_collect_respond. reflexivity.
  - unfold call. cbn [tabletconn.Rollback refConn]. unfold refRollback.
    destruct (Rollback _ _ _) as [t o]. eexists. split;
      [|apply sameServer_setLog]. cbn [snd].
    rewrite snd_collect_respond. reflexivity.
  - unfold bind, call, ret. cbn [tabletconn.Execute refConn]. unfold refExecute.
    destruct (Execute _ _ _ _) as [[t qr] o]. eexists. split;
      [|apply sameServer_setLog]. cbn [snd].
    rewrite <- (snd_collect_respond (rpc.v1 w) emptyResult qr o).
    destruct (rpc.collect _ _); reflexivity.
  - unfold bind, call, ret. cbn [tabletconn.ExecuteBatch refConn].
    unfold refExecuteBatch.
    destruct (ExecuteBatch _ _ _ _) as [[t qrl] o]. eexists. split;
      [|apply sameServer_setLog]. cbn [snd].
    rewrite <- (snd_collect_respond (rpc.v1 w) {| List := [] |} qrl o).
    destruct (rpc.collect _ _); reflexivity.
  - destruct (observe_refConn eager sid false q bv id w m) as (w' & cv & Ho & Hs).
    exists w'. split; [|exact Hs]. unfold bind. rewrite Ho. unfold ret.
    destruct (sent delivered _); [destruct eager|]; simpl;
      try reflexivity; by destruct (rpc.guarded _).
  - destruct (observe_refConn eager sid true q bv id w m) as (w' & cv & Ho & Hs).
    exists w'. split; [|exact Hs]. unfold bind. rewrite Ho. unfold ret.
    destruct (sent delivered _); [destruct eager|]; simpl;
      try reflexivity; by destruct (rpc.guarded _).
  - unfold bind, call, ret. cbn [tabletconn.SplitQuery refConn].
    unfold refSplitQuery.
    destruct (SplitQuery _ _ _ _) as [[t r] o]. eexists. split;
      [|apply sameServer_setLog]. cbn [snd].
    rewrite <- (snd_collect_respond (rpc.v1 w) [] (sqrQueries r) o).
    destruct (rpc.collect _ _); reflexivity.
Qed.

(** ** C1: faults are contained *)

Lemma serve_panicking (f : FakeQueryService) (r : Request) (t : T) :
  panics f = true -> hasError f = false ->
  serve f r t = Panicked (Errorf "test-triggered panic")
  \/ serve f r t = Panicked (Errorf "test-triggered panic early")
  \/ serve f r t = Panicked (Errorf "test-triggered panic late").
Proof.
  intros Hp Hh. destruct r; unfold serve;
    try (unfold Begin, Commit, Rollback, Execute, ExecuteBatch, SplitQuery;
         rewrite Hp, Hh; simpl; tauto).
  rewrite ending_StreamExecute, Hp.
  destruct (streamExecutePanicsEarly f); tauto.
Qed.

Lemma serve_plain (f : FakeQueryService) (r : Request) (t : T) :
  panics f = false -> hasError f = false -> serve f r t = Returned None.
Proof.
  intros Hp Hh. destruct r; unfold serve;
    try (unfold Begin, Commit, Rollback, Execute, ExecuteBatch, SplitQuery;
         rewrite Hp, Hh; reflexivity).
  rewrite ending_StreamExecute, Hp, Hh. reflexivity.
Qed.

(** C1: on the reference connection, a call of any entry point during
    which the fake panics returns to its caller an error whose message
    carries "caught test panic", which the message of an error reported by
    the service does not, and lacks the text of such an error; the fake is
    left as it was, and once it no longer panics any call goes through
    without error. *)
Theorem faults_are_contained
    (eager : bool) (sid : Z) (c c' : Call) (w : World) (m : nat) :
  panics (fake w) = true -> hasError (fake w) = false ->
  exists w' e,
    callerSees (3 + m) (refConn eager sid) c w = (w', Ok (Some e))
    /\ Go.Contains (Error e) "caught test panic" = true
    /\ Go.Contains (Error e) expectedErrMatch = false
    /\ Go.Contains (Error testTabletError) "caught test panic" = false
    /\ sameServer w w'
    /\ exists w'',
         callerSees (3 + m) (refConn eager sid) c' (calmed w') = (w'', Ok None).
Proof.
  intros Hp Hh.
  destruct (callerSees_refConn eager sid c w m) as (w' & Hc & Hs).
  assert (Hcalm : exists w'',
    callerSees (3 + m) (refConn eager sid) c' (calmed w') = (w'', Ok None)).
  { destruct (callerSees_refConn eager sid c' (calmed w') m) as (w'' & Hc' & _).
    exists w''. rewrite Hc'. rewrite serve_plain; [reflexivity|reflexivity|].
    simpl. destruct Hs as [Hf _]. by rewrite Hf. }
  destruct (serve_panicking (fake w) (requestOf sid c) (tlog w) Hp Hh)
    as [H|[H|H]]; rewrite H in Hc; simpl in Hc;
    eexists w', _; (split; [exact Hc|]);
    repeat (split; [vm_compute; reflexivity|]);
    (split; [exact Hs|exact Hcalm]).
Qed.

Lemma faults_are_contained_witness :
  exists w' e,
    callerSees 3 (refConn true testSessionID) CBegin
      (panicking (CreateFakeServer [] false)) = (w', Ok (Some e))
    /\ Go.Contains (Error e) "caught test panic" = true.
Proof.
  destruct (faults_are_contained true testSessionID CBegin
              (CCommit commitTransactionID)
              (panicking (CreateFakeServer [] false)) 0 eq_refl eq_refl)
    as (w' & e & H1 & H2 & _).
  exists w', e. split; [exact H1|exact H2].
Defined.

(** ** C3: the end of a stream *)

(** C3: a streaming call on the reference connection, drained, closes its
    stream, which then stays closed and delivers nothing more; the terminal
    error accessor reports no error exactly when both chunks, so the rows,
    were delivered; when the fake fails after its first chunk the stream
    closes behind that chunk and the accessor reports the generic error. *)
Theorem stream_closes_with_terminal_error
    (eager : bool) (sid : Z) (second : bool) (q : string)
    (bv : gmap string BindVal) (id : Z) (w : World) (m : nat) :
  exists w' err s chunks errF,
    observe (3 + m) (refConn eager sid) second q bv id w
    = (w', Ok (err, s, chunks, errF))
    /\ (forall w2, tabletconn.Recv (refConn eager sid) s w2 = (w2, (s, ChanClosed)))
    /\ (forall w2, tabletconn.ErrFunc (refConn eager sid) s w2 = errF)
    /\ (errF = None <->
        chunks = [streamExecuteQueryResult1; streamExecuteQueryResult2])
    /\ (hasError (fake w) = true -> panics (fake w) = false ->
        chunks = [streamExecuteQueryResult1]
        /\ errF = Some testTabletError
        /\ Error testTabletError = expectedErrMatch).
Proof.
  destruct (observe_refConn eager sid second q bv id w m) as (w' & c & Ho & _).
  eexists w', _, _, _, _. split; [exact Ho|].
  split; [reflexivity|]. split; [intros w2; simpl; apply cell_closedWith|].
  rewrite sent_StreamExecute, ending_StreamExecute.
  destruct (fake w) as [[] [] []]; simpl; repeat split;
    try discriminate; try reflexivity; intros; discriminate.
Qed.

Lemma stream_closes_with_terminal_error_witness :
  exists w' err s chunks errF,
    observe 3 (refConn true testSessionID) false streamExecuteQuery
      streamExecuteBindVars streamExecuteTransactionID
      (setFake (setHasError true plainFake) (CreateFakeServer [] false))
    = (w', Ok (err, s, chunks, errF))
    /\ chunks = [streamExecuteQueryResult1]
    /\ errF = Some testTabletError.
Proof.
  destruct (stream_closes_with_terminal_error true testSessionID false
              streamExecuteQuery streamExecuteBindVars
              streamExecuteTransactionID
              (setFake (setHasError true plainFake) (CreateFakeServer [] false)) 0)
    as (w' & err & s & chunks & errF & H1 & _ & _ & _ & H5).
  destruct (H5 eq_refl eq_refl) as (Hc & He & _).
  exists w', err, s, chunks, errF. split; [exact H1|]. split; assumption.
Defined.

(** ** C5: the two generations of the transaction methods *)

Ltac split_ifs :=
  repeat match goal with
         | |- context [if ?b then _ else _] => destruct b; simpl
         end.

Lemma tests_of_generations_agree (id : Z) (err : error) (w : World) :
  verdict (testBegin2 (answerConn id err) w)
    = verdict (testBegin (answerConn id err) w)
  /\ verdict (testBegin2Error (answerConn id err) w)
     = verdict (testBeginError (answerConn id err) w)
  /\ verdict (testBegin2Panics (answerConn id err) w)
     = verdict (testBeginPanics (answerConn id err) w)
  /\ verdict (testCommitError (answerConn id err) (setFlag true w))
     = verdict (testCommitError (answerConn id err) (setFlag false w))
  /\ verdict (testRollbackError (answerConn id err) (setFlag true w))
     = verdict (testRollbackError (answerConn id err) (setFlag false w)).
Proof.
  unfold testBegin2, testBegin, testBegin2Error, testBeginError,
    testBegin2Panics, testBeginPanics, testCommitError, testRollbackError.
  unfold verdict, bind, ret, when, call, tLog, tErrorf, tFatalf, getFlag.
  destruct err as [e|]; simpl; repeat split; split_ifs;
    rewrite ?Failed_Errorf, ?Failed_Fatalf, ?Failed_Log; reflexivity.
Qed.

(** C5: on the reference connection the second generation of [Begin],
    [Commit] and [Rollback] gives its caller what the first gives, result
    and error alike, whatever the server-wide flag; the flag only moves the
    error of a first-generation call from the failure of the call into the
    reply; and the tests judge the answers of either generation alike. *)
Theorem generations_agree
    (eager : bool) (sid : Z) (id : Z) (w : World) (err : error) (e : GoError) :
  tabletconn.Begin2 (refConn eager sid) w = tabletconn.Begin (refConn eager sid) w
  /\ tabletconn.Commit2 (refConn eager sid) id w
     = tabletconn.Commit (refConn eager sid) id w
  /\ tabletconn.Rollback2 (refConn eager sid) id w
     = tabletconn.Rollback (refConn eager sid) id w
  /\ (RPCErrorOnlyInReply w = true ->
      rpc.respond (rpc.v1 w) id (Returned (Some e))
      = {| rpc.reply := id; rpc.replyErr := Some e; rpc.callErr := None |}
      /\ rpc.respond (rpc.v2 w) id (Returned (Some e))
         = {| rpc.reply := id; rpc.replyErr := None; rpc.callErr := Some e |})
  /\ (RPCErrorOnlyInReply w = false ->
      rpc.respond (rpc.v1 w) id (Returned (Some e))
      = rpc.respond (rpc.v2 w) id (Returned (Some e)))
  /\ verdict (testBegin2 (answerConn id err) w)
       = verdict (testBegin (answerConn id err) w)
  /\ verdict (testBegin2Error (answerConn id err) w)
       = verdict (testBeginError (answerConn id err) w)
  /\ verdict (testCommitError (answerConn id err) (setFlag true w))
       = verdict (testCommitError (answerConn id err) (setFlag false w)).
Proof.
  split; [|split; [|split; [|split; [|split]]]].
  - cbn [tabletconn.Begin tabletconn.Begin2 refConn]. unfold refBegin.
    destruct (Begin _ _ _ _) as [[t tx] o]. by rewrite !collect_respond.
  - cbn [tabletconn.Commit tabletconn.Commit2 refConn]. unfold refCommit.
    destruct (Commit _ _ _) as [t o]. by rewrite !collect_respond.
  - cbn [tabletconn.Rollback tabletconn.Rollback2 refConn]. unfold refRollback.
    destruct (Rollback _ _ _) as [t o]. by rewrite !collect_respond.
  - intros Hf. unfold rpc.v1, rpc.v2. rewrite Hf. split; reflexivity.
  - intros Hf. unfold rpc.v1, rpc.v2. rewrite Hf. reflexivity.
  - destruct (tests_of_generations_agree id err w) as (H1 & H2 & _ & H4 & _).
    auto.
Qed.

Lemma generations_agree_witness :
  rpc.respond (rpc.v1 (CreateFakeServer [] true)) 0 (Returned (Some testTabletError))
  = {| rpc.reply := 0; rpc.replyErr := Some testTabletError; rpc.callErr := None |}
  /\ tabletconn.Begin2 (refConn true testSessionID)
       (setFake (setHasError true plainFake) (CreateFakeServer [] true))
     = tabletconn.Begin (refConn true testSessionID)
         (setFake (setHasError true plainFake) (CreateFakeServer [] true)).
Proof.
  split.
  - apply (generations_agree true testSessionID 0 (CreateFakeServer [] true)
             None testTabletError). reflexivity.
  - apply (generations_agree true testSessionID 0
             (setFake (setHasError true plainFake) (CreateFakeServer [] true))
             None testTabletError).
Defined.

(** * Further properties of the fake *)

Lemma negb_String_eqb_false (a b : string) :
  negb (String.eqb a b) = false <-> a = b.
Proof. rewrite negb_false_iff. apply String.eqb_eq. Qed.

Lemma reports_PErrorfIf answer cond fmt a k :
  reports answer (PErrorfIf cond fmt a k)
  = ((if cond then [{| level := LError; format := fmt; args := a |}] else [])
     ++ reports answer k)%list.
Proof. by destruct cond. Qed.

(** X2: when both [hasError] and [panics] are set, every method but the
    streaming one returns the generic error and does not panic, while
    [StreamExecute] panics and never returns the generic error. *)
Theorem switches_precedence (f : FakeQueryService) (r : Request) (t : T) :
  hasError f = true -> panics f = true ->
  match r with
  | RStreamExecute _ =>
      serve f r t
      = Panicked (Errorf (if streamExecutePanicsEarly f
                          then "test-triggered panic early"
                          else "test-triggered panic late"))
  | _ => serve f r t = Returned (Some testTabletError)
  end.
Proof.
  intros Hh Hp. destruct r; unfold serve;
    try (unfold Begin, Commit, Rollback, Execute, ExecuteBatch, SplitQuery;
         rewrite Hh; reflexivity).
  rewrite ending_StreamExecute, Hp. reflexivity.
Qed.

Lemma switches_precedence_witness :
  serve {| hasError := true; panics := true; streamExecutePanicsEarly := false |}
    (RCommit {| sSessionId := testSessionID; sTransactionId := commitTransactionID |})
    [] = Returned (Some testTabletError)
  /\ serve {| hasError := true; panics := true; streamExecutePanicsEarly := false |}
       (RStreamExecute {| Sql := streamExecuteQuery;
                          BindVariables := streamExecuteBindVars;
                          SessionId := testSessionID;
                          TransactionId := streamExecuteTransactionID |})
       [] = Panicked (Errorf "test-triggered panic late").
Proof.
  split.
  - apply (switches_precedence
             {| hasError := true; panics := true; streamExecutePanicsEarly := false |}
             (RCommit {| sSessionId := testSessionID;
                         sTransactionId := commitTransactionID |}) []
             eq_refl eq_refl).
  - apply (switches_precedence
             {| hasError := true; panics := true; streamExecutePanicsEarly := false |}
             (RStreamExecute {| Sql := streamExecuteQuery;
                                BindVariables := streamExecuteBindVars;
                                SessionId := testSessionID;
                                TransactionId := streamExecuteTransactionID |}) []
             eq_refl eq_refl).
Defined.

(** X3: a method of the fake that does not return [nil], because it returns
    the generic error or panics, has written neither to the reply nor to the
    test: both are as the caller passed them. *)
Theorem failure_writes_nothing
    (f : FakeQueryService) (session : Session) (txInfo : TransactionInfo)
    (query : Query) (qr : QueryResult) (queryList : QueryList)
    (qrl : QueryResultList) (req : SplitQueryRequest) (sr : SplitQueryResult)
    (t : T) :
  (snd (Begin f session txInfo t) <> Returned None ->
     fst (Begin f session txInfo t) = (t, txInfo))
  /\ (snd (Commit f session t) <> Returned None -> fst (Commit f session t) = t)
  /\ (snd (Rollback f session t) <> Returned None ->
      fst (Rollback f session t) = t)
  /\ (snd (Execute f query qr t) <> Returned None ->
      fst (Execute f query qr t) = (t, qr))
  /\ (snd (ExecuteBatch f queryList qrl t) <> Returned None ->
      fst (ExecuteBatch f queryList qrl t) = (t, qrl))
  /\ (snd (SplitQuery f req sr t) <> Returned None ->
      fst (SplitQuery f req sr t) = (t, sr)).
Proof.
  unfold Begin, Commit, Rollback, Execute, ExecuteBatch, SplitQuery.
  destruct (hasError f), (panics f); simpl; repeat split;
    intros H; try reflexivity; by destruct H.
Qed.

Lemma failure_writes_nothing_witness :
  fst (Execute (setHasError true plainFake)
         {| Sql := "other"; BindVariables := executeBindVars; SessionId := 1;
            TransactionId := 2 |} executeQueryResult [])
  = ([], executeQueryResult).
Proof.
  apply (failure_writes_nothing (setHasError true plainFake)
           {| sSessionId := 0; sTransactionId := 0 |} {| tiTransactionId := 0 |}
           {| Sql := "other"; BindVariables := executeBindVars; SessionId := 1;
              TransactionId := 2 |} executeQueryResult
           {| Queries := []; qlSessionId := 0; qlTransactionId := 0 |}
           {| List := [] |}
           {| sqQuery := splitQueryBoundQuery; SplitCount := 0 |}
           {| sqrQueries := [] |} []).
  discriminate.
Defined.

(** X4: with its switches off the fake's [Commit] and [Rollback] return no
    error for every session; each takes a request without a complaint
    exactly when it carries the test session id and the expected transaction
    id, and as the two expected ids are the same number, [Rollback] accepts
    exactly the sessions [Commit] accepts. *)
Theorem Commit_Rollback_accept (f : FakeQueryService) (session : Session) (t : T) :
  hasError f = false -> panics f = false ->
  snd (Commit f session t) = Returned None
  /\ snd (Rollback f session t) = Returned None
  /\ (fst (Commit f session t) = t <->
      sSessionId session = testSessionID
      /\ sTransactionId session = commitTransactionID)
  /\ (fst (Rollback f session t) = t <->
      sSessionId session = testSessionID
      /\ sTransactionId session = rollbackTransactionID)
  /\ (fst (Commit f session t) = t <-> fst (Rollback f session t) = t).
Proof.
  intros Hh Hp.
  assert (HC : fst (Commit f session t) = t <->
               sSessionId session = testSessionID
               /\ sTransactionId session = commitTransactionID).
  { unfold Commit. rewrite Hh, Hp. simpl. split.
    - intros E. apply (f_equal (@length LogEntry)) in E.
      rewrite !ErrorfIf_length in E.
      destruct (negb (sSessionId session =? testSessionID)%Z) eqn:E1; [lia|].
      destruct (negb (sTransactionId session =? commitTransactionID)%Z) eqn:E2;
        [lia|].
      apply (proj1 (negb_Zeqb_false _ _)) in E1.
      apply (proj1 (negb_Zeqb_false _ _)) in E2. auto.
    - intros (E1 & E2).
      apply (proj2 (negb_Zeqb_false _ _)) in E1.
      apply (proj2 (negb_Zeqb_false _ _)) in E2.
      rewrite E1, E2. reflexivity. }
  assert (HR : fst (Rollback f session t) = t <->
               sSessionId session = testSessionID
               /\ sTransactionId session = rollbackTransactionID).
  { unfold Rollback. rewrite Hh, Hp. simpl. split.
    - intros E. apply (f_equal (@length LogEntry)) in E.
      rewrite !ErrorfIf_length in E.
      destruct (negb (sSessionId session =? testSessionID)%Z) eqn:E1; [lia|].
      destruct (negb (sTransactionId session =? rollbackTransactionID)%Z) eqn:E2;
        [lia|].
      apply (proj1 (negb_Zeqb_false _ _)) in E1.
      apply (proj1 (negb_Zeqb_false _ _)) in E2. auto.
    - intros (E1 & E2).
      apply (proj2 (negb_Zeqb_false _ _)) in E1.
      apply (proj2 (negb_Zeqb_false _ _)) in E2.
      rewrite E1, E2. reflexivity. }
  split; [unfold Commit; rewrite Hh, Hp; reflexivity|].
  split; [unfold Rollback; rewrite Hh, Hp; reflexivity|].
  split; [exact HC|]. split; [exact HR|].
  rewrite HC, HR. reflexivity.
Qed.

Lemma Commit_Rollback_accept_witness :
  fst (Rollback plainFake
         {| sSessionId := testSessionID; sTransactionId := commitTransactionID |}
         []) = [].
Proof.
  apply (Commit_Rollback_accept plainFake
           {| sSessionId := testSessionID; sTransactionId := commitTransactionID |}
           [] eq_refl eq_refl).
  split; reflexivity.
Defined.

(** X5: with its switches off the fake's [Execute] answers every query with
    no error and the fixed result, and takes the query without a complaint
    exactly when its text, its bind variables, its session id and its
    transaction id are all the expected ones. *)
Theorem Execute_accepts
    (f : FakeQueryService) (query : Query) (reply : QueryResult) (t : T) :
  hasError f = false -> panics f = false ->
  snd (Execute f query reply t) = Returned None
  /\ snd (fst (Execute f query reply t)) = executeQueryResult
  /\ (fst (fst (Execute f query reply t)) = t <->
      Sql query = executeQuery
      /\ BindVariables query = executeBindVars
      /\ SessionId query = testSessionID
      /\ TransactionId query = executeTransactionID).
Proof.
  intros Hh Hp. unfold Execute. rewrite Hh, Hp. simpl.
  split; [reflexivity|]. split; [reflexivity|]. split.
  - intros E. apply (f_equal (@length LogEntry)) in E.
    rewrite !ErrorfIf_length in E.
    destruct (negb (String.eqb (Sql query) executeQuery)) eqn:E1; [lia|].
    destruct (negb (DeepEqual (BindVariables query) executeBindVars)) eqn:E2;
      [lia|].
    destruct (negb (SessionId query =? testSessionID)%Z) eqn:E3; [lia|].
    destruct (negb (TransactionId query =? executeTransactionID)%Z) eqn:E4;
      [lia|].
    apply (proj1 (negb_String_eqb_false _ _)) in E1.
    apply (proj1 (negb_DeepEqual_false _ _)) in E2.
    apply (proj1 (negb_Zeqb_false _ _)) in E3.
    apply (proj1 (negb_Zeqb_false _ _)) in E4. auto.
  - intros (E1 & E2 & E3 & E4).
    apply (proj2 (negb_String_eqb_false _ _)) in E1.
    apply (proj2 (negb_DeepEqual_false _ _)) in E2.
    apply (proj2 (negb_Zeqb_false _ _)) in E3.
    apply (proj2 (negb_Zeqb_false _ _)) in E4.
    rewrite E1, E2, E3, E4. reflexivity.
Qed.

Lemma Execute_accepts_witness :
  fst (fst (Execute plainFake
              {| Sql := executeQuery; BindVariables := executeBindVars;
                 SessionId := testSessionID;
                 TransactionId := executeTransactionID |} emptyResult [])) = [].
Proof.
  apply (Execute_accepts plainFake
           {| Sql := executeQuery; BindVariables := executeBindVars;
              SessionId := testSessionID;
              TransactionId := executeTransactionID |} emptyResult []
           eq_refl eq_refl).
  repeat split; reflexivity.
Defined.

(** X6: [GetSessionId] hands out the test session id and returns [nil]
    whatever the keyspace, the shard and the switches of the fake; it does
    not panic; and it records a complaint unless the keyspace and the shard
    are the test ones. *)
Theorem GetSessionId_always_answers
    (f : FakeQueryService) (sessionParams : SessionParams)
    (sessionInfo : SessionInfo) (t : T) :
  snd (GetSessionId f sessionParams sessionInfo t) = None
  /\ snd (fst (GetSessionId f sessionParams sessionInfo t))
     = {| siSessionId := testSessionID |}
  /\ (fst (fst (GetSessionId f sessionParams sessionInfo t)) = t <->
      Keyspace sessionParams = TestKeyspace /\ Shard sessionParams = TestShard)
  /\ (fst (fst (GetSessionId f sessionParams sessionInfo t)) <> t ->
      Failed (fst (fst (GetSessionId f sessionParams sessionInfo t))) = true).
Proof.
  unfold GetSessionId. simpl. split; [reflexivity|]. split; [reflexivity|].
  destruct (negb (String.eqb (Keyspace sessionParams) TestKeyspace)) eqn:E1,
    (negb (String.eqb (Shard sessionParams) TestShard)) eqn:E2; simpl.
  - split; [split|intros _; apply Failed_Errorf].
    + intros E. apply (f_equal (@length LogEntry)) in E.
      unfold Errorf_ in E. rewrite !length_app in E. simpl in E. lia.
    + intros [E _]. apply (proj2 (negb_String_eqb_false _ _)) in E. congruence.
  - split; [split|intros _; apply Failed_Errorf].
    + intros E. apply (f_equal (@length LogEntry)) in E.
      unfold Errorf_ in E. rewrite !length_app in E. simpl in E. lia.
    + intros [E _]. apply (proj2 (negb_String_eqb_false _ _)) in E. congruence.
  - split; [split|intros _; apply Failed_Errorf].
    + intros E. apply (f_equal (@length LogEntry)) in E.
      unfold Errorf_ in E. rewrite !length_app in E. simpl in E. lia.
    + intros [_ E]. apply (proj2 (negb_String_eqb_false _ _)) in E. congruence.
  - apply (proj1 (negb_String_eqb_false _ _)) in E1.
    apply (proj1 (negb_String_eqb_false _ _)) in E2.
    split; [split; auto|]. intros H. by destruct H.
Qed.

Lemma GetSessionId_always_answers_witness :
  Failed (fst (fst (GetSessionId (setPanics true (setHasError true plainFake))
                      {| Keyspace := "other"; Shard := TestShard |}
                      {| siSessionId := 0 |} []))) = true.
Proof.
  apply (GetSessionId_always_answers (setPanics true (setHasError true plainFake))
           {| Keyspace := "other"; Shard := TestShard |} {| siSessionId := 0 |} []).
  discriminate.
Defined.

(** ** Further properties of the streaming method *)

(** X7: the switch [streamExecutePanicsEarly] has no effect unless [panics]
    is set; the fake ends its streaming body without any chunk exactly when
    both are set, so the generic error of [hasError] never comes before the
    fields-only chunk. *)
Theorem early_switch_needs_panics
    (f : FakeQueryService) (query : Query) (answer : QueryResult -> error)
    (b : bool) :
  (panics f = false ->
     StreamExecute (setStreamExecutePanicsEarly b f) query = StreamExecute f query)
  /\ (sent answer (StreamExecute f query) = [] <->
      panics f = true /\ streamExecutePanicsEarly f = true)
  /\ (ending answer (StreamExecute f query) = Returned (Some testTabletError) ->
      sent answer (StreamExecute f query) = [streamExecuteQueryResult1]).
Proof.
  split; [|split].
  - intros Hp. unfold StreamExecute, setStreamExecutePanicsEarly. simpl.
    rewrite Hp. reflexivity.
  - rewrite sent_StreamExecute.
    destruct (panics f), (streamExecutePanicsEarly f), (hasError f); simpl;
      split; try discriminate; try tauto; intros [? ?]; discriminate.
  - rewrite sent_StreamExecute, ending_StreamExecute.
    destruct (panics f), (streamExecutePanicsEarly f), (hasError f); simpl;
      try discriminate; reflexivity.
Qed.

Lemma early_switch_needs_panics_witness :
  StreamExecute (setStreamExecutePanicsEarly true (setHasError true plainFake))
    {| Sql := streamExecuteQuery; BindVariables := streamExecuteBindVars;
       SessionId := testSessionID; TransactionId := streamExecuteTransactionID |}
  = StreamExecute (setHasError true plainFake)
      {| Sql := streamExecuteQuery; BindVariables := streamExecuteBindVars;
         SessionId := testSessionID;
         TransactionId := streamExecuteTransactionID |}.
Proof.
  apply (early_switch_needs_panics (setHasError true plainFake)
           {| Sql := streamExecuteQuery; BindVariables := streamExecuteBindVars;
              SessionId := testSessionID;
              TransactionId := streamExecuteTransactionID |} delivered true).
  reflexivity.
Defined.

Lemma reports_StreamExecute_plain (f : FakeQueryService) (query : Query) :
  panics f = false ->
  reports delivered (StreamExecute f query)
  = ((if negb (String.eqb (Sql query) streamExecuteQuery)
      then [{| level := LError;
               format := "invalid StreamExecute.Query.Sql: got %v expected %v";
               args := [VStr (Sql query); VStr streamExecuteQuery] |}]
      else [])
     ++ (if negb (DeepEqual (BindVariables query) streamExecuteBindVars)
         then [{| level := LError;
                  format := "invalid StreamExecute.Query.BindVariables: got %v expected %v";
                  args := [VBind (BindVariables query);
                           VBind streamExecuteBindVars] |}]
         else [])
     ++ (if negb (SessionId query =? testSessionID)%Z
         then [{| level := LError;
                  format := "invalid StreamExecute.Query.SessionId: got %v expected %v";
                  args := [VInt (SessionId query); VInt testSessionID] |}]
         else []))%list.
Proof.
  intros Hp. unfold StreamExecute. rewrite Hp. simpl.
  rewrite !reports_PErrorfIf. simpl.
  destruct (hasError f); simpl; by rewrite ?app_nil_r.
Qed.

(** X8: the fake's [StreamExecute] does not look at the transaction id of
    the query: the body is the same under any other id.  When it does not
    panic it reports nothing to the test exactly when the text, the bind
    variables and the session id of the query are the expected ones. *)
Theorem StreamExecute_ignores_TransactionId
    (f : FakeQueryService) (query : Query) (id : Z) :
  StreamExecute f (withTransactionId id query) = StreamExecute f query
  /\ (panics f = false ->
      (reports delivered (StreamExecute f query) = [] <->
       Sql query = streamExecuteQuery
       /\ BindVariables query = streamExecuteBindVars
       /\ SessionId query = testSessionID)).
Proof.
  split; [reflexivity|].
  intros Hp. rewrite (reports_StreamExecute_plain f query Hp).
  destruct (negb (String.eqb (Sql query) streamExecuteQuery)) eqn:E1;
    [split; [discriminate|];
     intros (E & _); apply (proj2 (negb_String_eqb_false _ _)) in E; congruence|].
  destruct (negb (DeepEqual (BindVariables query) streamExecuteBindVars)) eqn:E2;
    [split; [discriminate|];
     intros (_ & E & _); apply (proj2 (negb_DeepEqual_false _ _)) in E;
     congruence|].
  destruct (negb (SessionId query =? testSessionID)%Z) eqn:E3;
    [split; [discriminate|];
     intros (_ & _ & E); apply (proj2 (negb_Zeqb_false _ _)) in E; congruence|].
  apply (proj1 (negb_String_eqb_false _ _)) in E1.
  apply (proj1 (negb_DeepEqual_false _ _)) in E2.
  apply (proj1 (negb_Zeqb_false _ _)) in E3. simpl. tauto.
Qed.

Lemma StreamExecute_ignores_TransactionId_witness :
  reports delivered
    (StreamExecute plainFake
       {| Sql := streamExecuteQuery; BindVariables := streamExecuteBindVars;
          SessionId := testSessionID; TransactionId := 0 |}) = [].
Proof.
  apply (proj2 (StreamExecute_ignores_TransactionId plainFake
                  {| Sql := streamExecuteQuery;
                     BindVariables := streamExecuteBindVars;
                     SessionId := testSessionID; TransactionId := 0 |} 1)
           eq_refl).
  repeat split; reflexivity.
Defined.

(** X9: a [sendReply] that fails does not stop the fake: it offers the same
    chunks and ends the same way whatever [sendReply] answers, and a failure
    to send the first chunk is only reported to the test. *)
Theorem sendReply_failure_is_only_reported
    (f : FakeQueryService) (query : Query) (answer : QueryResult -> error) :
  sent answer (StreamExecute f query) = sent delivered (StreamExecute f query)
  /\ ending answer (StreamExecute f query)
     = ending delivered (StreamExecute f query)
  /\ (panics f && streamExecutePanicsEarly f = false ->
      answer streamExecuteQueryResult1 <> None ->
      In {| level := LError; format := "sendReply1 failed: %v";
            args := [VErr (answer streamExecuteQueryResult1)] |}
         (reports answer (StreamExecute f query)))
  /\ (answer streamExecuteQueryResult1 = None ->
      answer streamExecuteQueryResult2 = None ->
      reports answer (StreamExecute f query)
      = reports delivered (StreamExecute f query)).
Proof.
  split; [by rewrite !sent_StreamExecute|].
  split; [by rewrite !ending_StreamExecute|]. split.
  - intros He Hn. unfold StreamExecute. rewrite He.
    rewrite !reports_PErrorfIf. simpl. rewrite reports_PErrorfIf.
    destruct (answer streamExecuteQueryResult1) as [e|]; [|by destruct Hn].
    simpl. apply in_or_app. right. apply in_or_app. right. apply in_or_app.
    right. left. reflexivity.
  - intros H1 H2. unfold StreamExecute.
    destruct (panics f && streamExecutePanicsEarly f); [reflexivity|].
    rewrite !reports_PErrorfIf. simpl. unfold delivered. rewrite H1. simpl.
    destruct (panics f && negb (streamExecutePanicsEarly f)); [reflexivity|].
    destruct (hasError f); [reflexivity|]. simpl. rewrite H2. reflexivity.
Qed.

Lemma sendReply_failure_is_only_reported_witness :
  In {| level := LError; format := "sendReply1 failed: %v";
        args := [VErr (Some (Errorf "broken pipe"))] |}
     (reports (fun _ => Some (Errorf "broken pipe"))
        (StreamExecute plainFake
           {| Sql := streamExecuteQuery; BindVariables := streamExecuteBindVars;
              SessionId := testSessionID;
              TransactionId := streamExecuteTransactionID |})).
Proof.
  apply (sendReply_failure_is_only_reported plainFake
           {| Sql := streamExecuteQuery; BindVariables := streamExecuteBindVars;
              SessionId := testSessionID;
              TransactionId := streamExecuteTransactionID |}
           (fun _ => Some (Errorf "broken pipe"))).
  - reflexivity.
  - discriminate.
Defined.

(** * Further properties of the tests *)

(** ** What [strings.Contains] accepts *)

Lemma append_nil (b : string) : "" ++ b = b.
Proof. reflexivity. Qed.

Lemma append_cons (c : Ascii.ascii) (a b : string) :
  String c a ++ b = String c (a ++ b).
Proof. reflexivity. Qed.

Lemma HasPrefix_app (p b : string) : Go.HasPrefix (p ++ b) p = true.
Proof.
  induction p as [|c p IH]; [rewrite append_nil; by destruct b|].
  rewrite append_cons. simpl. rewrite Ascii.eqb_refl. exact IH.
Qed.

Lemma HasPrefix_inv (s p : string) :
  Go.HasPrefix s p = true -> exists b, s = p ++ b.
Proof.
  revert s. induction p as [|c p IH]; intros s H.
  - by exists s.
  - destruct s as [|d s]; [discriminate|]. simpl in H.
    destruct (Ascii.eqb c d) eqn:E; [|discriminate].
    apply Ascii.eqb_eq in E. subst d.
    destruct (IH s H) as [b ->]. by exists b.
Qed.

Lemma HasPrefix_Contains (s p : string) :
  Go.HasPrefix s p = true -> Go.Contains s p = true.
Proof. intros H. destruct s; cbn [Go.Contains]; rewrite H; reflexivity. Qed.

Lemma Contains_app (a s b : string) : Go.Contains (a ++ s ++ b) s = true.
Proof.
  induction a as [|c a IH].
  - rewrite append_nil. apply HasPrefix_Contains, HasPrefix_app.
  - rewrite append_cons. simpl. rewrite IH. apply orb_true_r.
Qed.

Lemma Contains_inv (s sub : string) :
  Go.Contains s sub = true -> exists a b, s = a ++ sub ++ b.
Proof.
  induction s as [|c s IH]; cbn [Go.Contains]; intros H.
  - rewrite orb_false_r in H. apply HasPrefix_inv in H as [b Hb].
    by exists "", b.
  - apply orb_true_iff in H as [H|H].
    + apply HasPrefix_inv in H as [b Hb]. by exists "", b.
    + destruct (IH H) as (a & b & ->). by exists (String c a), b.
Qed.

Lemma DeepEqual_same {A} `{EqDecision A} (x : A) : DeepEqual x x = true.
Proof. by apply DeepEqual_true. Qed.

Lemma nilOrLacks_errorWith (err : error) (s : string) :
  nilOrLacks err s = false <-> errorWith s err.
Proof.
  split; [apply nilOrLacks_false|].
  intros (e & -> & H). simpl. by rewrite H.
Qed.

(** ** What the tests of the unary calls demand of a connection *)

Ltac open_test :=
  unfold verdict, bind, ret, when, call, tLog, tErrorf, tFatalf, getFlag;
  cbn [tlog setLog fst snd RPCErrorOnlyInReply].

Ltac pair_inv H := inversion H; subst; clear H.

(** X10: [testExecute], [testExecuteBatch] and [testSplitQuery] run to their
    end without a failure exactly on a connection that returns no error and
    the expected result, field for field, and itself leaves the test
    unfailed. *)
Theorem result_tests_demand_exact_results (conn : TabletConn) (w : World) :
  (verdict (testExecute conn w) = (false, Ok tt) <->
   exists w',
     tabletconn.Execute conn executeQuery executeBindVars executeTransactionID
       (setLog (Log_ (tlog w) "testExecute") w)
     = (w', (executeQueryResult, None))
     /\ Failed (tlog w') = false)
  /\ (verdict (testExecuteBatch conn w) = (false, Ok tt) <->
      exists w',
        tabletconn.ExecuteBatch conn executeBatchQueries executeBatchTransactionID
          (setLog (Log_ (tlog w) "testExecuteBatch") w)
        = (w', (executeBatchQueryResultList, None))
        /\ Failed (tlog w') = false)
  /\ (verdict (testSplitQuery conn w) = (false, Ok tt) <->
      exists w',
        tabletconn.SplitQuery conn splitQueryBoundQuery splitQuerySplitCount
          (setLog (Log_ (tlog w) "testSplitQuery") w)
        = (w', (splitQueryQuerySplitList, None))
        /\ Failed (tlog w') = false).
Proof.
  split; [|split].
  - unfold testExecute. open_test.
    destruct (tabletconn.Execute conn _ _ _ _) as [w' [qr [e|]]]; simpl.
    + split; [discriminate|]. intros (w1 & H & _). discriminate H.
    + destruct (DeepEqual qr executeQueryResult) eqn:E; simpl.
      * apply (proj1 (DeepEqual_true _ _)) in E. subst qr. split.
        -- intros H. pair_inv H. by exists w'.
        -- intros (w1 & H & HF). pair_inv H. by rewrite HF.
      * rewrite Failed_Errorf. split; [discriminate|].
        intros (w1 & H & _). pair_inv H. by rewrite DeepEqual_same in E.
  - unfold testExecuteBatch. open_test.
    destruct (tabletconn.ExecuteBatch conn _ _ _) as [w' [qr [e|]]]; simpl.
    + split; [discriminate|]. intros (w1 & H & _). discriminate H.
    + destruct (DeepEqual qr executeBatchQueryResultList) eqn:E; simpl.
      * apply (proj1 (DeepEqual_true _ _)) in E. subst qr. split.
        -- intros H. pair_inv H. by exists w'.
        -- intros (w1 & H & HF). pair_inv H. by rewrite HF.
      * rewrite Failed_Errorf. split; [discriminate|].
        intros (w1 & H & _). pair_inv H. by rewrite DeepEqual_same in E.
  - unfold testSplitQuery. open_test.
    destruct (tabletconn.SplitQuery conn _ _ _) as [w' [qr [e|]]]; simpl.
    + split; [discriminate|]. intros (w1 & H & _). discriminate H.
    + destruct (DeepEqual qr splitQueryQuerySplitList) eqn:E; simpl.
      * apply (proj1 (DeepEqual_true _ _)) in E. subst qr. split.
        -- intros H. pair_inv H. by exists w'.
        -- intros (w1 & H & HF). pair_inv H. by rewrite HF.
      * rewrite Failed_Errorf. split; [discriminate|].
        intros (w1 & H & _). pair_inv H. by rewrite DeepEqual_same in E.
Qed.

Lemma result_tests_demand_exact_results_witness :
  exists w',
    tabletconn.Execute (refConn true testSessionID) executeQuery executeBindVars
      executeTransactionID
      (setLog (Log_ [] "testExecute") (CreateFakeServer [] false))
    = (w', (executeQueryResult, None))
    /\ Failed (tlog w') = false.
Proof.
  apply (result_tests_demand_exact_results (refConn true testSessionID)
           (CreateFakeServer [] false)).
  vm_compute. reflexivity.
Defined.

(** X11: [testBegin] and [testBegin2] run to their end without a failure
    exactly on a connection that returns no error and the expected
    transaction id; [testCommit] and [testRollback] exactly on one that
    returns no error for the expected transaction id. *)
Theorem transaction_tests_demand_success (conn : TabletConn) (w : World) :
  (verdict (testBegin conn w) = (false, Ok tt) <->
   exists w',
     tabletconn.Begin conn (setLog (Log_ (tlog w) "testBegin") w)
     = (w', (beginTransactionID, None))
     /\ Failed (tlog w') = false)
  /\ (verdict (testBegin2 conn w) = (false, Ok tt) <->
      exists w',
        tabletconn.Begin2 conn (setLog (Log_ (tlog w) "testBegin2") w)
        = (w', (beginTransactionID, None))
        /\ Failed (tlog w') = false)
  /\ (verdict (testCommit conn w) = (false, Ok tt) <->
      exists w',
        tabletconn.Commit conn commitTransactionID
          (setLog (Log_ (tlog w) "testCommit") w) = (w', None)
        /\ Failed (tlog w') = false)
  /\ (verdict (testRollback conn w) = (false, Ok tt) <->
      exists w',
        tabletconn.Rollback conn rollbackTransactionID
          (setLog (Log_ (tlog w) "testRollback") w) = (w', None)
        /\ Failed (tlog w') = false).
Proof.
  split; [|split; [|split]].
  - unfold testBegin. open_test.
    destruct (tabletconn.Begin conn _) as [w' [id [e|]]]; simpl.
    + split; [discriminate|]. intros (w1 & H & _). discriminate H.
    + destruct (id =? beginTransactionID)%Z eqn:E; simpl.
      * apply Z.eqb_eq in E. subst id. split.
        -- intros H. pair_inv H. by exists w'.
        -- intros (w1 & H & HF). pair_inv H. by rewrite HF.
      * rewrite Failed_Errorf. split; [discriminate|].
        intros (w1 & H & _). pair_inv H. by rewrite Z.eqb_refl in E.
  - unfold testBegin2. open_test.
    destruct (tabletconn.Begin2 conn _) as [w' [id [e|]]]; simpl.
    + split; [discriminate|]. intros (w1 & H & _). discriminate H.
    + destruct (id =? beginTransactionID)%Z eqn:E; simpl.
      * apply Z.eqb_eq in E. subst id. split.
        -- intros H. pair_inv H. by exists w'.
        -- intros (w1 & H & HF). pair_inv H. by rewrite HF.
      * rewrite Failed_Errorf. split; [discriminate|].
        intros (w1 & H & _). pair_inv H. by rewrite Z.eqb_refl in E.
  - unfold testCommit. open_test.
    destruct (tabletconn.Commit conn _ _) as [w' [e|]]; simpl.
    + split; [discriminate|]. intros (w1 & H & _). discriminate H.
    + split.
      * intros H. pair_inv H. by exists w'.
      * intros (w1 & H & HF). pair_inv H. by rewrite HF.
  - unfold testRollback. open_test.
    destruct (tabletconn.Rollback conn _ _) as [w' [e|]]; simpl.
    + split; [discriminate|]. intros (w1 & H & _). discriminate H.
    + split.
      * intros H. pair_inv H. by exists w'.
      * intros (w1 & H & HF). pair_inv H. by rewrite HF.
Qed.

Lemma transaction_tests_demand_success_witness :
  exists w',
    tabletconn.Begin2 (refConn false testSessionID)
      (setLog (Log_ [] "testBegin2") (CreateFakeServer [] true))
    = (w', (beginTransactionID, None))
    /\ Failed (tlog w') = false.
Proof.
  apply (transaction_tests_demand_success (refConn false testSessionID)
           (CreateFakeServer [] true)).
  vm_compute. reflexivity.
Defined.

(** X12: a test of the error path stops at once when the call returns no
    error, and otherwise runs to its end; it ends without a failure exactly
    on a connection whose error carries the expected text somewhere in its
    message, so a connection may put text of its own around it. *)
Theorem error_tests_demand_the_text
    (conn : TabletConn) (w : World) (id : Z) (a b : string) :
  (snd (testBeginError conn w) = Ok tt <->
   exists w' id' e,
     tabletconn.Begin conn (setLog (Log_ (tlog w) "testBeginError") w)
     = (w', (id', Some e)))
  /\ (verdict (testBeginError conn w) = (false, Ok tt) <->
      exists w' id' e,
        tabletconn.Begin conn (setLog (Log_ (tlog w) "testBeginError") w)
        = (w', (id', Some e))
        /\ Go.Contains (Error e) expectedErrMatch = true
        /\ Failed (tlog w') = false)
  /\ (verdict (testExecuteError conn w) = (false, Ok tt) <->
      exists w' qr e,
        tabletconn.Execute conn executeQuery executeBindVars executeTransactionID
          (setLog (Log_ (tlog w) "testExecuteError") w)
        = (w', (qr, Some e))
        /\ Go.Contains (Error e) expectedErrMatch = true
        /\ Failed (tlog w') = false)
  /\ verdict (testBeginError
                (answerConn id (Some (Errorf (a ++ expectedErrMatch ++ b)))) w)
     = (Failed (tlog w), Ok tt).
Proof.
  split; [|split; [|split]].
  - unfold testBeginError. open_test.
    destruct (tabletconn.Begin conn _) as [w' [id' [e|]]]; simpl.
    + destruct (Go.Contains (Error e) expectedErrMatch); simpl;
        (split; [intros _; by exists w', id', e|reflexivity]).
    + split; [discriminate|]. intros (w1 & i & e & H). discriminate H.
  - unfold testBeginError. open_test.
    destruct (tabletconn.Begin conn _) as [w' [id' [e|]]]; simpl.
    + destruct (Go.Contains (Error e) expectedErrMatch) eqn:E; simpl.
      * split.
        -- intros H. pair_inv H. by exists w', id', e.
        -- intros (w1 & i & e1 & H & _ & HF). pair_inv H. by rewrite HF.
      * rewrite Failed_Errorf. split; [discriminate|].
        intros (w1 & i & e1 & H & HC & _). pair_inv H. congruence.
    + split; [discriminate|]. intros (w1 & i & e & H & _). discriminate H.
  - unfold testExecuteError. open_test.
    destruct (tabletconn.Execute conn _ _ _ _) as [w' [qr [e|]]]; simpl.
    + destruct (Go.Contains (Error e) expectedErrMatch) eqn:E; simpl.
      * split.
        -- intros H. pair_inv H. by exists w', qr, e.
        -- intros (w1 & i & e1 & H & _ & HF). pair_inv H. by rewrite HF.
      * rewrite Failed_Errorf. split; [discriminate|].
        intros (w1 & i & e1 & H & HC & _). pair_inv H. congruence.
    + split; [discriminate|]. intros (w1 & i & e & H & _). discriminate H.
  - unfold testBeginError. open_test. cbn [tabletconn.Begin answerConn].
    cbn [isNotNil negb nilOrLacks Error].
    rewrite Contains_app. simpl. by rewrite Failed_Log.
Qed.

Lemma error_tests_demand_the_text_witness :
  exists w' id' e,
    tabletconn.Begin (refConn true testSessionID)
      (setLog (Log_ [] "testBeginError")
         (setFake (setHasError true plainFake) (CreateFakeServer [] false)))
    = (w', (id', Some e)).
Proof.
  apply (error_tests_demand_the_text (refConn true testSessionID)
           (setFake (setHasError true plainFake) (CreateFakeServer [] false))
           0 "" "").
  vm_compute. reflexivity.
Defined.

(** X13: a test of the panic path of a unary call runs to its end exactly on
    a connection whose call returns an error carrying "caught test panic";
    no error, or an error without that text, stops the test at once. *)
Theorem panic_tests_demand_the_marker (conn : TabletConn) (w : World) :
  (snd (testBeginPanics conn w) = Ok tt <->
   errorWith "caught test panic"
     (snd (snd (tabletconn.Begin conn
                  (setLog (Log_ (tlog w) "testBeginPanics") w)))))
  /\ (snd (testBegin2Panics conn w) = Ok tt <->
      errorWith "caught test panic"
        (snd (snd (tabletconn.Begin2 conn
                     (setLog (Log_ (tlog w) "testBegin2Panics") w)))))
  /\ (snd (testCommitPanics conn w) = Ok tt <->
      errorWith "caught test panic"
        (snd (tabletconn.Commit conn commitTransactionID
                (setLog (Log_ (tlog w) "testCommitPanics") w))))
  /\ (snd (testRollbackPanics conn w) = Ok tt <->
      errorWith "caught test panic"
        (snd (tabletconn.Rollback conn rollbackTransactionID
                (setLog (Log_ (tlog w) "testRollbackPanics") w))))
  /\ (snd (testExecutePanics conn w) = Ok tt <->
      errorWith "caught test panic"
        (snd (snd (tabletconn.Execute conn executeQuery executeBindVars
                     executeTransactionID
                     (setLog (Log_ (tlog w) "testExecutePanics") w)))))
  /\ (snd (testExecuteBatchPanics conn w) = Ok tt <->
      errorWith "caught test panic"
        (snd (snd (tabletconn.ExecuteBatch conn executeBatchQueries
                     executeBatchTransactionID
                     (setLog (Log_ (tlog w) "testExecuteBatchPanics") w)))))
  /\ (snd (testSplitQueryPanics conn w) = Ok tt <->
      errorWith "caught test panic"
        (snd (snd (tabletconn.SplitQuery conn splitQueryBoundQuery
                     splitQuerySplitCount
                     (setLog (Log_ (tlog w) "testSplitQueryPanics") w))))).
Proof.
  repeat split;
    unfold testBeginPanics, testBegin2Panics, testCommitPanics,
      testRollbackPanics, testExecutePanics, testExecuteBatchPanics,
      testSplitQueryPanics; open_test;
    try match goal with
        | |- context [tabletconn.Begin conn ?x] =>
            destruct (tabletconn.Begin conn x) as [w' [r err]]
        | |- context [tabletconn.Begin2 conn ?x] =>
            destruct (tabletconn.Begin2 conn x) as [w' [r err]]
        | |- context [tabletconn.Commit conn ?i ?x] =>
            destruct (tabletconn.Commit conn i x) as [w' err]
        | |- context [tabletconn.Rollback conn ?i ?x] =>
            destruct (tabletconn.Rollback conn i x) as [w' err]
        | |- context [tabletconn.Execute conn ?a ?b ?c ?x] =>
            destruct (tabletconn.Execute conn a b c x) as [w' [r err]]
        | |- context [tabletconn.ExecuteBatch conn ?a ?b ?x] =>
            destruct (tabletconn.ExecuteBatch conn a b x) as [w' [r err]]
        | |- context [tabletconn.SplitQuery conn ?a ?b ?x] =>
            destruct (tabletconn.SplitQuery conn a b x) as [w' [r err]]
        end;
    cbn [fst snd];
    destruct (nilOrLacks err "caught test panic") eqn:E; simpl;
    try discriminate;
    try (intros _; repeat eexists; by apply nilOrLacks_errorWith);
    try (intros _; by apply nilOrLacks_errorWith);
    try reflexivity;
    try (intros H; apply nilOrLacks_errorWith in H; congruence).
Qed.

Lemma panic_tests_demand_the_marker_witness :
  errorWith "caught test panic"
    (snd (tabletconn.Commit (refConn true testSessionID) commitTransactionID
            (setLog (Log_ [] "testCommitPanics")
               (panicking (CreateFakeServer [] false))))).
Proof.
  apply (panic_tests_demand_the_marker (refConn true testSessionID)
           (panicking (CreateFakeServer [] false))).
  vm_compute. reflexivity.
Defined.

(** X14: [testCommitError] and [testRollbackError] call the second
    generation of the method when the server-wide flag is set and the first
    when it is not, never both, and each, [testRollbackError] included, with
    the transaction id of the commit tests; they end without a failure
    exactly when the method they picked returns an error with the expected
    text. *)
Theorem error_tests_pick_generation_by_flag (conn : TabletConn) (w : World) :
  (verdict (testCommitError conn w) = (false, Ok tt) <->
   exists w' e,
     (if RPCErrorOnlyInReply w
      then tabletconn.Commit2 conn commitTransactionID
      else tabletconn.Commit conn commitTransactionID)
       (setLog (Log_ (tlog w) "testCommitError") w) = (w', Some e)
     /\ Go.Contains (Error e) expectedErrMatch = true
     /\ Failed (tlog w') = false)
  /\ (verdict (testRollbackError conn w) = (false, Ok tt) <->
      exists w' e,
        (if RPCErrorOnlyInReply w
         then tabletconn.Rollback2 conn commitTransactionID
         else tabletconn.Rollback conn commitTransactionID)
          (setLog (Log_ (tlog w) "testCommitError") w) = (w', Some e)
        /\ Go.Contains (Error e) expectedErrMatch = true
        /\ Failed (tlog w') = false).
Proof.
  split.
  - unfold testCommitError. open_test.
    destruct (RPCErrorOnlyInReply w);
      [destruct (tabletconn.Commit2 conn _ _) as [w' [e|]]
      |destruct (tabletconn.Commit conn _ _) as [w' [e|]]]; simpl;
      try (split; [discriminate|]; intros (w1 & e1 & H & _); discriminate H);
      (destruct (Go.Contains (Error e) expectedErrMatch) eqn:E; simpl;
       [split;
        [intros H; pair_inv H; by exists w', e
        |intros (w1 & e1 & H & _ & HF); pair_inv H; by rewrite HF]
       |rewrite Failed_Errorf; split; [discriminate|];
        intros (w1 & e1 & H & HC & _); pair_inv H; congruence]).
  - unfold testRollbackError. open_test.
    destruct (RPCErrorOnlyInReply w);
      [destruct (tabletconn.Rollback2 conn _ _) as [w' [e|]]
      |destruct (tabletconn.Rollback conn _ _) as [w' [e|]]]; simpl;
      try (split; [discriminate|]; intros (w1 & e1 & H & _); discriminate H);
      (destruct (Go.Contains (Error e) expectedErrMatch) eqn:E; simpl;
       [split;
        [intros H; pair_inv H; by exists w', e
        |intros (w1 & e1 & H & _ & HF); pair_inv H; by rewrite HF]
       |rewrite Failed_Errorf; split; [discriminate|];
        intros (w1 & e1 & H & HC & _); pair_inv H; congruence]).
Qed.

Lemma error_tests_pick_generation_by_flag_witness :
  exists w' e,
    tabletconn.Rollback2 (refConn true testSessionID) commitTransactionID
      (setLog (Log_ [] "testCommitError")
         (setFake (setHasError true plainFake) (CreateFakeServer [] true)))
    = (w', Some e)
    /\ Go.Contains (Error e) expectedErrMatch = true
    /\ Failed (tlog w') = false.
Proof.
  apply (proj2 (error_tests_pick_generation_by_flag (refConn true testSessionID)
                  (setFake (setHasError true plainFake)
                     (CreateFakeServer [] true)))).
  vm_compute. reflexivity.
Defined.

(** ** A recorded failure stays recorded *)

Lemma keeps_ret {A} (a : A) : keeps (ret a).
Proof. intros w H. exact H. Qed.

Lemma keeps_bind {A B} (m : TestM A) (k : A -> TestM B) :
  keeps m -> (forall a, keeps (k a)) -> keeps (bind m k).
Proof.
  intros Hm Hk w H. unfold bind. specialize (Hm w H).
  destruct (m w) as [w' [a|s]]; simpl in *; [by apply Hk|exact Hm].
Qed.

Lemma keeps_tLog msg : keeps (tLog msg).
Proof. intros w H. simpl. by rewrite Failed_Log. Qed.

Lemma keeps_tErrorf fmt a : keeps (tErrorf fmt a).
Proof. intros w H. simpl. apply Failed_Errorf. Qed.

Lemma keeps_tFatalf {A} fmt a : keeps (@tFatalf A fmt a).
Proof. intros w H. simpl. apply Failed_Fatalf. Qed.

Lemma keeps_when cond m : keeps m -> keeps (when cond m).
Proof. intros Hm. destruct cond; [exact Hm|apply keeps_ret]. Qed.

Lemma keeps_call {A} (m : World -> World * A) : keeps m -> keeps (call m).
Proof.
  intros Hm w H. specialize (Hm w H). unfold call.
  by destruct (m w).
Qed.

Lemma keeps_recv (conn : TabletConn) (s : tabletconn.Stream conn) :
  keeps (tabletconn.Recv conn s) -> keeps (recv conn s).
Proof.
  intros Hm w H. specialize (Hm w H). unfold recv.
  by destruct (tabletconn.Recv conn s w) as [w' [s' [qr| |]]].
Qed.

Lemma keeps_errFunc (conn : TabletConn) (s : tabletconn.Stream conn) :
  keeps (errFunc conn s).
Proof. intros w H. exact H. Qed.

Lemma keeps_close c : keeps (close c).
Proof.
  intros w H. unfold close. destruct (getChan c w); [|exact H].
  by destruct c.
Qed.

Lemma keeps_make c : keeps (make c).
Proof. intros w H. by destruct c. Qed.

Lemma keeps_updFake g : keeps (updFake g).
Proof. intros w H. exact H. Qed.

Lemma keeps_getFlag : keeps getFlag.
Proof. intros w H. exact H. Qed.

Ltac keeps_step :=
  first
    [ apply keeps_ret | apply keeps_tLog | apply keeps_tErrorf
    | apply keeps_tFatalf | apply keeps_close | apply keeps_make
    | apply keeps_updFake | apply keeps_getFlag | apply keeps_errFunc
    | apply keeps_when
    | apply keeps_call; solve [eauto]
    | apply keeps_recv; solve [eauto]
    | apply keeps_bind; [|intros ?]
    | match goal with
      | |- keeps (let (_, _) := ?x in _) => destruct x
      | |- keeps (match ?x with _ => _ end) => destruct x
      | |- keeps (if ?b then _ else _) => destruct b
      end ].

Ltac keeps_test := intros [] ; repeat keeps_step.

Lemma keeps_TestSuite (conn : TabletConn) :
  keepsFailures conn -> keeps (TestSuite conn).
Proof.
  intros K. unfold TestSuite.
  repeat (apply keeps_bind; [|intros _]); try apply keeps_updFake;
    revert K;
    unfold testBegin, testBegin2, testCommit, testRollback, testExecute,
      testStreamExecute, testStreamExecute2, testExecuteBatch, testSplitQuery,
      testBeginError, testBegin2Error, testCommitError, testRollbackError,
      testExecuteError, testStreamExecuteError, testStreamExecute2Error,
      testExecuteBatchError, testSplitQueryError, testBeginPanics,
      testBegin2Panics, testCommitPanics, testRollbackPanics, testExecutePanics,
      testStreamExecutePanics, testStreamExecute2Panics, testExecuteBatchPanics,
      testSplitQueryPanics;
    keeps_test.
Qed.

Lemma Failed_ErrorfIf cond (t : T) fmt a :
  Failed t = true -> Failed (ErrorfIf cond t fmt a) = true.
Proof. intros H. destruct cond; [apply Failed_Errorf|exact H]. Qed.

Lemma fake_keeps_failures
    (f : FakeQueryService) (session : Session) (txInfo : TransactionInfo)
    (query : Query) (qr : QueryResult) (queryList : QueryList)
    (qrl : QueryResultList) (req : SplitQueryRequest) (sr : SplitQueryResult)
    (t : T) :
  Failed t = true ->
  Failed (fst (fst (Begin f session txInfo t))) = true
  /\ Failed (fst (Commit f session t)) = true
  /\ Failed (fst (Rollback f session t)) = true
  /\ Failed (fst (fst (Execute f query qr t))) = true
  /\ Failed (fst (fst (ExecuteBatch f queryList qrl t))) = true
  /\ Failed (fst (fst (SplitQuery f req sr t))) = true.
Proof.
  intros H. unfold Begin, Commit, Rollback, Execute, ExecuteBatch, SplitQuery.
  destruct (hasError f), (panics f); simpl; repeat split;
    try exact H; repeat apply Failed_ErrorfIf; exact H.
Qed.

Lemma advance_keeps (p : Proc) : keeps (advance p).
Proof.
  induction p as [fmt a k IH|qr k _|c k IH|o]; intros w H; simpl.
  - apply IH. simpl. apply Failed_Errorf.
  - exact H.
  - destruct (getChan c w); [exact H|by apply IH].
  - exact H.
Qed.

Lemma refConn_keepsFailures (eager : bool) (sid : Z) :
  keepsFailures (refConn eager sid).
Proof.
  split;
    cbn [tabletconn.Begin tabletconn.Begin2 tabletconn.Commit tabletconn.Commit2
         tabletconn.Rollback tabletconn.Rollback2 tabletconn.Execute
         tabletconn.ExecuteBatch tabletconn.StreamExecute
         tabletconn.StreamExecute2 tabletconn.SplitQuery tabletconn.Recv refConn].
  - intros w H. unfold refBegin.
    pose proof (fake_keeps_failures (fake w)
      {| sSessionId := sid; sTransactionId := 0 |} {| tiTransactionId := 0 |}
      {| Sql := ""; BindVariables := ∅; SessionId := 0; TransactionId := 0 |}
      emptyResult {| Queries := []; qlSessionId := 0; qlTransactionId := 0 |}
      {| List := [] |} {| sqQuery := splitQueryBoundQuery; SplitCount := 0 |}
      {| sqrQueries := [] |} (tlog w) H) as (HB & _).
    destruct (Begin _ _ _ _) as [[t tx] o]. exact HB.
  - intros w H. unfold refBegin.
    pose proof (fake_keeps_failures (fake w)
      {| sSessionId := sid; sTransactionId := 0 |} {| tiTransactionId := 0 |}
      {| Sql := ""; BindVariables := ∅; SessionId := 0; TransactionId := 0 |}
      emptyResult {| Queries := []; qlSessionId := 0; qlTransactionId := 0 |}
      {| List := [] |} {| sqQuery := splitQueryBoundQuery; SplitCount := 0 |}
      {| sqrQueries := [] |} (tlog w) H) as (HB & _).
    destruct (Begin _ _ _ _) as [[t tx] o]. exact HB.
  - intros id w H. unfold refCommit.
    pose proof (fake_keeps_failures (fake w)
      {| sSessionId := sid; sTransactionId := id |} {| tiTransactionId := 0 |}
      {| Sql := ""; BindVariables := ∅; SessionId := 0; TransactionId := 0 |}
      emptyResult {| Queries := []; qlSessionId := 0; qlTransactionId := 0 |}
      {| List := [] |} {| sqQuery := splitQueryBoundQuery; SplitCount := 0 |}
      {| sqrQueries := [] |} (tlog w) H) as (_ & HC & _).
    destruct (Commit _ _ _) as [t o]. exact HC.
  - intros id w H. unfold refCommit.
    pose proof (fake_keeps_failures (fake w)
      {| sSessionId := sid; sTransactionId := id |} {| tiTransactionId := 0 |}
      {| Sql := ""; BindVariables := ∅; SessionId := 0; TransactionId := 0 |}
      emptyResult {| Queries := []; qlSessionId := 0; qlTransactionId := 0 |}
      {| List := [] |} {| sqQuery := splitQueryBoundQuery; SplitCount := 0 |}
      {| sqrQueries := [] |} (tlog w) H) as (_ & HC & _).
    destruct (Commit _ _ _) as [t o]. exact HC.
  - intros id w H. unfold refRollback.
    pose proof (fake_keeps_failures (fake w)
      {| sSessionId := sid; sTransactionId := id |} {| tiTransactionId := 0 |}
      {| Sql := ""; BindVariables := ∅; SessionId := 0; TransactionId := 0 |}
      emptyResult {| Queries := []; qlSessionId := 0; qlTransactionId := 0 |}
      {| List := [] |} {| sqQuery := splitQueryBoundQuery; SplitCount := 0 |}
      {| sqrQueries := [] |} (tlog w) H) as (_ & _ & HR & _).
    destruct (Rollback _ _ _) as [t o]. exact HR.
  - intros id w H. unfold refRollback.
    pose proof (fake_keeps_failures (fake w)
      {| sSessionId := sid; sTransactionId := id |} {| tiTransactionId := 0 |}
      {| Sql := ""; BindVariables := ∅; SessionId := 0; TransactionId := 0 |}
      emptyResult {| Queries := []; qlSessionId := 0; qlTransactionId := 0 |}
      {| List := [] |} {| sqQuery := splitQueryBoundQuery; SplitCount := 0 |}
      {| sqrQueries := [] |} (tlog w) H) as (_ & _ & HR & _).
    destruct (Rollback _ _ _) as [t o]. exact HR.
  - intros q bv id w H. unfold refExecute.
    pose proof (fake_keeps_failures (fake w)
      {| sSessionId := sid; sTransactionId := 0 |} {| tiTransactionId := 0 |}
      {| Sql := q; BindVariables := bv; SessionId := sid; TransactionId := id |}
      emptyResult {| Queries := []; qlSessionId := 0; qlTransactionId := 0 |}
      {| List := [] |} {| sqQuery := splitQueryBoundQuery; SplitCount := 0 |}
      {| sqrQueries := [] |} (tlog w) H) as (_ & _ & _ & HE & _).
    destruct (Execute _ _ _ _) as [[t r] o]. exact HE.
  - intros qs id w H. unfold refExecuteBatch.
    pose proof (fake_keeps_failures (fake w)
      {| sSessionId := sid; sTransactionId := 0 |} {| tiTransactionId := 0 |}
      {| Sql := ""; BindVariables := ∅; SessionId := 0; TransactionId := 0 |}
      emptyResult {| Queries := qs; qlSessionId := sid; qlTransactionId := id |}
      {| List := [] |} {| sqQuery := splitQueryBoundQuery; SplitCount := 0 |}
      {| sqrQueries := [] |} (tlog w) H) as (_ & _ & _ & _ & HE & _).
    destruct (ExecuteBatch _ _ _ _) as [[t r] o]. exact HE.
  - intros q bv id w H. unfold refStreamExecute. destruct eager; [|exact H].
    pose proof (advance_keeps
      (StreamExecute (fake w)
         {| Sql := q; BindVariables := bv; SessionId := sid;
            TransactionId := id |}) w H) as HA.
    destruct (advance _ w) as [w' [qr k|p'|o]]; exact HA.
  - intros q bv id w H. unfold refStreamExecute. destruct eager; [|exact H].
    pose proof (advance_keeps
      (StreamExecute (fake w)
         {| Sql := q; BindVariables := bv; SessionId := sid;
            TransactionId := id |}) w H) as HA.
    destruct (advance _ w) as [w' [qr k|p'|o]]; exact HA.
  - intros q k w H. unfold refSplitQuery.
    pose proof (fake_keeps_failures (fake w)
      {| sSessionId := sid; sTransactionId := 0 |} {| tiTransactionId := 0 |}
      {| Sql := ""; BindVariables := ∅; SessionId := 0; TransactionId := 0 |}
      emptyResult {| Queries := []; qlSessionId := 0; qlTransactionId := 0 |}
      {| List := [] |} {| sqQuery := q; SplitCount := k |}
      {| sqrQueries := [] |} (tlog w) H) as (_ & _ & _ & _ & _ & HS).
    destruct (SplitQuery _ _ _ _) as [[t r] o]. exact HS.
  - intros s w H. unfold refRecv. destruct (pending s) as [|qr rest]; [|exact H].
    destruct (producer s) as [p|]; [|exact H].
    pose proof (advance_keeps p w H) as HA.
    destruct (advance p w) as [w' [qr k|p'|o]]; exact HA.
Qed.

(** ** What the streaming tests demand of a connection *)

Lemma verdict_bind_Ok {A B} (m : TestM A) (k : A -> TestM B) (w : World) (b : B) :
  verdict (bind m k w) = (false, Ok b) ->
  exists w' a, m w = (w', Ok a) /\ verdict (k a w') = (false, Ok b).
Proof.
  unfold verdict, bind. destruct (m w) as [w' [a|s]]; simpl; [|discriminate].
  intros H. by exists w', a.
Qed.

Lemma keeps_verdict {B} (m : TestM B) (w : World) (r : Res B) :
  keeps m -> Failed (tlog w) = true -> verdict (m w) <> (false, r).
Proof.
  intros Hm H E. specialize (Hm w H). unfold verdict in E.
  inversion E. congruence.
Qed.

Lemma when_Errorf_Ok (cond : bool) fmt a (w w' : World) :
  when cond (tErrorf fmt a) w = (w', Ok tt) ->
  (cond = false /\ w' = w) \/ Failed (tlog w') = true.
Proof.
  destruct cond; simpl; unfold tErrorf, ret; intros H; inversion H; subst.
  - right. simpl. apply Failed_Errorf.
  - by left.
Qed.

Lemma tLog_eq msg (w w' : World) :
  tLog msg w = (w', Ok tt) -> w' = setLog (Log_ (tlog w) msg) w.
Proof. unfold tLog. intros H. by inversion H. Qed.

Lemma errFunc_eq (conn : TabletConn) (s : tabletconn.Stream conn)
    (w w' : World) (e : error) :
  errFunc conn s w = (w', Ok e) -> w' = w /\ e = tabletconn.ErrFunc conn s w.
Proof. unfold errFunc. intros H. by inversion H. Qed.

(** X16: on a connection that does not clear recorded failures,
    [testStreamExecute] ends without a failure exactly when the call returns
    no error, the stream delivers the fields-only chunk, then the rows-only
    chunk, each with its empty side present or absent, then closes, and the
    terminal error accessor reports nothing. *)
Theorem stream_test_demands (conn : TabletConn) (w : World) :
  keepsFailures conn ->
  (verdict (testStreamExecute conn w) = (false, Ok tt) <->
   exists wa s wb s1 qr1 wc s2 qr2 wd s3,
     tabletconn.StreamExecute conn streamExecuteQuery streamExecuteBindVars
       streamExecuteTransactionID (setLog (Log_ (tlog w) "testStreamExecute") w)
     = (wa, (s, None))
     /\ tabletconn.Recv conn s wa = (wb, (s1, Got qr1))
     /\ nilRowsIfEmpty qr1 = streamExecuteQueryResult1
     /\ tabletconn.Recv conn s1 wb = (wc, (s2, Got qr2))
     /\ nilFieldsIfEmpty qr2 = streamExecuteQueryResult2
     /\ tabletconn.Recv conn s2 wc = (wd, (s3, ChanClosed))
     /\ tabletconn.ErrFunc conn s3 wd = None
     /\ Failed (tlog wd) = false).
Proof.
  intros K. split.
  - intros H. unfold testStreamExecute in H.
    apply verdict_bind_Ok in H as (w1 & [] & Hlog & H).
    apply tLog_eq in Hlog. subst w1.
    apply verdict_bind_Ok in H as (wa & [s err] & Hcall & H).
    apply call_Ok in Hcall.
    apply verdict_bind_Ok in H as (w2 & [] & Hnil & H).
    apply when_Fatalf_Ok in Hnil as [Hnil ->]. apply isNotNil_false in Hnil.
    subst err.
    apply verdict_bind_Ok in H as (wb & [s1 r1] & Hr1 & H).
    destruct r1 as [qr1|]; [|discriminate H]. apply recv_Ok in Hr1.
    apply verdict_bind_Ok in H as (w3 & [] & Hc1 & H).
    apply when_Errorf_Ok in Hc1 as [[Hc1 ->]|Hc1];
      [|exfalso; revert H; apply keeps_verdict; [|exact Hc1];
        destruct K; repeat keeps_step].
    apply negb_false_iff in Hc1. apply (proj1 (DeepEqual_true _ _)) in Hc1.
    apply verdict_bind_Ok in H as (wc & [s2 r2] & Hr2 & H).
    destruct r2 as [qr2|]; [|discriminate H]. apply recv_Ok in Hr2.
    apply verdict_bind_Ok in H as (w4 & [] & Hc2 & H).
    apply when_Errorf_Ok in Hc2 as [[Hc2 ->]|Hc2];
      [|exfalso; revert H; apply keeps_verdict; [|exact Hc2];
        destruct K; repeat keeps_step].
    apply negb_false_iff in Hc2. apply (proj1 (DeepEqual_true _ _)) in Hc2.
    apply verdict_bind_Ok in H as (wd & [s3 r3] & Hr3 & H).
    apply verdict_bind_Ok in H as (w5 & [] & Hcl & H).
    apply when_Fatalf_Ok in Hcl as [Hcl ->]. apply is_Some_b_false in Hcl.
    subst r3. apply recv_Ok in Hr3.
    apply verdict_bind_Ok in H as (w6 & errF & He & H).
    apply errFunc_eq in He as [-> ->].
    destruct (tabletconn.ErrFunc conn s3 wd) as [e|] eqn:EF;
      [discriminate H|].
    unfold verdict in H. simpl in H.
    assert (HF : Failed (tlog wd) = false) by congruence.
    exists wa, s, wb, s1, qr1, wc, s2, qr2, wd, s3. repeat split; assumption.
  - intros (wa & s & wb & s1 & qr1 & wc & s2 & qr2 & wd & s3
            & H0 & H1 & D1 & H2 & D2 & H3 & H4 & HF).
    unfold testStreamExecute. open_test. unfold recv, errFunc.
    rewrite H0. simpl. rewrite H1. simpl. rewrite D1, DeepEqual_same. simpl.
    rewrite H2. simpl. rewrite D2, DeepEqual_same. simpl.
    rewrite H3. simpl. rewrite H4. simpl. by rewrite HF.
Qed.

Lemma stream_test_demands_witness :
  verdict (testStreamExecute (replayConn
             [streamExecuteQueryResult1; streamExecuteQueryResult2] None)
             (CreateFakeServer [] false)) = (false, Ok tt).
Proof.
  apply (stream_test_demands
           (replayConn [streamExecuteQueryResult1; streamExecuteQueryResult2] None)
           (CreateFakeServer [] false)).
  - split; intros; intros w H; simpl;
      try exact H; by repeat match goal with
                         | |- context [match ?s with _ => _ end] => destruct s
                         end.
  - eexists _, _, _, _, _, _, _, _, _, _.
    repeat split; vm_compute; reflexivity.
Defined.

Lemma close_eq (c : WaitChan) (w w' : World) :
  close c w = (w', Ok tt) ->
  getChan c w = Go.Open /\ w' = setChan c Go.Closed w.
Proof.
  unfold close. destruct (getChan c w) eqn:E; intros H; inversion H; auto.
Qed.

(** X17: on a connection that does not clear recorded failures,
    [testStreamExecuteError] ends without a failure exactly when the call
    returns no error, the fields-only chunk is received while [errorWait] is
    still open, and, [errorWait] closed, the stream closes without another
    chunk and the terminal error accessor reports an error with the expected
    text. *)
Theorem stream_error_test_demands (conn : TabletConn) (w : World) :
  keepsFailures conn ->
  (verdict (testStreamExecuteError conn w) = (false, Ok tt) <->
   exists wa s wb s1 qr1 wc s2 e,
     tabletconn.StreamExecute conn streamExecuteQuery streamExecuteBindVars
       streamExecuteTransactionID
       (setLog (Log_ (tlog w) "testStreamExecuteError") w)
     = (wa, (s, None))
     /\ tabletconn.Recv conn s wa = (wb, (s1, Got qr1))
     /\ nilRowsIfEmpty qr1 = streamExecuteQueryResult1
     /\ chErrorWait wb = Go.Open
     /\ tabletconn.Recv conn s1 (setChan errorWait Go.Closed wb)
        = (wc, (s2, ChanClosed))
     /\ tabletconn.ErrFunc conn s2 wc = Some e
     /\ Go.Contains (Error e) expectedErrMatch = true
     /\ Failed (tlog wc) = false).
Proof.
  intros K. split.
  - intros H. unfold testStreamExecuteError in H.
    apply verdict_bind_Ok in H as (w1 & [] & Hlog & H).
    apply tLog_eq in Hlog. subst w1.
    apply verdict_bind_Ok in H as (wa & [s err] & Hcall & H).
    apply call_Ok in Hcall.
    apply verdict_bind_Ok in H as (w2 & [] & Hnil & H).
    apply when_Fatalf_Ok in Hnil as [Hnil ->]. apply isNotNil_false in Hnil.
    subst err.
    apply verdict_bind_Ok in H as (wb & [s1 r1] & Hr1 & H).
    destruct r1 as [qr1|]; [|discriminate H]. apply recv_Ok in Hr1.
    apply verdict_bind_Ok in H as (w3 & [] & Hc1 & H).
    apply when_Errorf_Ok in Hc1 as [[Hc1 ->]|Hc1];
      [|exfalso; revert H; apply keeps_verdict; [|exact Hc1];
        destruct K; repeat keeps_step].
    apply negb_false_iff in Hc1. apply (proj1 (DeepEqual_true _ _)) in Hc1.
    apply verdict_bind_Ok in H as (w4 & [] & Hcl & H).
    apply close_eq in Hcl as [Hopen ->].
    apply verdict_bind_Ok in H as (wc & [s2 r2] & Hr2 & H).
    apply verdict_bind_Ok in H as (w5 & [] & Hmore & H).
    apply when_Fatalf_Ok in Hmore as [Hmore ->]. apply is_Some_b_false in Hmore.
    subst r2. apply recv_Ok in Hr2.
    apply verdict_bind_Ok in H as (w6 & errF & He & H).
    apply errFunc_eq in He as [-> ->].
    apply verdict_bind_Ok in H as (w7 & [] & Hnone & H).
    apply when_Fatalf_Ok in Hnone as [Hnone ->].
    apply verdict_bind_Ok in H as (w8 & [] & Htxt & H).
    apply when_Errorf_Ok in Htxt as [[Htxt ->]|Htxt];
      [|exfalso; revert H; apply keeps_verdict; [apply keeps_make|exact Htxt]].
    apply nilOrLacks_errorWith in Htxt as (e & He & Hc).
    unfold verdict, make in H. simpl in H.
    assert (HF : Failed (tlog wc) = false)
      by (destruct wc; simpl in *; congruence).
    exists wa, s, wb, s1, qr1, wc, s2, e. repeat split; assumption.
  - intros (wa & s & wb & s1 & qr1 & wc & s2 & e
            & H0 & H1 & D1 & HO & H2 & H3 & HC & HF).
    unfold testStreamExecuteError. open_test. unfold recv, errFunc, close, make.
    unfold setChan in H2.
    rewrite H0. simpl. rewrite H1. simpl. rewrite D1, DeepEqual_same. simpl.
    rewrite HO. simpl. rewrite H2. simpl. rewrite H3. simpl. rewrite HC. simpl.
    by rewrite HF.
Qed.

Lemma stream_error_test_demands_witness :
  exists wa s wb s1 qr1 wc s2 e,
    tabletconn.StreamExecute (refConn false testSessionID) streamExecuteQuery
      streamExecuteBindVars streamExecuteTransactionID
      (setLog (Log_ [] "testStreamExecuteError")
         (setFake (setHasError true plainFake) (CreateFakeServer [] false)))
    = (wa, (s, None))
    /\ tabletconn.Recv (refConn false testSessionID) s wa = (wb, (s1, Got qr1))
    /\ nilRowsIfEmpty qr1 = streamExecuteQueryResult1
    /\ chErrorWait wb = Go.Open
    /\ tabletconn.Recv (refConn false testSessionID) s1
         (setChan errorWait Go.Closed wb) = (wc, (s2, ChanClosed))
    /\ tabletconn.ErrFunc (refConn false testSessionID) s2 wc = Some e
    /\ Go.Contains (Error e) expectedErrMatch = true
    /\ Failed (tlog wc) = false.
Proof.
  apply (stream_error_test_demands (refConn false testSessionID)
           (setFake (setHasError true plainFake) (CreateFakeServer [] false))
           (refConn_keepsFailures false testSessionID)).
  vm_compute. reflexivity.
Defined.

(** * How the fake waits for the test *)

Lemma advance_StreamExecute_rest
    (f : FakeQueryService) (query : Query) (w : World) :
  panics f && streamExecutePanicsEarly f = false ->
  exists w0,
    logOnly w w0
    /\ advance (StreamExecute f query) w
       = (w0, Yield streamExecuteQueryResult1
                (if panics f && negb (streamExecutePanicsEarly f)
                 then PRecv panicWait
                        (PDone (Panicked (Errorf "test-triggered panic late")))
                 else if hasError f
                 then PRecv errorWait (PDone (Returned (Some testTabletError)))
                 else PSend streamExecuteQueryResult2 (fun err =>
                      PErrorfIf (isNotNil err) "sendReply2 failed: %v" [VErr err]
                      (PDone (Returned None))))).
Proof.
  intros He. unfold StreamExecute. rewrite He.
  match goal with |- context [advance (PErrorfIf ?c ?fmt ?a ?k) w] =>
    destruct (advance_PErrorfIf c fmt a k w) as (w1 & L1 & E1) end.
  rewrite E1. clear E1.
  match goal with |- context [advance (PErrorfIf ?c ?fmt ?a ?k) w1] =>
    destruct (advance_PErrorfIf c fmt a k w1) as (w2 & L2 & E2) end.
  rewrite E2. clear E2.
  match goal with |- context [advance (PErrorfIf ?c ?fmt ?a ?k) w2] =>
    destruct (advance_PErrorfIf c fmt a k w2) as (w3 & L3 & E3) end.
  rewrite E3. clear E3.
  exists w3. split; [eauto using logOnly_trans|reflexivity].
Qed.

(** X18: past its first chunk the fake waits for the test before it fails.
    Set to panic late it goes no further while [panicWait] is open, whatever
    the state of [errorWait], and panics once [panicWait] is closed; set to
    return the generic error it goes no further while [errorWait] is open,
    and returns the error once it is closed; with its switches off it waits
    for nothing and sends the rows-only chunk. *)
Theorem fake_waits_for_the_test
    (f : FakeQueryService) (query : Query) (w : World) :
  panics f && streamExecutePanicsEarly f = false ->
  exists w0 k,
    advance (StreamExecute f query) w = (w0, Yield streamExecuteQueryResult1 k)
    /\ (panics f = true ->
        forall w1,
          (chPanicWait w1 = Go.Open -> advance k w1 = (w1, Blocked k))
          /\ (chPanicWait w1 = Go.Closed ->
              advance k w1
              = (w1, Finished (Panicked (Errorf "test-triggered panic late")))))
    /\ (panics f = false -> hasError f = true ->
        forall w1,
          (chErrorWait w1 = Go.Open -> advance k w1 = (w1, Blocked k))
          /\ (chErrorWait w1 = Go.Closed ->
              advance k w1 = (w1, Finished (Returned (Some testTabletError)))))
    /\ (panics f = false -> hasError f = false ->
        forall w1,
          exists k',
            advance k w1 = (w1, Yield streamExecuteQueryResult2 k')
            /\ forall w2, advance k' w2 = (w2, Finished (Returned None))).
Proof.
  intros He.
  destruct (advance_StreamExecute_rest f query w He) as (w0 & _ & Ha).
  eexists w0, _. split; [exact Ha|].
  destruct (panics f) eqn:Hp, (streamExecutePanicsEarly f) eqn:Hy,
    (hasError f) eqn:Hh; simpl in *; try discriminate;
    repeat split; try discriminate; intros;
    repeat match goal with
           | H : _ = Go.Open |- _ => rewrite H
           | H : _ = Go.Closed |- _ => rewrite H
           | |- _ /\ _ => split; intros
           end; simpl;
    rewrite ?H; try reflexivity;
    try (eexists; split; [reflexivity|reflexivity]).
Qed.

Lemma fake_waits_for_the_test_witness :
  exists w0 k,
    advance (StreamExecute (setHasError true plainFake)
               {| Sql := streamExecuteQuery;
                  BindVariables := streamExecuteBindVars;
                  SessionId := testSessionID;
                  TransactionId := streamExecuteTransactionID |})
      (CreateFakeServer [] false)
    = (w0, Yield streamExecuteQueryResult1 k)
    /\ advance k (CreateFakeServer [] false)
       = (CreateFakeServer [] false, Blocked k).
Proof.
  destruct (fake_waits_for_the_test (setHasError true plainFake)
              {| Sql := streamExecuteQuery;
                 BindVariables := streamExecuteBindVars;
                 SessionId := testSessionID;
                 TransactionId := streamExecuteTransactionID |}
              (CreateFakeServer [] false) eq_refl)
    as (w0 & k & Ha & _ & Hb & _).
  exists w0, k. split; [exact Ha|].
  apply (Hb eq_refl eq_refl (CreateFakeServer [] false)). reflexivity.
Defined.

(** * The tests do not read the test log *)

Lemma prep_setLog t0 t w : prep t0 (setLog t w) = setLog (t0 ++ t)%list w.
Proof. reflexivity. Qed.

Lemma framed_ret {A} (a : A) : framed (ret a).
Proof. intros t0 w. reflexivity. Qed.

Lemma framed_bind {A B} (m : TestM A) (k : A -> TestM B) :
  framed m -> (forall a, framed (k a)) -> framed (bind m k).
Proof.
  intros Hm Hk t0 w. unfold bind. rewrite Hm.
  destruct (m w) as [w' [a|s]]; simpl; [apply Hk|reflexivity].
Qed.

Lemma framed_tLog msg : framed (tLog msg).
Proof.
  intros t0 w. unfold tLog, prep, Log_. simpl. by rewrite app_assoc.
Qed.

Lemma framed_tErrorf fmt a : framed (tErrorf fmt a).
Proof.
  intros t0 w. unfold tErrorf, prep, Errorf_. simpl. by rewrite app_assoc.
Qed.

Lemma framed_tFatalf {A} fmt a : framed (@tFatalf A fmt a).
Proof.
  intros t0 w. unfold tFatalf, prep, Fatalf_. simpl. by rewrite app_assoc.
Qed.

Lemma framed_when cond m : framed m -> framed (when cond m).
Proof. intros Hm. destruct cond; [exact Hm|apply framed_ret]. Qed.

Lemma framed_call {A} (m : World -> World * A) : framed m -> framed (call m).
Proof.
  intros Hm t0 w. unfold call. rewrite Hm. by destruct (m w).
Qed.

Lemma framed_recv (conn : TabletConn) (s : tabletconn.Stream conn) :
  framed (tabletconn.Recv conn s) -> framed (recv conn s).
Proof.
  intros Hm t0 w. unfold recv. rewrite Hm.
  by destruct (tabletconn.Recv conn s w) as [w' [s' [qr| |]]].
Qed.

Lemma framed_errFunc (conn : TabletConn) (s : tabletconn.Stream conn) :
  framedConn conn -> framed (errFunc conn s).
Proof. intros K t0 w. unfold errFunc. simpl. by rewrite (fErrFunc _ K). Qed.

Lemma framed_close c : framed (close c).
Proof.
  intros t0 w. unfold close.
  replace (getChan c (prep t0 w)) with (getChan c w) by (by destruct c).
  destruct (getChan c w); [|reflexivity]. by destruct c.
Qed.

Lemma framed_make c : framed (make c).
Proof. intros t0 w. by destruct c. Qed.

Lemma framed_updFake g : framed (updFake g).
Proof. intros t0 w. reflexivity. Qed.

Lemma framed_getFlag : framed getFlag.
Proof. intros t0 w. reflexivity. Qed.

Ltac framed_step K :=
  first
    [ apply framed_ret | apply framed_tLog | apply framed_tErrorf
    | apply framed_tFatalf | apply framed_close | apply framed_make
    | apply framed_updFake | apply framed_getFlag
    | apply framed_errFunc; exact K
    | apply framed_when
    | apply framed_call; solve [apply K]
    | apply framed_recv; solve [apply K]
    | apply framed_bind; [|intros ?]
    | match goal with
      | |- framed (let (_, _) := ?x in _) => destruct x
      | |- framed (match ?x with _ => _ end) => destruct x
      | |- framed (if ?b then _ else _) => destruct b
      end ].

Lemma framed_TestSuite (conn : TabletConn) :
  framedConn conn -> framed (TestSuite conn).
Proof.
  intros K. unfold TestSuite.
  repeat (apply framed_bind; [|intros _]); try apply framed_updFake;
    unfold testBegin, testBegin2, testCommit, testRollback, testExecute,
      testStreamExecute, testStreamExecute2, testExecuteBatch, testSplitQuery,
      testBeginError, testBegin2Error, testCommitError, testRollbackError,
      testExecuteError, testStreamExecuteError, testStreamExecute2Error,
      testExecuteBatchError, testSplitQueryError, testBeginPanics,
      testBegin2Panics, testCommitPanics, testRollbackPanics, testExecutePanics,
      testStreamExecutePanics, testStreamExecute2Panics, testExecuteBatchPanics,
      testSplitQueryPanics;
    repeat framed_step K.
Qed.

Lemma ErrorfIf_app cond (t0 t : T) fmt a :
  ErrorfIf cond (t0 ++ t)%list fmt a = (t0 ++ ErrorfIf cond t fmt a)%list.
Proof. destruct cond; simpl; [unfold Errorf_; by rewrite app_assoc|reflexivity]. Qed.

Lemma Begin_framed f session txInfo (t0 t : T) :
  Begin f session txInfo (t0 ++ t)%list
  = (let '(t', tx, o) := Begin f session txInfo t in ((t0 ++ t')%list, tx, o)).
Proof.
  unfold Begin. destruct (hasError f), (panics f); simpl;
    by rewrite ?ErrorfIf_app.
Qed.

Lemma Commit_framed f session (t0 t : T) :
  Commit f session (t0 ++ t)%list
  = (let '(t', o) := Commit f session t in ((t0 ++ t')%list, o)).
Proof.
  unfold Commit. destruct (hasError f), (panics f); simpl;
    by rewrite ?ErrorfIf_app.
Qed.

Lemma Rollback_framed f session (t0 t : T) :
  Rollback f session (t0 ++ t)%list
  = (let '(t', o) := Rollback f session t in ((t0 ++ t')%list, o)).
Proof.
  unfold Rollback. destruct (hasError f), (panics f); simpl;
    by rewrite ?ErrorfIf_app.
Qed.

Lemma Execute_framed f query qr (t0 t : T) :
  Execute f query qr (t0 ++ t)%list
  = (let '(t', r, o) := Execute f query qr t in ((t0 ++ t')%list, r, o)).
Proof.
  unfold Execute. destruct (hasError f), (panics f); simpl;
    by rewrite ?ErrorfIf_app.
Qed.

Lemma ExecuteBatch_framed f queryList qrl (t0 t : T) :
  ExecuteBatch f queryList qrl (t0 ++ t)%list
  = (let '(t', r, o) := ExecuteBatch f queryList qrl t in
     ((t0 ++ t')%list, r, o)).
Proof.
  unfold ExecuteBatch. destruct (hasError f), (panics f); simpl;
    by rewrite ?ErrorfIf_app.
Qed.

Lemma SplitQuery_framed f req sr (t0 t : T) :
  SplitQuery f req sr (t0 ++ t)%list
  = (let '(t', r, o) := SplitQuery f req sr t in ((t0 ++ t')%list, r, o)).
Proof.
  unfold SplitQuery. destruct (hasError f), (panics f); simpl;
    by rewrite ?ErrorfIf_app.
Qed.

Lemma advance_framed (p : Proc) : framed (advance p).
Proof.
  induction p as [fmt a k IH|qr k _|c k IH|o]; intros t0 w; simpl.
  - rewrite <- IH. f_equal. unfold prep, Errorf_. simpl. by rewrite app_assoc.
  - reflexivity.
  - replace (getChan c (prep t0 w)) with (getChan c w) by (by destruct c).
    destruct (getChan c w); [reflexivity|apply IH].
  - reflexivity.
Qed.

Lemma refConn_framed (eager : bool) (sid : Z) : framedConn (refConn eager sid).
Proof.
  split;
    cbn [tabletconn.Begin tabletconn.Begin2 tabletconn.Commit tabletconn.Commit2
         tabletconn.Rollback tabletconn.Rollback2 tabletconn.Execute
         tabletconn.ExecuteBatch tabletconn.StreamExecute
         tabletconn.StreamExecute2 tabletconn.SplitQuery tabletconn.Recv
         tabletconn.ErrFunc refConn].
  - intros t0 w. unfold refBegin. cbn [prep setLog fake tlog].
    rewrite Begin_framed. by destruct (Begin _ _ _ _) as [[t tx] o].
  - intros t0 w. unfold refBegin. cbn [prep setLog fake tlog].
    rewrite Begin_framed. by destruct (Begin _ _ _ _) as [[t tx] o].
  - intros id t0 w. unfold refCommit. cbn [prep setLog fake tlog].
    rewrite Commit_framed. by destruct (Commit _ _ _) as [t o].
  - intros id t0 w. unfold refCommit. cbn [prep setLog fake tlog].
    rewrite Commit_framed. by destruct (Commit _ _ _) as [t o].
  - intros id t0 w. unfold refRollback. cbn [prep setLog fake tlog].
    rewrite Rollback_framed. by destruct (Rollback _ _ _) as [t o].
  - intros id t0 w. unfold refRollback. cbn [prep setLog fake tlog].
    rewrite Rollback_framed. by destruct (Rollback _ _ _) as [t o].
  - intros q bv id t0 w. unfold refExecute. cbn [prep setLog fake tlog].
    rewrite Execute_framed. by destruct (Execute _ _ _ _) as [[t r] o].
  - intros qs id t0 w. unfold refExecuteBatch. cbn [prep setLog fake tlog].
    rewrite ExecuteBatch_framed. by destruct (ExecuteBatch _ _ _ _) as [[t r] o].
  - intros q bv id t0 w. unfold refStreamExecute.
    destruct eager; [|reflexivity].
    cbn [prep setLog fake]. fold (prep t0 w). rewrite advance_framed.
    by destruct (advance _ w) as [w' [qr k|p'|o]].
  - intros q bv id t0 w. unfold refStreamExecute.
    destruct eager; [|reflexivity].
    cbn [prep setLog fake]. fold (prep t0 w). rewrite advance_framed.
    by destruct (advance _ w) as [w' [qr k|p'|o]].
  - intros q k t0 w. unfold refSplitQuery. cbn [prep setLog fake tlog].
    rewrite SplitQuery_framed. by destruct (SplitQuery _ _ _ _) as [[t r] o].
  - intros s t0 w. unfold refRecv.
    destruct (pending s); [|reflexivity].
    destruct (producer s) as [p|]; [|reflexivity].
    rewrite advance_framed. by destruct (advance p w) as [w' [qr k|p'|o]].
  - reflexivity.
Qed.

(** X19: none of the tests reads the test log.  On a connection whose
    methods do not read it either, the suite run after earlier entries [t0]
    does exactly what it does without them: same result, same final state,
    the earlier entries still in front of its own; so the run is marked
    failed iff it was already or the suite alone fails. *)
Theorem suite_does_not_read_the_log
    (conn : TabletConn) (K : framedConn conn) (t0 : T) (w : World) :
  TestSuite conn (prep t0 w)
    = (prep t0 (fst (TestSuite conn w)), snd (TestSuite conn w))
  /\ verdict (TestSuite conn (prep t0 w))
     = (Failed t0 || fst (verdict (TestSuite conn w)),
        snd (verdict (TestSuite conn w))).
Proof.
  pose proof (framed_TestSuite conn K t0 w) as H. split; [exact H|].
  unfold verdict. rewrite H. destruct (TestSuite conn w) as [w' r]. simpl.
  by rewrite Failed_app.
Qed.

Lemma suite_does_not_read_the_log_witness :
  verdict (TestSuite (refConn true testSessionID)
             (prep (Errorf_ [] "earlier" []) (CreateFakeServer [] true)))
  = (true, Ok tt).
Proof.
  rewrite (proj2 (suite_does_not_read_the_log _ (refConn_framed true _) _ _)).
  vm_compute. reflexivity.
Defined.

(** X20: on the reference connection the suite can be run at any point of
    a test run and again after itself.  Started after any entries [t0] on
    the fake as [CreateFakeServer] makes it, it runs to its end, records no
    failure of its own and leaves the switches of the fake and both channels
    as it found them; two runs in a row end the same way. *)
Theorem suite_is_rerunnable (eager flag : bool) (t0 : T) :
  exists t1 t2,
    Failed t1 = false /\ Failed t2 = false
    /\ TestSuite (refConn eager testSessionID) (CreateFakeServer t0 flag)
       = (CreateFakeServer (t0 ++ t1)%list flag, Ok tt)
    /\ (TestSuite (refConn eager testSessionID) ;;
        TestSuite (refConn eager testSessionID)) (CreateFakeServer t0 flag)
       = (CreateFakeServer (t0 ++ t2)%list flag, Ok tt).
Proof.
  pose (conn := refConn eager testSessionID).
  assert (H1 : exists t1, Failed t1 = false /\
            TestSuite conn (CreateFakeServer [] flag)
            = (CreateFakeServer t1 flag, Ok tt)).
  { destruct eager, flag; eexists; split.
    all: try (vm_compute; reflexivity).
    all: vm_compute; reflexivity. }
  destruct H1 as (t1 & HF & H1).
  assert (H : forall t, TestSuite conn (CreateFakeServer t flag)
                        = (CreateFakeServer (t ++ t1)%list flag, Ok tt)).
  { intros t.
    pose proof (framed_TestSuite conn (refConn_framed eager _) t
                  (CreateFakeServer [] flag)) as H.
    rewrite H1 in H. unfold prep in H. simpl in H.
    rewrite app_nil_r in H. exact H. }
  exists t1, (t1 ++ t1)%list. repeat split; try exact HF.
  - rewrite Failed_app, HF. reflexivity.
  - apply H.
  - unfold bind. rewrite H, H. by rewrite app_assoc.
Qed.
